(** * The project set-up wizard of ts-template (setup/setup.ts)

    A shallow embedding of the wizard: the feature registry, the
    computation of what a selection removes, the edits of the manifest,
    the removal of files, the generated README and the prompt sequence
    with its cancellation path, followed by the properties the
    specification states about them. *)

From stdpp Require Import gmap strings list fin_maps.
From Stdlib Require Import Ascii String.

#[local] Set Warnings "-register-all".

Local Open Scope string_scope.
Local Open Scope list_scope.

(** ** Feature registry *)

(** [interface FeatureConfig]: [hint] and [scripts] are optional. *)
Record FeatureConfig := {
  label : string;
  hint : option string;
  files : list string;
  devDeps : list string;
  scripts : option (list string)
}.

#[global] Instance FeatureConfig_eq_dec : EqDecision FeatureConfig.
Proof. solve_decision. Defined.

(** [const FEATURES]: an object literal; its keys are not array indices,
    so [Object.keys] and [Object.entries] list them in the order written. *)
Definition FEATURES : list (string * FeatureConfig) :=
  [ ("gitHooks",
      {| label := "Git hooks (Husky + commitlint + lint-staged)";
         hint := Some "pre-commit testing, commit message linting";
         files := [".husky"; "commitlint.config.js"; ".lintstagedrc"];
         devDeps := ["@commitlint/cli"; "@commitlint/config-conventional";
                     "husky"; "lint-staged"];
         scripts := Some ["prepare"] |});
    ("githubTemplates",
      {| label := "GitHub issue & PR templates";
         hint := Some "bug report, feature request, PR template";
         files := [".github/ISSUE_TEMPLATE"; ".github/PULL_REQUEST_TEMPLATE.md"];
         devDeps := [];
         scripts := None |});
    ("githubCI",
      {| label := "GitHub Actions CI workflow";
         hint := Some "automated testing on push/PR";
         files := [".github/workflows"];
         devDeps := [];
         scripts := None |});
    ("markdownlint",
      {| label := "Markdownlint";
         hint := Some "markdown file linting";
         files := [".markdownlint.json"; ".markdownlintignore"];
         devDeps := ["markdownlint-cli"];
         scripts := None |});
    ("codeOfConduct",
      {| label := "Code of Conduct";
         hint := Some "Contributor Covenant";
         files := ["CODE_OF_CONDUCT.md"];
         devDeps := [];
         scripts := None |});
    ("claudeCode",
      {| label := "Claude Code configuration";
         hint := Some "CLAUDE.md with Bun API guidelines";
         files := ["CLAUDE.md"];
         devDeps := [];
         scripts := None |}) ].

(** [Object.keys(FEATURES)]. *)
Definition featureKeys : list string := FEATURES.*1.

(** [FEATURES[key]]: [None] stands for [undefined]. *)
Fixpoint getFeature (reg : list (string * FeatureConfig)) (key : string)
  : option FeatureConfig :=
  match reg with
  | [] => None
  | (k, f) :: reg' => if decide (k = key) then Some f else getFeature reg' key
  end.

(** [xs.includes(x)] on an array of strings. *)
Definition includes (xs : list string) (x : string) : bool :=
  bool_decide (x ∈ xs).

(** ** Resolution: what a selection removes *)

(** [Object.keys(FEATURES).filter((k) => !selectedFeatures.includes(k))]. *)
Definition deselected (selectedFeatures : list string) : list string :=
  filter (λ k, includes selectedFeatures k = false) featureKeys.

(** The three arrays the deselection loop fills. *)
Record Removal := {
  depsToRemove : list string;
  filesToRemove : list string;
  scriptsToRemove : list string
}.

Definition noRemoval : Removal :=
  {| depsToRemove := []; filesToRemove := []; scriptsToRemove := [] |}.

(** One turn of [for (const key of deselected)]: the three [push]es.
    [None] is the [TypeError] of reading [.files] of [undefined]. *)
Definition collectFeature (acc : Removal) (key : string) : option Removal :=
  feature ← getFeature FEATURES key;
  Some {| filesToRemove := filesToRemove acc ++ files feature;
          depsToRemove := depsToRemove acc ++ devDeps feature;
          scriptsToRemove :=
            match scripts feature with
            | Some ss => scriptsToRemove acc ++ ss
            | None => scriptsToRemove acc
            end |}.

Fixpoint collectRemoval (acc : Removal) (keys : list string) : option Removal :=
  match keys with
  | [] => Some acc
  | key :: keys' => acc' ← collectFeature acc key; collectRemoval acc' keys'
  end.

(** The last cross-feature rule, the only one that queues a path:
    [if (!includes("githubTemplates") && !includes("githubCI"))
       filesToRemove.push(".github")]. *)
Definition githubDirRule (selectedFeatures : list string) (fs : list string)
  : list string :=
  if negb (includes selectedFeatures "githubTemplates")
     && negb (includes selectedFeatures "githubCI")
  then fs ++ [".github"] else fs.

(** The array handed to [removeFiles(filesToRemove)]. *)
Definition resolvedFiles (selectedFeatures : list string) : option (list string) :=
  r ← collectRemoval noRemoval (deselected selectedFeatures);
  Some (githubDirRule selectedFeatures (filesToRemove r)).

(** ** JSON documents as the run time holds them *)

(** What [JSON.parse] returns.  An object keeps its members in property
    order; a number is held as the text [Number::toString] gives for it,
    which is also what [JSON.stringify] writes. *)
Inductive value :=
| JNull
| JBool (b : bool)
| JNum (repr : string)
| JStr (s : string)
| JArr (items : list value)
| JObj (members : list (string * value)).

(** [o[k]] on the members of an object; [None] is [undefined]. *)
Fixpoint objGet (k : string) (ms : list (string * value)) : option value :=
  match ms with
  | [] => None
  | (k', v) :: ms' => if decide (k' = k) then Some v else objGet k ms'
  end.

(** [o[k] = x]: an existing property keeps its place, a new one goes last
    (every name the wizard stores is a plain name, not an array index). *)
Fixpoint objSet (k : string) (x : value) (ms : list (string * value))
  : list (string * value) :=
  match ms with
  | [] => [(k, x)]
  | (k', v) :: ms' =>
      if decide (k' = k) then (k', x) :: ms' else (k', v) :: objSet k x ms'
  end.

(** [delete o[k]]. *)
Definition objDelete (k : string) (ms : list (string * value))
  : list (string * value) :=
  filter (λ kv, kv.1 ≠ k) ms.

(** The property names of an object, in order. *)
Definition objKeys (ms : list (string * value)) : list string := ms.*1.

(** [v[k]] for a [v] that is not [null]: only objects own the names the
    wizard reads ([scripts], [devDependencies]). *)
Definition getProp (v : value) (k : string) : option value :=
  match v with
  | JObj ms => objGet k ms
  | _ => None
  end.

(** [v[k] = x] in a module (strict mode).  [None] is the [TypeError] raised
    on [null] and on the primitives.  A name stored on an array is not an
    element: [JSON.stringify] does not write it and the wizard never reads
    back a name it stored, so the array is unchanged as a document. *)
Definition setProp (v : value) (k : string) (x : value) : option value :=
  match v with
  | JObj ms => Some (JObj (objSet k x ms))
  | JArr _ => Some v
  | JNull | JBool _ | JNum _ | JStr _ => None
  end.

(** [delete v[k]] for the fixed names the wizard deletes (none is an
    index or [length]).  [None] is the [TypeError] raised on [null]; on a
    primitive or an array, which own no such name, nothing happens. *)
Definition deleteProp (v : value) (k : string) : option value :=
  match v with
  | JNull => None
  | JObj ms => Some (JObj (objDelete k ms))
  | JBool _ | JNum _ | JStr _ | JArr _ => Some v
  end.

(** [ToBoolean]; [None] is [undefined].  Of the numbers [JSON.parse] can
    return only zero, written ["0"], is falsy. *)
Definition truthy (o : option value) : bool :=
  match o with
  | None | Some JNull => false
  | Some (JBool b) => b
  | Some (JNum r) => negb (bool_decide (r = "0"))
  | Some (JStr s) => negb (bool_decide (s = ""))
  | Some (JArr _) | Some (JObj _) => true
  end.

(** [for (const k of ks) delete o[k]] on one aliased object. *)
Fixpoint deleteProps (v : value) (ks : list string) : option value :=
  match ks with
  | [] => Some v
  | k :: ks' => v' ← deleteProp v k; deleteProps v' ks'
  end.

(** An edit made through an alias of [pkg[k]]: [const o = pkg[k]] followed
    by a mutation of [o] is seen through [pkg], and the property keeps its
    place. *)
Definition editProp (pkg : value) (k : string) (f : value → option value)
  : option value :=
  match pkg with
  | JObj ms =>
      match objGet k ms with
      | Some o => o' ← f o; Some (JObj (objSet k o' ms))
      | None => Some pkg
      end
  | _ => Some pkg
  end.

(** *** [JSON.stringify(value, null, gap)] *)

Definition hexDigit (n : N) : ascii :=
  ascii_of_N (if (n <? 10)%N then 48 + n else 87 + n)%N.

(** [QuoteJSONString], one code unit at a time. *)
Definition escapeChar (c : ascii) : string :=
  let n := N_of_ascii c in
  if (n =? 8)%N then "\b"
  else if (n =? 9)%N then "\t"
  else if (n =? 10)%N then "\n"
  else if (n =? 12)%N then "\f"
  else if (n =? 13)%N then "\r"
  else if (n =? 34)%N then String "\" (String c "")
  else if (n =? 92)%N then "\\"
  else if (n <? 32)%N
       then "\u00" +:+ String (hexDigit (n / 16)) (String (hexDigit (n mod 16)) "")
  else String c "".

Fixpoint escapeString (s : string) : string :=
  match s with
  | EmptyString => ""
  | String c s' => escapeChar c +:+ escapeString s'
  end.

Definition quoteJSONString (s : string) : string :=
  String (ascii_of_N 34) (escapeString s +:+ String (ascii_of_N 34) "").

Definition lineBreak : ascii := ascii_of_N 10.
Definition LF : string := String lineBreak "".
Definition TAB : string := String (ascii_of_N 9) "".

(** The bracketed, comma separated body shared by [SerializeJSONArray] and
    [SerializeJSONObject]; [indent] is the indentation of the parts. *)
Definition wrapParts (gap stepback indent opening closing : string)
    (parts : list string) : string :=
  match parts with
  | [] => opening +:+ closing
  | _ =>
      if bool_decide (gap = "")
      then opening +:+ String.concat "," parts +:+ closing
      else opening +:+ LF +:+ indent
             +:+ String.concat ("," +:+ LF +:+ indent) parts
             +:+ LF +:+ stepback +:+ closing
  end.

(** [SerializeJSONProperty] for the values [JSON.parse] returns. *)
Fixpoint serialize (gap indent : string) (v : value) : string :=
  match v with
  | JNull => "null"
  | JBool true => "true"
  | JBool false => "false"
  | JNum r => r
  | JStr s => quoteJSONString s
  | JArr items =>
      wrapParts gap indent (indent +:+ gap) "[" "]"
        (map (serialize gap (indent +:+ gap)) items)
  | JObj ms =>
      wrapParts gap indent (indent +:+ gap) "{" "}"
        (map (λ kv, quoteJSONString kv.1
                      +:+ (if bool_decide (gap = "") then ":" else ": ")
                      +:+ serialize gap (indent +:+ gap) kv.2) ms)
  end.

Definition JSON_stringify (v : value) (gap : string) : string :=
  serialize gap "" v.

(** ** Text helpers of the wizard *)

Definition isDigit (c : ascii) : bool :=
  let n := N_of_ascii c in (48 <=? n)%N && (n <=? 57)%N.

Fixpoint dropDigits (s : string) : string :=
  match s with
  | String c s' => if isDigit c then dropDigits s' else s
  | EmptyString => s
  end.

(** [\d+]: one digit at least, then as many as follow. *)
Definition someDigits (s : string) : option string :=
  match s with
  | String c s' => if isDigit c then Some (dropDigits s') else None
  | EmptyString => None
  end.

(** [\.] *)
Definition aDot (s : string) : option string :=
  match s with
  | String c s' => if bool_decide (c = "."%char) then Some s' else None
  | EmptyString => None
  end.

(** [/^\d+\.\d+\.\d+/.test(v)]. *)
Definition semverPrefix (v : string) : bool :=
  let rest : option string :=
    r1 ← someDigits v; r2 ← aDot r1; r3 ← someDigits r2; r4 ← aDot r3;
    someDigits r4 in
  match rest with Some _ => true | None => false end.

(** The [validate] callback of the version prompt: [Some] message is a
    rejection, [None] is [undefined]. *)
Definition validateVersion (v : string) : option string :=
  if semverPrefix v then None else Some "Must be valid semver (e.g. 0.1.0)".

(** [\s] on a text taken as bytes: the ASCII white space. *)
Definition isSpace (c : ascii) : bool :=
  let n := N_of_ascii c in
  (n =? 32)%N || ((9 <=? n)%N && (n <=? 13)%N).

Fixpoint dropSpaces (s : string) : string :=
  match s with
  | String c s' => if isSpace c then dropSpaces s' else s
  | EmptyString => s
  end.

(** The rest of [s] after the literal [lit], when [s] starts with it. *)
Fixpoint dropLiteral (lit s : string) : option string :=
  match lit, s with
  | EmptyString, _ => Some s
  | String a lit', String b s' =>
      if bool_decide (a = b) then dropLiteral lit' s' else None
  | String _ _, EmptyString => None
  end.

(** The rest of [s] after the first occurrence of [lit]: the lazy [.*?]
    (with the [s] flag) followed by a literal. *)
Fixpoint afterFirst (lit s : string) : option string :=
  match dropLiteral lit s with
  | Some rest => Some rest
  | None =>
      match s with
      | String _ s' => afterFirst lit s'
      | EmptyString => None
      end
  end.

(** [text.replace(/\n\s*<opening>.*?<closing>/s, "\n")]: the leftmost line
    break that is followed by white space and [opening]; the match ends
    with the first [closing] after it.  [\s*] cannot stop short, since
    [opening] starts with a dash. *)
Fixpoint replaceStep (opening closing text : string) : string :=
  match text with
  | EmptyString => EmptyString
  | String c text' =>
      if bool_decide (c = lineBreak) then
        match (dropLiteral opening (dropSpaces text') ≫= afterFirst closing
               : option string) with
        | Some rest => LF +:+ rest
        | None => String c (replaceStep opening closing text')
        end
      else String c (replaceStep opening closing text')
  end.

(** The two [ci.replace] calls of the commitlint rule. *)
Definition stripCommitlintSteps (ci : string) : string :=
  let ci := replaceStep "- name: Validate current commit"
              ("run: bunx commitlint --last --verbose" +:+ LF) ci in
  replaceStep "- name: Validate PR commits" ("--verbose" +:+ LF) ci.

(** *** The README *)

(** The block pushed when [features.includes("gitHooks")]. *)
Definition commitConvention : list string :=
  [ "";
    "## Commit Convention";
    "";
    "This project uses [Conventional Commits](https://www.conventionalcommits.org/).";
    "";
    "```text";
    "feat: add new feature";
    "fix: resolve bug";
    "docs: update documentation";
    "chore: maintenance tasks";
    "```" ].

(** The array [lines] of [generateReadme] when it is joined. *)
Definition readmeLines (name description : string) (features : list string)
  : list string :=
  [ "# " +:+ name;
    "";
    (if bool_decide (description = "")
     then "A TypeScript project powered by Bun." else description);
    "";
    "## Stack";
    "";
    "- **Runtime:** [Bun](https://bun.sh)";
    "- **Language:** TypeScript (strict mode)";
    "- **Linting/Formatting:** [Biome](https://biomejs.dev)" ]
  ++ (if includes features "gitHooks"
      then ["- **Git Hooks:** Husky + lint-staged + commitlint"] else [])
  ++ (if includes features "markdownlint"
      then ["- **Markdown Linting:** markdownlint"] else [])
  ++ [ "";
       "## Getting Started";
       "";
       "```bash";
       "bun install";
       "bun start";
       "```";
       "";
       "## Scripts";
       "";
       "| Command | Description |";
       "| --- | --- |";
       "| `bun start` | Run the project |";
       "| `bun test` | Run tests |";
       "| `bun run lint` | Check for lint/format issues |";
       "| `bun run format` | Fix lint/format issues |" ]
  ++ (if includes features "gitHooks" then commitConvention else [])
  ++ [ "" ].

(** [lines.join("\n")]. *)
Definition readmeText (name description : string) (features : list string)
  : string :=
  String.concat LF (readmeLines name description features).

(** ** Paths and the file system *)

(** [s.split(sep)] for a separator of one character. *)
Fixpoint splitOn (sep : ascii) (s : string) : list string :=
  match s with
  | EmptyString => [EmptyString]
  | String c s' =>
      if bool_decide (c = sep) then EmptyString :: splitOn sep s'
      else match splitOn sep s' with
           | [] => [String c EmptyString]
           | piece :: pieces => String c piece :: pieces
           end
  end.

(** The pieces of a relative path between its slashes. *)
Definition segments (p : string) : list string := splitOn "/"%char p.

(** One step of the normalisation done by [join]: empty pieces and [.]
    stay, [..] goes up (the root is its own parent). *)
Definition stepInto (dir : list string) (seg : string) : list string :=
  if bool_decide (seg = "" ∨ seg = ".") then dir
  else if bool_decide (seg = "..") then removelast dir
  else dir ++ [seg].

(** [join(dir, p)] for an absolute, normalised [dir], given and returned
    as the list of its components below the root. *)
Definition join (dir : list string) (p : string) : list string :=
  foldl stepInto dir (segments p).

(** [basename(dir)]. *)
Definition basename (dir : list string) : string := List.last dir "".

(** What a path names.  The file system maps the absolute paths that
    exist to what they name. *)
Inductive node := File (text : string) | Dir.

Abbreviation FS :=
  (@gmap (list string) (@list_eq_dec string String.eq_dec)
     (@list_countable string String.eq_dec String.countable) node).

(** [rm -rf full]: [full] and everything below it. *)
Definition removeTree (full : list string) (fs : FS) : FS :=
  filter (λ kv, ¬ full `prefix_of` kv.1) fs.

(** ** What a run does: outcomes, events and the user *)

(** The seven questions, in the order [main] asks them. *)
Inductive promptId :=
| PDescription | PVersion | PAuthor | PLicense | PPrivate | PEntrypoint
| PFeatures.

Definition promptOrder : list promptId :=
  [PDescription; PVersion; PAuthor; PLicense; PPrivate; PEntrypoint; PFeatures].

(** What a prompt of the library resolves to: [T | symbol]. *)
Inductive answer (A : Type) := Value (a : A) | Cancel.
Arguments Value {A} a.
Arguments Cancel {A}.

(** [isCancel(value)]. *)
Definition isCancel {A} (v : answer A) : bool :=
  match v with Cancel => true | Value _ => false end.

(** The values of the [select] options. *)
Inductive License := MIT | Apache_2_0 | ISC | GPL_3_0_only | UNLICENSED.

Definition licenseId (l : License) : string :=
  match l with
  | MIT => "MIT"
  | Apache_2_0 => "Apache-2.0"
  | ISC => "ISC"
  | GPL_3_0_only => "GPL-3.0-only"
  | UNLICENSED => "UNLICENSED"
  end.

(** The user, as what each prompt resolves to.  The version prompt has a
    [validate] callback: it is given the submissions in turn until one is
    accepted or the user cancels. *)
Record Script := {
  onDescription : answer string;
  onVersion : list (answer string);
  onAuthor : answer string;
  onLicense : answer License;
  onPrivate : answer bool;
  onEntrypoint : answer string;
  onFeatures : answer (list string)
}.

(** The answers [main] holds once no prompt was cancelled. *)
Record Answers := {
  description : string;
  version : string;
  author : string;
  license : License;
  isPrivate : bool;
  entrypoint : string;
  selectedFeatures : list string
}.

(** What the run does to the outside, in order.  [EPrompt p cancelled] is
    the prompt [p] resolving, to the cancel symbol or to an answer;
    [ERejected p msg] is the prompt showing the message of its [validate]
    callback and staying open. *)
Inductive event :=
| EIntro (msg : string)
| EPrompt (p : promptId) (cancelled : bool)
| ERejected (p : promptId) (msg : string)
| ECancel (msg : string)
| ESpinner (msg : string)
| EExists (full : list string)
| ERead (full : list string)
| EWrite (full : list string) (text : string)
| ERemove (full : list string)
| EInstall
| ELogInfo (msg : string)
| ENote (body title : string)
| EOutro (msg : string)
| EError (msg : string).

#[global] Instance promptId_eq_dec : EqDecision promptId.
Proof. solve_decision. Defined.

#[global] Instance event_eq_dec : EqDecision event.
Proof. solve_decision. Defined.

Definition isPromptEvent (e : event) : bool :=
  match e with EPrompt _ _ | ERejected _ _ => true | _ => false end.

(** The events that look at or change the file system. *)
Definition isFileEvent (e : event) : bool :=
  match e with
  | EExists _ | ERead _ | EWrite _ _ | ERemove _ | EInstall => true
  | _ => false
  end.

(** The prompts a trace shows, in order. *)
Definition asked (t : list event) : list promptId :=
  omap (λ e, match e with EPrompt p _ => Some p | _ => None end) t.

(** How a computation ends: with a value, in [process.exit(code)], with a
    thrown error, or waiting for a submission that never comes. *)
Inductive outcome (A : Type) :=
| Ret (a : A)
| Exit (code : Z)
| Throw (err : string)
| Blocked.
Arguments Ret {A} a.
Arguments Exit {A} code.
Arguments Throw {A} err.
Arguments Blocked {A}.

(** A computation of the wizard: from the file system to an outcome, the
    file system it leaves and the events it caused. *)
Definition M (A : Type) : Type := FS → outcome A * FS * list event.

#[global] Instance M_ret : MRet M := λ A a fs, (Ret a, fs, []).

#[global] Instance M_bind : MBind M := λ A B f m fs,
  match m fs with
  | (Ret a, fs1, t1) =>
      match f a fs1 with (r, fs2, t2) => (r, fs2, t1 ++ t2) end
  | (Exit code, fs1, t1) => (Exit code, fs1, t1)
  | (Throw err, fs1, t1) => (Throw err, fs1, t1)
  | (Blocked, fs1, t1) => (Blocked, fs1, t1)
  end.

Definition emit (e : event) : M unit := λ fs, (Ret (), fs, [e]).
Definition exit {A} (code : Z) : M A := λ fs, (Exit code, fs, []).
Definition throw {A} (err : string) : M A := λ fs, (Throw err, fs, []).
Definition blocked {A} : M A := λ fs, (Blocked, fs, []).

(** An operation that throws [err] where the model has [None]. *)
Definition orThrow {A} (err : string) (o : option A) : M A :=
  match o with Some a => mret a | None => throw err end.

(** [for (const x of xs) body(x)]. *)
Fixpoint forEach {A} (body : A → M unit) (xs : list A) : M unit :=
  match xs with
  | [] => mret ()
  | x :: xs' => body x;; forEach body xs'
  end.

(** [xs.map(f)] for an [f] that may throw. *)
Fixpoint mapM {A B} (f : A → M B) (xs : list A) : M (list B) :=
  match xs with
  | [] => mret []
  | x :: xs' => y ← f x; ys ← mapM f xs'; mret (y :: ys)
  end.

(** *** The file system calls *)

(** [existsSync(full)]. *)
Definition existsSync (full : list string) : M bool := λ fs,
  (Ret (bool_decide (is_Some (fs !! full))), fs, [EExists full]).

(** [await Bun.file(full).text()]. *)
Definition readText (full : list string) : M string := λ fs,
  match fs !! full with
  | Some (File text) => (Ret text, fs, [ERead full])
  | Some Dir => (Throw "EISDIR", fs, [ERead full])
  | None => (Throw "ENOENT", fs, [ERead full])
  end.

(** [await Bun.write(full, text)]: the file is created or replaced. *)
Definition writeText (full : list string) (text : string) : M unit := λ fs,
  match fs !! full with
  | Some Dir => (Throw "EISDIR", fs, [EWrite full text])
  | _ => (Ret (), <[full := File text]> fs, [EWrite full text])
  end.

(** [await $`rm -rf ${full}`.quiet()]: [rm] refuses the root, and the shell
    throws on its exit status. *)
Definition rmrf (full : list string) : M unit := λ fs,
  match full with
  | [] => (Throw "ShellError", fs, [ERemove full])
  | _ => (Ret (), removeTree full fs, [ERemove full])
  end.

(** *** The prompt library *)

(** A prompt without validation resolves to what the user gives. *)
Definition prompt {A} (p : promptId) (a : answer A) : M (answer A) :=
  emit (EPrompt p (isCancel a));; mret a.

(** A prompt with a [validate] callback: a rejected submission shows the
    message and leaves the prompt open. *)
Fixpoint submissions (p : promptId) (validate : string → option string)
    (subs : list (answer string)) : M (answer string) :=
  match subs with
  | [] => blocked
  | Cancel :: _ => mret Cancel
  | Value v :: subs' =>
      match validate v with
      | None => mret (Value v)
      | Some msg => emit (ERejected p msg);; submissions p validate subs'
      end
  end.

Definition promptValidated (p : promptId) (validate : string → option string)
    (subs : list (answer string)) : M (answer string) :=
  a ← submissions p validate subs;
  emit (EPrompt p (isCancel a));; mret a.

Definition cancelMessage : string :=
  "Setup cancelled. Re-run with: bun setup/setup.ts".

(** [assertNotCancelled(value)]. *)
Definition assertNotCancelled {A} (value : answer A) : M A :=
  match value with
  | Cancel => emit (ECancel cancelMessage);; exit 0
  | Value a => mret a
  end.

(** ** The manifest edits of [main] *)

(** [pkg.description = description] to [pkg.keywords = []]. *)
Definition setMetadata (a : Answers) (pkg : value) : option value :=
  pkg ← setProp pkg "description" (JStr (description a));
  pkg ← setProp pkg "version" (JStr (version a));
  pkg ← setProp pkg "author" (JStr (author a));
  pkg ← setProp pkg "license" (JStr (licenseId (license a)));
  pkg ← setProp pkg "private" (JBool (isPrivate a));
  pkg ← setProp pkg "main" (JStr (entrypoint a));
  setProp pkg "keywords" (JArr []).

(** [if (entrypoint !== "src/index.ts" && pkg.scripts)
       pkg.scripts.start = `bun ${entrypoint}`]. *)
Definition setStartScript (a : Answers) (pkg : value) : option value :=
  if negb (bool_decide (entrypoint a = "src/index.ts"))
     && truthy (getProp pkg "scripts")
  then editProp pkg "scripts"
         (λ scripts, setProp scripts "start" (JStr ("bun " +:+ entrypoint a)))
  else Some pkg.

(** [if (depsToRemove.length > 0 && pkg.devDependencies)
       for (const dep of depsToRemove) delete devDeps[dep]]. *)
Definition removeDevDependencies (deps : list string) (pkg : value)
  : option value :=
  if negb (bool_decide (deps = [])) && truthy (getProp pkg "devDependencies")
  then editProp pkg "devDependencies" (λ devDeps, deleteProps devDeps deps)
  else Some pkg.

(** The same for [scriptsToRemove] and [pkg.scripts]. *)
Definition removeScripts (names : list string) (pkg : value) : option value :=
  if negb (bool_decide (names = [])) && truthy (getProp pkg "scripts")
  then editProp pkg "scripts" (λ scripts, deleteProps scripts names)
  else Some pkg.

(** [if (devDeps) delete devDeps["@clack/prompts"]]. *)
Definition removeSetupDependency (pkg : value) : option value :=
  if truthy (getProp pkg "devDependencies")
  then editProp pkg "devDependencies"
         (λ devDeps, deleteProp devDeps "@clack/prompts")
  else Some pkg.

(** Every edit of [pkg] between [readPkg] and [writePkg], in the order of
    [main]; the file operations in between do not touch [pkg]. *)
Definition mutateManifest (a : Answers) (pkg : value) : option value :=
  pkg ← setMetadata a pkg;
  pkg ← setStartScript a pkg;
  r ← collectRemoval noRemoval (deselected (selectedFeatures a));
  pkg ← removeDevDependencies (depsToRemove r) pkg;
  pkg ← removeScripts (scriptsToRemove r) pkg;
  pkg ← removeSetupDependency pkg;
  deleteProp pkg "bun-create".

(** ** A reader for a fragment of JSON

    [JSON.parse] belongs to the run time and is a parameter of the wizard
    below.  To run the wizard on sample projects, this reader stands for it
    on the fragment without escapes in strings, without fractions and
    exponents in numbers and without member names that start with a
    digit. *)

Definition isBlank (c : ascii) : bool :=
  let n := N_of_ascii c in
  (n =? 32)%N || (n =? 9)%N || (n =? 10)%N || (n =? 13)%N.

Fixpoint dropBlanks (s : string) : string :=
  match s with
  | String c s' => if isBlank c then dropBlanks s' else s
  | EmptyString => s
  end.

(** The characters up to the closing quote, and what follows it. *)
Fixpoint readChars (s : string) : option (string * string) :=
  match s with
  | EmptyString => None
  | String c s' =>
      if (N_of_ascii c =? 34)%N then Some (EmptyString, s')
      else if (N_of_ascii c =? 92)%N || (N_of_ascii c <? 32)%N then None
      else '(body, rest) ← readChars s'; Some (String c body, rest)
  end.

Fixpoint takeDigits (s : string) : string * string :=
  match s with
  | String c s' =>
      if isDigit c then let '(ds, rest) := takeDigits s' in (String c ds, rest)
      else (EmptyString, s)
  | EmptyString => (EmptyString, s)
  end.

(** An integer without leading zeros; [-0] is the number [0]. *)
Definition readNumber (s : string) : option (value * string) :=
  let '(neg, s1) :=
    match s with
    | String c s' => if bool_decide (c = "-"%char) then (true, s') else (false, s)
    | EmptyString => (false, s)
    end in
  let '(ds, rest) := takeDigits s1 in
  match ds with
  | EmptyString => None
  | String c ds' =>
      if bool_decide (c = "0"%char) then
        if bool_decide (ds' = "") then Some (JNum "0", rest) else None
      else Some (JNum (if neg : bool then "-" +:+ ds else ds), rest)
  end.

(** The items of an array after its bracket, each read by [rd]. *)
Fixpoint readItems (rd : string → option (value * string)) (n : nat)
    (s : string) : option (list value * string) :=
  match n with
  | O => None
  | S n' =>
      '(v, r) ← rd s;
      match dropBlanks r with
      | String c r' =>
          if bool_decide (c = ","%char)
          then '(vs, r'') ← readItems rd n' r'; Some (v :: vs, r'')
          else if bool_decide (c = "]"%char) then Some ([v], r') else None
      | EmptyString => None
      end
  end.

(** The members of an object after its brace; a repeated name keeps its
    first place and takes the last value. *)
Fixpoint readMembers (rd : string → option (value * string)) (n : nat)
    (acc : list (string * value)) (s : string)
  : option (list (string * value) * string) :=
  match n with
  | O => None
  | S n' =>
      match dropBlanks s with
      | String q s1 =>
          if (N_of_ascii q =? 34)%N then
            '(k, s2) ← readChars s1;
            match k, dropBlanks s2 with
            | String k0 _, String c s3 =>
                if isDigit k0 || negb (bool_decide (c = ":"%char)) then None
                else
                  '(v, r) ← rd s3;
                  match dropBlanks r with
                  | String d r' =>
                      if bool_decide (d = ","%char)
                      then readMembers rd n' (objSet k v acc) r'
                      else if bool_decide (d = "}"%char)
                      then Some (objSet k v acc, r') else None
                  | EmptyString => None
                  end
            | _, _ => None
            end
          else None
      | EmptyString => None
      end
  end.

Fixpoint readValue (fuel : nat) (s : string) : option (value * string) :=
  match fuel with
  | O => None
  | S fuel' =>
      match dropBlanks s with
      | EmptyString => None
      | String c r =>
          if bool_decide (c = "{"%char) then
            match dropBlanks r with
            | String d r' =>
                if bool_decide (d = "}"%char) then Some (JObj [], r')
                else '(ms, rest) ← readMembers (readValue fuel') (String.length r) [] r;
                     Some (JObj ms, rest)
            | EmptyString => None
            end
          else if bool_decide (c = "["%char) then
            match dropBlanks r with
            | String d r' =>
                if bool_decide (d = "]"%char) then Some (JArr [], r')
                else '(vs, rest) ← readItems (readValue fuel') (String.length r) r;
                     Some (JArr vs, rest)
            | EmptyString => None
            end
          else if (N_of_ascii c =? 34)%N then
            '(body, rest) ← readChars r; Some (JStr body, rest)
          else
            match dropLiteral "true" (String c r) with
            | Some rest => Some (JBool true, rest)
            | None =>
            match dropLiteral "false" (String c r) with
            | Some rest => Some (JBool false, rest)
            | None =>
            match dropLiteral "null" (String c r) with
            | Some rest => Some (JNull, rest)
            | None => readNumber (String c r)
            end end end
      end
  end.

Definition readJSON (text : string) : option value :=
  '(v, rest) ← readValue (String.length text) text;
  if bool_decide (dropBlanks rest = "") then Some v else None.

(** *** A sample project *)

Definition sampleManifest : value :=
  JObj [ ("name", JStr "ts-template");
         ("version", JStr "1.0.0");
         ("bun-create", JObj [("postinstall", JStr "bun setup/setup.ts")]);
         ("scripts", JObj [ ("start", JStr "bun src/index.ts");
                            ("prepare", JStr "husky") ]);
         ("devDependencies",
            JObj [ ("@biomejs/biome", JStr "2.0.0");
                   ("@clack/prompts", JStr "0.11.0");
                   ("@commitlint/cli", JStr "19.0.0");
                   ("husky", JStr "9.0.0");
                   ("lint-staged", JStr "15.0.0");
                   ("markdownlint-cli", JStr "0.40.0") ]) ].

Definition sampleLintStaged : value :=
  JObj [ ("*.{ts,json}", JStr "biome check --write");
         ("*.md", JStr "markdownlint --fix");
         ("*.yml", JArr [JStr "prettier --write"]) ].

Definition sampleDir : list string := ["home"; "dev"; "myproject"].

Definition sampleFS : FS :=
  list_to_map
    [ (sampleDir, Dir);
      (sampleDir ++ ["package.json"], File (JSON_stringify sampleManifest TAB +:+ LF));
      (sampleDir ++ [".lintstagedrc"], File (JSON_stringify sampleLintStaged TAB +:+ LF));
      (sampleDir ++ [".markdownlint.json"], File "{}");
      (sampleDir ++ [".github"], Dir);
      (sampleDir ++ [".github"; "workflows"], Dir);
      (sampleDir ++ [".github"; "workflows"; "ci.yml"], File "name: CI");
      (sampleDir ++ ["CLAUDE.md"], File "# notes");
      (sampleDir ++ ["setup"], Dir);
      (sampleDir ++ ["setup"; "setup.ts"], File "main()");
      (sampleDir ++ ["README.md"], File "# TS Template") ].

(** A user who keeps the git hooks and the CI workflow only. *)
Definition sampleScript : Script :=
  {| onDescription := Value "A sample";
     onVersion := [Value "one"; Value "0.2.0"];
     onAuthor := Value "Dev";
     onLicense := Value MIT;
     onPrivate := Value true;
     onEntrypoint := Value "src/main.ts";
     onFeatures := Value ["gitHooks"; "githubCI"] |}.

(** A user who cancels at the license prompt. *)
Definition cancellingScript : Script :=
  {| onDescription := Value "A sample";
     onVersion := [Value "0.2"; Value "0.2.0"];
     onAuthor := Value "Dev";
     onLicense := Cancel;
     onPrivate := Value true;
     onEntrypoint := Value "src/index.ts";
     onFeatures := Value [] |}.

(** A [bun install] that writes the lock file. *)
Definition sampleInstall (fs : FS) : FS * bool :=
  (<[sampleDir ++ ["bun.lock"] := File "lock"]> fs, true).

(** ** Notions used to state the properties *)

(** The entries of the registry whose key is not in the selection. *)
Definition notSelected (sel : list string) : list (string * FeatureConfig) :=
  filter (λ kf, kf.1 ∉ sel) FEATURES.

(** The properties [main] assigns to the manifest, in order. *)
Definition metadataKeys : list string :=
  ["description"; "version"; "author"; "license"; "private"; "main"; "keywords"].

(** A value without the properties [ks], when it is an object. *)
Definition withoutKeys (ks : list string) (v : value) : value :=
  match v with
  | JObj ms => JObj (foldl (λ m k, objDelete k m) ms ks)
  | _ => v
  end.

(** The assignments of [setMetadata] as a list, in order. *)
Definition metadataFields (a : Answers) : list (string * value) :=
  [ ("description", JStr (description a));
    ("version", JStr (version a));
    ("author", JStr (author a));
    ("license", JStr (licenseId (license a)));
    ("private", JBool (isPrivate a));
    ("main", JStr (entrypoint a));
    ("keywords", JArr []) ].

(** The members of [scripts] after
    [if (entrypoint !== "src/index.ts") scripts.start = ...]. *)
Definition startScript (a : Answers) (inner : list (string * value))
  : list (string * value) :=
  if bool_decide (entrypoint a = "src/index.ts") then inner
  else objSet "start" (JStr ("bun " +:+ entrypoint a)) inner.

(** One member of an object on its line, as [JSON.stringify] writes it at
    the top level with a tab for [gap]. *)
Definition memberText (kv : string * value) : string :=
  quoteJSONString kv.1 +:+ ": " +:+ serialize TAB TAB kv.2.

(** The answers of the sample user. *)
Definition sampleAnswers : Answers :=
  {| description := "A sample"; version := "0.2.0"; author := "Dev";
     license := MIT; isPrivate := true; entrypoint := "src/main.ts";
     selectedFeatures := ["gitHooks"; "githubCI"] |}.

(** The lines of a text. *)
Definition textLines (text : string) : list string := splitOn lineBreak text.

(** Whether a character occurs in a text. *)
Fixpoint hasChar (c : ascii) (s : string) : bool :=
  match s with
  | EmptyString => false
  | String c' s' => bool_decide (c' = c) || hasChar c s'
  end.

(** Whether the lines [block] occur in [l] one after the other. *)
Fixpoint containsRun (block l : list string) : bool :=
  bool_decide (block `prefix_of` l)
  || match l with
     | [] => false
     | _ :: l' => containsRun block l'
     end.

(** The three parts of what a computation gives. *)
Definition outcomeOf {A} (x : outcome A * FS * list event) : outcome A := x.1.1.
Definition fsOf {A} (x : outcome A * FS * list event) : FS := x.1.2.
Definition traceOf {A} (x : outcome A * FS * list event) : list event := x.2.

(** A computation all of whose events satisfy [Q], from any file system. *)
Definition emitsOnly {A} (Q : event → Prop) (c : M A) : Prop :=
  ∀ fs : FS, Forall Q (traceOf (c fs)).

(** A computation that leaves the file system as it found it. *)
Definition readsOnly {A} (c : M A) : Prop :=
  ∀ fs : FS, fsOf (c fs) = fs.

(** A computation that leaves what is at the path [q] as it found it. *)
Definition keeps {A} (q : list string) (c : M A) : Prop :=
  ∀ fs : FS, fsOf (c fs) !! q = fs !! q.

(** An event of a prompt that was not cancelled. *)
Definition answeredEvent (e : event) : Prop :=
  match e with
  | EPrompt _ false | ERejected _ _ => True
  | _ => False
  end.

(** How a part of the prompt sequence that asks the prompts [ps] can end:
    with all of them answered; at the first cancelled prompt, with exit
    code 0 and the cancellation message as the last event; or waiting for
    a submission. *)
Definition promptRun {A} (ps : list promptId) (c : M A) : Prop :=
  ∀ fs : FS,
    fsOf (c fs) = fs
    ∧ ((∃ a, outcomeOf (c fs) = Ret a
             ∧ Forall answeredEvent (traceOf (c fs))
             ∧ asked (traceOf (c fs)) = ps)
       ∨ (outcomeOf (c fs) = Exit 0
          ∧ ∃ pre p, traceOf (c fs) = pre ++ [EPrompt p true; ECancel cancelMessage]
                     ∧ Forall answeredEvent pre
                     ∧ (asked pre ++ [p]) `prefix_of` ps)
       ∨ (outcomeOf (c fs) = Blocked
          ∧ Forall answeredEvent (traceOf (c fs))
          ∧ asked (traceOf (c fs)) `prefix_of` ps)).

(** *** The sample project, run *)

(** What the sample user's selection removes. *)
Definition sampleRemoval : Removal :=
  {| depsToRemove := ["markdownlint-cli"];
     filesToRemove :=
       [".github/ISSUE_TEMPLATE"; ".github/PULL_REQUEST_TEMPLATE.md";
        ".markdownlint.json"; ".markdownlintignore"; "CODE_OF_CONDUCT.md";
        "CLAUDE.md"];
     scriptsToRemove := [] |}.

(** The sample manifest after the edits. *)
Definition sampleWritten : list (string * value) :=
  [ ("name", JStr "ts-template");
    ("version", JStr "0.2.0");
    ("scripts", JObj [ ("start", JStr "bun src/main.ts");
                       ("prepare", JStr "husky") ]);
    ("devDependencies",
       JObj [ ("@biomejs/biome", JStr "2.0.0");
              ("@commitlint/cli", JStr "19.0.0");
              ("husky", JStr "9.0.0");
              ("lint-staged", JStr "15.0.0") ]);
    ("description", JStr "A sample");
    ("author", JStr "Dev");
    ("license", JStr "MIT");
    ("private", JBool true);
    ("main", JStr "src/main.ts");
    ("keywords", JArr []) ].

(** The sample lint-staged document without its markdown entry. *)
Definition sampleLintStagedWritten : value :=
  JObj [ ("*.{ts,json}", JStr "biome check --write");
         ("*.yml", JArr [JStr "prettier --write"]) ].

(** Closed, decidable facts are settled by evaluation. *)
Ltac by_evaluation := apply (bool_decide_unpack _); vm_compute; reflexivity.


(** ** Further notions used to state properties *)

(** A text of digits only. *)
Fixpoint allDigits (s : string) : bool :=
  match s with
  | EmptyString => true
  | String c s' => isDigit c && allDigits s'
  end.

(** A text of white space only. *)
Fixpoint allSpaces (s : string) : bool :=
  match s with
  | EmptyString => true
  | String c s' => isSpace c && allSpaces s'
  end.

(** Every entry of the file system other than the root is in a directory
    that is an entry too. *)
Definition parentsExist (fs : FS) : Prop :=
  map_Forall (λ (q : list string) (_ : node), is_Some (fs !! removelast q)) fs.

(** The path an event looks at or changes, when it names one. *)
Definition pathOf (e : event) : option (list string) :=
  match e with
  | EExists full | ERead full | EWrite full _ | ERemove full => Some full
  | _ => None
  end.

(** A path strictly below the directory [dir]. *)
Definition below (dir full : list string) : Prop :=
  ∃ rest, rest ≠ [] ∧ full = dir ++ rest.

(** The relative paths that occur in the wizard: the ones [main] and
    [generateReadme] spell out, and the ones of the registry. *)
Definition touchedPaths : list string :=
  [ "package.json"; ".lintstagedrc"; ".vscode/settings.json";
    ".github/workflows/ci.yml"; ".github"; "setup"; "README.md"; "LICENSE" ]
  ++ List.concat (files <$> FEATURES.*2).

(** An event that names no path, or names one of [touchedPaths], taken
    from [dir] and strictly below it. *)
Definition inFootprint (dir : list string) (e : event) : Prop :=
  match pathOf e with
  | Some full =>
      below dir full ∧ ∃ rel, rel ∈ touchedPaths ∧ full = join dir rel
  | None => True
  end.

(** The stage [if (depsToRemove.length > 0) bun install] of a run that
    returns, for the subprocess [bunInstall]: from [fs] to [fs'] with the
    events [t]. *)
Definition installStage (bunInstall : FS → FS * bool) (r : Removal)
    (fs fs' : FS) (t : list event) : Prop :=
  (depsToRemove r = [] ∧ fs' = fs ∧ t = [])
  ∨ (depsToRemove r ≠ [] ∧ bunInstall fs = (fs', true)
     ∧ t = [ESpinner "Cleaning up dependencies..."; EInstall]).

#[global] Instance License_eq_dec : EqDecision License.
Proof. solve_decision. Defined.

(** What is wrong with the manifest, if anything, for [readPkg] and the
    first assignment to [pkg]: the entry at its path is missing or a
    directory, its text does not parse, or it parses to [null] or a
    primitive.  The texts are the names of the errors. *)
Definition manifestError (JSON_parse : string → option value)
    (entry : option node) : option string :=
  match entry with
  | None => Some "ENOENT"
  | Some Dir => Some "EISDIR"
  | Some (File text) =>
      match JSON_parse text with
      | None => Some "SyntaxError"
      | Some (JNull | JBool _ | JNum _ | JStr _) => Some "TypeError"
      | Some (JArr _ | JObj _) => None
      end
  end.

(** A computation that ends with a value or a thrown error: it neither
    exits the process nor waits. *)
Definition returnsOrThrows {A} (c : M A) : Prop :=
  ∀ fs : FS,
    match outcomeOf (c fs) with
    | Ret _ | Throw _ => True
    | Exit _ | Blocked => False
    end.

(** The properties the rules of the editor settings delete, in the
    order of the rules. *)
Definition settingsKeys (sel : list string) : list string :=
  (if includes sel "markdownlint" then [] else ["[markdown]"])
  ++ (if includes sel "githubCI" then [] else ["[github-actions-workflow]"]).

(** An event of [existsSync]. *)
Definition isLookup (e : event) : bool :=
  match e with EExists _ => true | _ => false end.

(** *** A second sample project *)

(** A workflow with the two commit-validation steps. *)
Definition sampleWorkflow : string :=
  String.concat LF
    [ "name: CI";
      "jobs:";
      "  test:";
      "    steps:";
      "      - uses: actions/checkout@v4";
      "      - name: Validate current commit";
      "        if: github.event_name == 'push'";
      "        run: bunx commitlint --last --verbose";
      "      - name: Validate PR commits";
      "        if: github.event_name == 'pull_request'";
      "        run: bunx commitlint --from base --to head --verbose";
      "      - run: bun test";
      "" ].

(** The same workflow without the two steps. *)
Definition sampleWorkflowStripped : string :=
  String.concat LF
    [ "name: CI";
      "jobs:";
      "  test:";
      "    steps:";
      "      - uses: actions/checkout@v4";
      "      - run: bun test";
      "" ].

Definition sampleSettings : value :=
  JObj [ ("editor.formatOnSave", JBool true);
         ("[markdown]",
            JObj [("editor.defaultFormatter", JStr "markdownlint")]);
         ("[github-actions-workflow]",
            JObj [("editor.defaultFormatter", JStr "yaml")]) ].

(** The sample project with editor settings, a license, a source file and
    the workflow above. *)
Definition sampleProject : FS :=
  list_to_map
    [ (sampleDir ++ [".vscode"], Dir);
      (sampleDir ++ [".vscode"; "settings.json"],
         File (JSON_stringify sampleSettings TAB +:+ LF));
      (sampleDir ++ [".github"; "workflows"; "ci.yml"], File sampleWorkflow);
      (sampleDir ++ ["LICENSE"], File "MIT License");
      (sampleDir ++ ["src"], Dir);
      (sampleDir ++ ["src"; "index.ts"], File "export {}") ]
  ∪ sampleFS.

(** A user who keeps the CI workflow only, and takes no license. *)
Definition ciOnlyScript : Script :=
  {| onDescription := Value "";
     onVersion := [Value "1"; Value "1.0"; Value "1.0.0-rc.1"];
     onAuthor := Value "Dev";
     onLicense := Value UNLICENSED;
     onPrivate := Value false;
     onEntrypoint := Value "src/index.ts";
     onFeatures := Value ["githubCI"] |}.

Definition ciOnlyAnswers : Answers :=
  {| description := ""; version := "1.0.0-rc.1"; author := "Dev";
     license := UNLICENSED; isPrivate := false; entrypoint := "src/index.ts";
     selectedFeatures := ["githubCI"] |}.

(** A user who selects no feature. *)
Definition bareScript : Script :=
  {| onDescription := Value "Bare";
     onVersion := [Value "0.1.0"];
     onAuthor := Value "";
     onLicense := Value ISC;
     onPrivate := Value true;
     onEntrypoint := Value "src/index.ts";
     onFeatures := Value [] |}.

#[global] Instance node_eq_dec : EqDecision node.
Proof. solve_decision. Defined.

#[global] Instance parentsExist_dec (fs : FS) : Decision (parentsExist fs).
Proof. unfold parentsExist. apply _. Defined.

(** ** The wizard *)

Section Wizard.

(** [process.cwd()], as the components of the absolute path. *)
Variable PROJECT_DIR : list string.

(** [JSON.parse]; [None] is its [SyntaxError]. *)
Variable JSON_parse : string → option value.

(** The subprocess [bun install]: the file system it leaves and whether
    its exit status was zero. *)
Variable bunInstall : FS → FS * bool.

Definition PKG_PATH : list string := join PROJECT_DIR "package.json".

Definition parseJSON (text : string) : M value :=
  orThrow "SyntaxError" (JSON_parse text).

Definition readPkg : M value :=
  text ← readText PKG_PATH; parseJSON text.

Definition writePkg (pkg : value) : M unit :=
  writeText PKG_PATH (JSON_stringify pkg TAB +:+ LF).

(** The body of the loop of [removeFiles]. *)
Definition removeFile (p : string) : M unit :=
  let full := join PROJECT_DIR p in
  found ← existsSync full;
  if (found : bool) then rmrf full else mret ().

Definition removeFiles (paths : list string) : M unit :=
  forEach removeFile paths.

(** [await $`bun install`.quiet()]. *)
Definition install : M unit := λ fs,
  match bunInstall fs with
  | (fs', true) => (Ret (), fs', [EInstall])
  | (fs', false) => (Throw "ShellError", fs', [EInstall])
  end.

Definition generateReadme (name description : string) (features : list string)
  : M unit :=
  writeText (join PROJECT_DIR "README.md") (readmeText name description features).

(** *** Cross-feature cleanup *)

(** The body shared by the three rules that edit a JSON file: when the
    file exists, parse it, [delete doc[key]], write it back. *)
Definition dropJSONKey (rel key : string) : M unit :=
  let full := join PROJECT_DIR rel in
  found ← existsSync full;
  if (found : bool) then
    text ← readText full;
    doc ← parseJSON text;
    doc ← orThrow "TypeError" (deleteProp doc key);
    writeText full (JSON_stringify doc TAB +:+ LF)
  else mret ().

Definition lintStagedRule (sel : list string) : M unit :=
  if negb (includes sel "markdownlint") && includes sel "gitHooks"
  then dropJSONKey ".lintstagedrc" "*.md" else mret ().

Definition vscodeMarkdownRule (sel : list string) : M unit :=
  if negb (includes sel "markdownlint")
  then dropJSONKey ".vscode/settings.json" "[markdown]" else mret ().

Definition ciCommitlintRule (sel : list string) : M unit :=
  if negb (includes sel "gitHooks") && includes sel "githubCI" then
    let ciPath := join PROJECT_DIR ".github/workflows/ci.yml" in
    found ← existsSync ciPath;
    if (found : bool) then
      ci ← readText ciPath;
      writeText ciPath (stripCommitlintSteps ci)
    else mret ()
  else mret ().

Definition vscodeWorkflowRule (sel : list string) : M unit :=
  if negb (includes sel "githubCI")
  then dropJSONKey ".vscode/settings.json" "[github-actions-workflow]"
  else mret ().

(** The four rules that edit a file, in the order of [main]. *)
Definition crossFeatureCleanup (sel : list string) : M unit :=
  lintStagedRule sel;;
  vscodeMarkdownRule sel;;
  ciCommitlintRule sel;;
  vscodeWorkflowRule sel.

(** *** [main] *)

(** [main] up to the last [assertNotCancelled]. *)
Definition promptSequence (u : Script) : M Answers :=
  a ← prompt PDescription (onDescription u);
  description ← assertNotCancelled a;
  a ← promptValidated PVersion validateVersion (onVersion u);
  version ← assertNotCancelled a;
  a ← prompt PAuthor (onAuthor u);
  author ← assertNotCancelled a;
  a ← prompt PLicense (onLicense u);
  license ← assertNotCancelled a;
  a ← prompt PPrivate (onPrivate u);
  isPrivate ← assertNotCancelled a;
  a ← prompt PEntrypoint (onEntrypoint u);
  entrypoint ← assertNotCancelled a;
  a ← prompt PFeatures (onFeatures u);
  selectedFeatures ← assertNotCancelled a;
  mret {| description := description; version := version; author := author;
          license := license; isPrivate := isPrivate;
          entrypoint := entrypoint; selectedFeatures := selectedFeatures |}.

(** The [LICENSE] file after the run. *)
Definition handleLicense (l : License) : M unit :=
  match l with
  | Apache_2_0 => mret ()
  | UNLICENSED => removeFiles ["LICENSE"]
  | _ => emit (ELogInfo ("License set to " +:+ licenseId l
                 +:+ ". Remember to replace the LICENSE file contents."))
  end.

(** [FEATURES[k].label] behind a prefix, for the summary. *)
Definition summaryLine (pre : string) (k : string) : M string :=
  feature ← orThrow "TypeError" (getFeature FEATURES k);
  mret (pre +:+ label feature).

(** [main] from [spinner()] on. *)
Definition applyChanges (projectName : string) (a : Answers) : M unit :=
  emit (ESpinner "Configuring project...");;
  pkg ← readPkg;
  pkg ← orThrow "TypeError" (setMetadata a pkg);
  pkg ← orThrow "TypeError" (setStartScript a pkg);
  let sel := selectedFeatures a in
  r ← orThrow "TypeError" (collectRemoval noRemoval (deselected sel));
  pkg ← orThrow "TypeError" (removeDevDependencies (depsToRemove r) pkg);
  pkg ← orThrow "TypeError" (removeScripts (scriptsToRemove r) pkg);
  crossFeatureCleanup sel;;
  removeFiles (githubDirRule sel (filesToRemove r));;
  pkg ← orThrow "TypeError" (removeSetupDependency pkg);
  pkg ← orThrow "TypeError" (deleteProp pkg "bun-create");
  writePkg pkg;;
  removeFiles ["setup"];;
  (if negb (bool_decide (depsToRemove r = []))
   then emit (ESpinner "Cleaning up dependencies...");; install
   else mret ());;
  emit (ESpinner "Generating README...");;
  generateReadme projectName (description a) sel;;
  emit (ESpinner "Project configured!");;
  handleLicense (license a);;
  kept ← mapM (summaryLine "  + ") sel;
  removed ← mapM (summaryLine "  - ") (deselected sel);
  emit (ENote (String.concat LF (kept ++ removed)) "Features");;
  emit (EOutro "Done! Run `bun start` to begin.").

Definition main (u : Script) : M unit :=
  let projectName := basename PROJECT_DIR in
  emit (EIntro ("Setting up " +:+ projectName));;
  a ← promptSequence u;
  applyChanges projectName a.

(** [main().catch(...)]: the whole process.  An outcome [Ret] is the
    process ending by itself, with exit code 0. *)
Definition program (u : Script) : M unit := λ fs,
  match main u fs with
  | (Throw err, fs', t) => (Exit 1, fs', t ++ [EError ("Setup failed: " +:+ err)])
  | r => r
  end.

(** * Properties *)

#[local] Set Default Proof Using "Type".

(** Propositional goals, decided without the parameters of the wizard. *)
Ltac prop_solver :=
  clear PROJECT_DIR JSON_parse bunInstall; tauto.

(** A result is its three parts. *)
Lemma run_eta {A} (x : outcome A * FS * list event) (r : outcome A) :
  outcomeOf x = r → x = (r, fsOf x, traceOf x).
Proof. destruct x as [[r' fs] t]. by intros <-. Qed.

(** ** The registry *)

Lemma includes_true sel k : includes sel k = true ↔ k ∈ sel.
Proof. unfold includes. apply bool_decide_eq_true. Qed.

Lemma includes_false sel k : includes sel k = false ↔ k ∉ sel.
Proof. unfold includes. apply bool_decide_eq_false. Qed.

Lemma notSelected_includes sel :
  notSelected sel = filter (λ kf, includes sel kf.1 = false) FEATURES.
Proof.
  unfold notSelected. apply list_filter_iff. intros kf.
  symmetry. apply includes_false.
Qed.

(** Membership in the registry, one entry at a time. *)
Ltac registry_cases H :=
  unfold FEATURES in H;
  repeat (apply elem_of_cons in H as [H | H]; [try subst |]);
  [.. | by apply elem_of_nil in H].

Lemma getFeature_registry kf : kf ∈ FEATURES → getFeature FEATURES kf.1 = Some kf.2.
Proof. intros H. registry_cases H; reflexivity. Qed.

Lemma filter_keys (P : string → Prop) `{!∀ k, Decision (P k)}
    (reg : list (string * FeatureConfig)) :
  filter P reg.*1 = (filter (λ kf, P kf.1) reg).*1.
Proof.
  induction reg as [|[k f] reg IH]; [done |].
  rewrite fmap_cons, !filter_cons. simpl. case_decide; simpl; by rewrite IH.
Qed.

Lemma deselected_notSelected sel : deselected sel = (notSelected sel).*1.
Proof.
  rewrite notSelected_includes. unfold deselected, featureKeys.
  apply filter_keys.
Qed.

Lemma collectRemoval_entries (ents : list (string * FeatureConfig)) acc :
  (∀ kf, kf ∈ ents → getFeature FEATURES kf.1 = Some kf.2) →
  collectRemoval acc ents.*1 =
    Some {| depsToRemove := depsToRemove acc ++ List.concat (devDeps <$> ents.*2);
            filesToRemove := filesToRemove acc ++ List.concat (files <$> ents.*2);
            scriptsToRemove :=
              scriptsToRemove acc
                ++ List.concat ((λ f, default [] (scripts f)) <$> ents.*2) |}.
Proof.
  revert acc. induction ents as [|[k f] ents IH]; intros acc Hreg.
  - destruct acc. simpl. by rewrite !app_nil_r.
  - pose proof (Hreg (k, f) (list_elem_of_here _ _)) as Hk. cbn [fst snd] in Hk.
    rewrite !fmap_cons. cbn [collectRemoval fst snd]. unfold collectFeature at 1.
    rewrite Hk. cbn [mbind option_bind].
    rewrite IH by (intros kf ?; apply Hreg; by apply list_elem_of_further).
    cbn [depsToRemove filesToRemove scriptsToRemove List.concat].
    destruct (scripts f); cbn [default from_option id]; by rewrite <- !app_assoc.
Qed.

(** The deselection loop never fails, and what it collects is the
    concatenation, in registry order, of the lists of the features that
    are not selected. *)
Lemma collectRemoval_deselected sel :
  collectRemoval noRemoval (deselected sel) =
    Some {| depsToRemove := List.concat (devDeps <$> (notSelected sel).*2);
            filesToRemove := List.concat (files <$> (notSelected sel).*2);
            scriptsToRemove :=
              List.concat ((λ f, default [] (scripts f)) <$> (notSelected sel).*2) |}.
Proof.
  rewrite deselected_notSelected, collectRemoval_entries; [done |].
  intros kf Hkf. apply getFeature_registry.
  unfold notSelected in Hkf. by apply list_elem_of_filter in Hkf as [_ ?].
Qed.

Lemma elem_of_concat {A} (x : A) (ls : list (list A)) :
  x ∈ List.concat ls ↔ (∃ l, l ∈ ls ∧ x ∈ l).
Proof.
  rewrite list_elem_of_In, in_concat. split; intros (l & ? & ?); exists l.
  - by rewrite !list_elem_of_In.
  - by rewrite <- !list_elem_of_In.
Qed.

Lemma featureKeys_NoDup : NoDup featureKeys.
Proof. by_evaluation. Qed.

(** No path is listed by two features. *)
Lemma registry_files_disjoint :
  Forall (λ kf, Forall (λ kf',
      kf.1 = kf'.1 ∨ Forall (λ p, p ∉ files kf'.2) (files kf.2)) FEATURES)
    FEATURES.
Proof. by_evaluation. Qed.

(** No dependency is listed by two features. *)
Lemma registry_deps_disjoint :
  Forall (λ kf, Forall (λ kf',
      kf.1 = kf'.1 ∨ Forall (λ d, d ∉ devDeps kf'.2) (devDeps kf.2)) FEATURES)
    FEATURES.
Proof. by_evaluation. Qed.

Lemma files_owner kf kf' p :
  kf ∈ FEATURES → kf' ∈ FEATURES → p ∈ files kf.2 → p ∈ files kf'.2 →
  kf.1 = kf'.1.
Proof.
  intros Hkf Hkf' Hp Hp'.
  pose proof registry_files_disjoint as H.
  rewrite Forall_forall in H. specialize (H kf Hkf).
  rewrite Forall_forall in H. destruct (H kf' Hkf') as [|Hd]; [done |].
  rewrite Forall_forall in Hd. by destruct (Hd p Hp).
Qed.

Lemma devDeps_owner kf kf' d :
  kf ∈ FEATURES → kf' ∈ FEATURES → d ∈ devDeps kf.2 → d ∈ devDeps kf'.2 →
  kf.1 = kf'.1.
Proof.
  intros Hkf Hkf' Hd Hd'.
  pose proof registry_deps_disjoint as H.
  rewrite Forall_forall in H. specialize (H kf Hkf).
  rewrite Forall_forall in H. destruct (H kf' Hkf') as [|Hn]; [done |].
  rewrite Forall_forall in Hn. by destruct (Hn d Hd).
Qed.

(** The directory of the last rule is in no feature's list. *)
Lemma github_dir_unlisted kf : kf ∈ FEATURES → ".github" ∉ files kf.2.
Proof.
  revert kf. apply Forall_forall. by_evaluation.
Qed.

Lemma elem_of_notSelected sel kf :
  kf ∈ notSelected sel ↔ kf ∈ FEATURES ∧ kf.1 ∉ sel.
Proof. unfold notSelected. rewrite list_elem_of_filter. prop_solver. Qed.

Lemma elem_of_removed {A} (proj : FeatureConfig → list A) sel (x : A) :
  x ∈ List.concat (proj <$> (notSelected sel).*2) ↔
  (∃ kf, kf ∈ FEATURES ∧ (kf.1 ∉ sel) ∧ x ∈ proj kf.2).
Proof.
  rewrite elem_of_concat. split.
  - intros (l & Hl & Hx).
    apply list_elem_of_fmap in Hl as (f & -> & Hf).
    apply list_elem_of_fmap in Hf as (kf & -> & Hkf).
    apply elem_of_notSelected in Hkf as [? ?]. eauto.
  - intros (kf & Hkf & Hsel & Hx). exists (proj kf.2). split; [| done].
    apply list_elem_of_fmap_2, list_elem_of_fmap_2.
    by apply elem_of_notSelected.
Qed.

Lemma githubDirRule_spec sel fs :
  githubDirRule sel fs =
    fs ++ (if decide (("githubTemplates" ∉ sel) ∧ "githubCI" ∉ sel)
           then [".github"] else []).
Proof.
  unfold githubDirRule.
  destruct (includes sel "githubTemplates") eqn:Ht,
           (includes sel "githubCI") eqn:Hc; simpl;
    first [apply includes_true in Ht | apply includes_false in Ht];
    first [apply includes_true in Hc | apply includes_false in Hc];
    case_decide; rewrite ?app_nil_r; prop_solver.
Qed.

Lemma resolvedFiles_eq sel :
  resolvedFiles sel =
    Some (List.concat (files <$> (notSelected sel).*2)
          ++ (if decide (("githubTemplates" ∉ sel) ∧ "githubCI" ∉ sel)
              then [".github"] else [])).
Proof.
  unfold resolvedFiles. rewrite collectRemoval_deselected. simpl.
  by rewrite githubDirRule_spec.
Qed.

Lemma elem_of_resolvedFiles sel fs p :
  resolvedFiles sel = Some fs →
  (p ∈ fs ↔
    (∃ kf, kf ∈ FEATURES ∧ (kf.1 ∉ sel) ∧ p ∈ files kf.2)
    ∨ (p = ".github" ∧ ("githubTemplates" ∉ sel) ∧ "githubCI" ∉ sel)).
Proof.
  rewrite resolvedFiles_eq. intros [= <-].
  rewrite elem_of_app, elem_of_removed.
  case_decide; rewrite ?list_elem_of_singleton, ?elem_of_nil; prop_solver.
Qed.

(** C1.  For every selection, the array given to [removeFiles] is the
    concatenation, in registry order and with repetitions kept, of the file
    lists of the features that are not selected, followed by the directory
    [.github] when the last cross-feature rule adds it; and no path of a
    selected feature is in it. *)
Theorem filesToRemove_exact (sel : list string) :
  resolvedFiles sel =
    Some (List.concat (files <$> (notSelected sel).*2)
          ++ (if decide (("githubTemplates" ∉ sel) ∧ "githubCI" ∉ sel)
              then [".github"] else []))
  ∧ ∀ fs k f p,
      resolvedFiles sel = Some fs →
      (k, f) ∈ FEATURES → k ∈ sel → p ∈ files f → p ∉ fs.
Proof.
  split; [apply resolvedFiles_eq |].
  intros fs k f p Hfs Hkf Hk Hp Hin.
  apply (elem_of_resolvedFiles _ _ _ Hfs) in Hin
    as [(kf' & Hkf' & Hsel & Hp') | (-> & _)].
  - pose proof (files_owner (k, f) kf' p Hkf Hkf' Hp Hp') as Heq.
    simpl in Heq. by subst.
  - by apply (github_dir_unlisted (k, f)).
Qed.

(** C5.  The directory [.github] is queued exactly when neither the
    templates nor the CI workflow are selected, although no feature lists
    that directory. *)
Theorem github_dir_queued (sel : list string) :
  (∀ k f, (k, f) ∈ FEATURES → ".github" ∉ files f)
  ∧ ∃ fs, resolvedFiles sel = Some fs
      ∧ (("githubTemplates" ∉ sel) ∧ "githubCI" ∉ sel → ".github" ∈ fs)
      ∧ ("githubTemplates" ∈ sel ∨ "githubCI" ∈ sel → ".github" ∉ fs).
Proof.
  split; [intros k f Hkf; apply (github_dir_unlisted (k, f) Hkf) |].
  destruct (resolvedFiles sel) as [fs|] eqn:Hfs;
    [| by rewrite resolvedFiles_eq in Hfs].
  exists fs. split; [done |]. split.
  - intros [? ?]. apply (elem_of_resolvedFiles _ _ _ Hfs). by right.
  - intros Hsel Hin.
    apply (elem_of_resolvedFiles _ _ _ Hfs) in Hin
      as [(kf & Hkf & _ & Hp) | (_ & ? & ?)]; [| prop_solver].
    by apply (github_dir_unlisted kf).
Qed.

(** ** Objects *)

Lemma objGet_objSet_eq k x ms : objGet k (objSet k x ms) = Some x.
Proof.
  induction ms as [|[k' v] ms IH]; simpl.
  - by rewrite decide_True.
  - destruct (decide (k' = k)); simpl.
    + by rewrite decide_True.
    + by rewrite decide_False.
Qed.

Lemma objGet_objSet_ne k k' x ms :
  k ≠ k' → objGet k' (objSet k x ms) = objGet k' ms.
Proof.
  intros Hne. induction ms as [|[k0 v] ms IH]; simpl.
  - by rewrite decide_False.
  - destruct (decide (k0 = k)) as [->|]; simpl.
    + by rewrite !decide_False.
    + destruct (decide (k0 = k')); [done | apply IH].
Qed.

Lemma objGet_objDelete_eq k ms : objGet k (objDelete k ms) = None.
Proof.
  unfold objDelete. induction ms as [|[k' v] ms IH]; [done |].
  rewrite filter_cons. simpl. destruct (decide (k' ≠ k)); simpl; [| done].
  by rewrite decide_False.
Qed.

Lemma objGet_objDelete_ne k k' ms :
  k ≠ k' → objGet k' (objDelete k ms) = objGet k' ms.
Proof.
  intros Hne. unfold objDelete. induction ms as [|[k0 v] ms IH]; [done |].
  rewrite filter_cons. simpl. destruct (decide (k0 ≠ k)) as [|Heq]; simpl.
  - by rewrite IH.
  - apply dec_stable in Heq as ->. by rewrite decide_False.
Qed.

Lemma objGet_None_objDelete k k' ms :
  objGet k' ms = None → objGet k' (objDelete k ms) = None.
Proof.
  destruct (decide (k = k')) as [->|Hne].
  - intros _. apply objGet_objDelete_eq.
  - by rewrite objGet_objDelete_ne.
Qed.

Lemma objKeys_cons k v ms : objKeys ((k, v) :: ms) = k :: objKeys ms.
Proof. done. Qed.

Lemma objKeys_objSet k x ms :
  objKeys (objSet k x ms) = objKeys ms ++ filter (λ k', k' ∉ objKeys ms) [k].
Proof.
  induction ms as [|[k' v] ms IH]; [done |]. cbn [objSet].
  destruct (decide (k' = k)) as [->|Hne]; rewrite !objKeys_cons.
  - rewrite filter_cons_False, filter_nil, app_nil_r; [done |].
    intros Hn. apply Hn, list_elem_of_here.
  - rewrite IH. simpl. f_equal. f_equal.
    rewrite !filter_cons, !filter_nil.
    destruct (decide (k ∈ objKeys ms)).
    + rewrite !decide_False; [done | |]; intros Hn; apply Hn;
        [by apply list_elem_of_further | done].
    + rewrite !decide_True; [done | | done].
      intros [?|?]%elem_of_cons; by subst.
Qed.

Lemma objKeys_objSet_present k x ms :
  k ∈ objKeys ms → objKeys (objSet k x ms) = objKeys ms.
Proof.
  intros Hk. rewrite objKeys_objSet, filter_cons_False, filter_nil, app_nil_r;
    [done | by intros Hn].
Qed.

Lemma objKeys_objDelete k ms :
  objKeys (objDelete k ms) = filter (λ k', k' ≠ k) (objKeys ms).
Proof.
  induction ms as [|[k' v] ms IH]; [done |].
  rewrite objKeys_cons. unfold objDelete in *. rewrite !filter_cons. simpl.
  destruct (decide (k' ≠ k)); rewrite ?objKeys_cons; by rewrite IH.
Qed.

Lemma objGet_Some_key k v ms : objGet k ms = Some v → k ∈ objKeys ms.
Proof.
  unfold objKeys. induction ms as [|[k' v'] ms IH]; [done |]. simpl.
  destruct (decide (k' = k)) as [->|]; intros H.
  - apply list_elem_of_here.
  - by apply list_elem_of_further, IH.
Qed.

(** ** Properties, read and written *)

Lemma getProp_setProp_ne pkg pkg' k k' x :
  setProp pkg k x = Some pkg' → k ≠ k' → getProp pkg' k' = getProp pkg k'.
Proof.
  destruct pkg; simpl; intros [= <-] Hne; try done.
  by apply objGet_objSet_ne.
Qed.

Lemma getProp_deleteProp_ne pkg pkg' k k' :
  deleteProp pkg k = Some pkg' → k ≠ k' → getProp pkg' k' = getProp pkg k'.
Proof.
  destruct pkg; simpl; intros [= <-] Hne; try done.
  by apply objGet_objDelete_ne.
Qed.

Lemma getProp_editProp_ne pkg pkg' k k' f :
  editProp pkg k f = Some pkg' → k ≠ k' → getProp pkg' k' = getProp pkg k'.
Proof.
  destruct pkg; simpl; try (by intros [= <-]).
  destruct (objGet k members) as [o|]; [| by intros [= <-]].
  destruct (f o) as [o'|]; simpl; [| done].
  intros [= <-] Hne. by apply objGet_objSet_ne.
Qed.

Lemma getProp_editProp_eq pkg pkg' k f :
  editProp pkg k f = Some pkg' → getProp pkg' k = getProp pkg k ≫= f.
Proof.
  destruct pkg; simpl; try (by intros [= <-]).
  destruct (objGet k members) as [o|] eqn:Hk; simpl.
  - destruct (f o) as [o'|]; simpl; [| done].
    intros [= <-]. simpl. apply objGet_objSet_eq.
  - by intros [= <-].
Qed.

Lemma deleteProps_JObj ms ks :
  deleteProps (JObj ms) ks = Some (JObj (foldl (λ m k, objDelete k m) ms ks)).
Proof. revert ms. induction ks as [|k ks IH]; intros ms; [done | apply IH]. Qed.

Lemma deleteProps_truthy v ks :
  truthy (Some v) = true →
  deleteProps v ks =
    Some match v with
         | JObj ms => JObj (foldl (λ m k, objDelete k m) ms ks)
         | _ => v
         end.
Proof.
  destruct v; simpl; try done; intros _;
    try (induction ks; simpl; done).
  apply deleteProps_JObj.
Qed.

Lemma objGet_None_deleted ks k ms :
  objGet k ms = None → objGet k (foldl (λ m k, objDelete k m) ms ks) = None.
Proof.
  revert ms. induction ks as [|k0 ks IH]; intros ms Hk; [done |].
  simpl. by apply IH, objGet_None_objDelete.
Qed.

Lemma objGet_deleted ks k ms :
  k ∈ ks → objGet k (foldl (λ m k, objDelete k m) ms ks) = None.
Proof.
  revert ms. induction ks as [|k0 ks IH]; intros ms Hk;
    [by apply elem_of_nil in Hk |].
  simpl. apply elem_of_cons in Hk as [->|]; [| by apply IH].
  apply objGet_None_deleted, objGet_objDelete_eq.
Qed.

Lemma objGet_not_deleted ks k ms :
  k ∉ ks → objGet k (foldl (λ m k, objDelete k m) ms ks) = objGet k ms.
Proof.
  revert ms. induction ks as [|k0 ks IH]; intros ms Hk; [done |].
  simpl. apply not_elem_of_cons in Hk as [? ?].
  rewrite IH by done. by apply objGet_objDelete_ne.
Qed.

(** ** The manifest *)

(** The metadata assignments leave every other property as it was. *)
Lemma getProp_setMetadata a pkg pkg' k :
  setMetadata a pkg = Some pkg' → k ∉ metadataKeys →
  getProp pkg' k = getProp pkg k.
Proof.
  intros H Hk. destruct pkg; try done; [by injection H as <- |].
  injection H as <-. cbn [getProp].
  rewrite !objGet_objSet_ne; [done | ..];
    intros <-; apply Hk; by_evaluation.
Qed.

Lemma getProp_setStartScript a pkg pkg' k :
  setStartScript a pkg = Some pkg' → k ≠ "scripts" →
  getProp pkg' k = getProp pkg k.
Proof.
  unfold setStartScript. intros H Hk.
  destruct (_ && _); [| by injection H as <-].
  by apply (getProp_editProp_ne _ _ _ _ _ H).
Qed.

Lemma getProp_removeScripts names pkg pkg' k :
  removeScripts names pkg = Some pkg' → k ≠ "scripts" →
  getProp pkg' k = getProp pkg k.
Proof.
  unfold removeScripts. intros H Hk.
  destruct (_ && _); [| by injection H as <-].
  by apply (getProp_editProp_ne _ _ _ _ _ H).
Qed.

Lemma getProp_removeDevDependencies deps pkg pkg' :
  removeDevDependencies deps pkg = Some pkg' →
  getProp pkg' "devDependencies"
    = withoutKeys deps <$> getProp pkg "devDependencies".
Proof.
  unfold removeDevDependencies. intros H.
  destruct (negb (bool_decide (deps = []))) eqn:Hd; simpl in H.
  - destruct (truthy (getProp pkg "devDependencies")) eqn:Ht.
    + rewrite (getProp_editProp_eq _ _ _ _ H).
      destruct (getProp pkg "devDependencies") as [v|]; [| done]. simpl.
      by rewrite deleteProps_truthy.
    + injection H as <-.
      destruct (getProp pkg "devDependencies") as [[]|]; try done.
  - injection H as <-. apply negb_false_iff, bool_decide_eq_true in Hd as ->.
    by destruct (getProp pkg "devDependencies") as [[]|].
Qed.

Lemma getProp_removeSetupDependency pkg pkg' :
  removeSetupDependency pkg = Some pkg' →
  getProp pkg' "devDependencies"
    = withoutKeys ["@clack/prompts"] <$> getProp pkg "devDependencies".
Proof.
  unfold removeSetupDependency. intros H.
  destruct (truthy (getProp pkg "devDependencies")) eqn:Ht.
  - rewrite (getProp_editProp_eq _ _ _ _ H).
    destruct (getProp pkg "devDependencies") as [[]|]; try done.
  - injection H as <-.
    destruct (getProp pkg "devDependencies") as [[]|]; try done.
Qed.

(** The [devDependencies] of the manifest that is written, from those of
    the manifest that was read. *)
Lemma devDependencies_after a pkg pkg' r :
  collectRemoval noRemoval (deselected (selectedFeatures a)) = Some r →
  mutateManifest a pkg = Some pkg' →
  getProp pkg' "devDependencies"
    = withoutKeys ["@clack/prompts"]
        <$> (withoutKeys (depsToRemove r) <$> getProp pkg "devDependencies").
Proof.
  intros Hr H. unfold mutateManifest in H. rewrite Hr in H.
  destruct (setMetadata a pkg) as [p1|] eqn:H1; [| done].
  cbn [mbind option_bind] in H.
  destruct (setStartScript a p1) as [p2|] eqn:H2; [| done].
  cbn [mbind option_bind] in H.
  destruct (removeDevDependencies (depsToRemove r) p2) as [p3|] eqn:H3; [| done].
  cbn [mbind option_bind] in H.
  destruct (removeScripts (scriptsToRemove r) p3) as [p4|] eqn:H4; [| done].
  cbn [mbind option_bind] in H.
  destruct (removeSetupDependency p4) as [p5|] eqn:H5; [| done].
  cbn [mbind option_bind] in H.
  rewrite (getProp_deleteProp_ne _ _ _ _ H) by done.
  rewrite (getProp_removeSetupDependency _ _ H5).
  rewrite (getProp_removeScripts _ _ _ _ H4) by done.
  rewrite (getProp_removeDevDependencies _ _ _ H3).
  rewrite (getProp_setStartScript _ _ _ _ H2) by done.
  rewrite (getProp_setMetadata _ _ _ _ H1); [done |]. by_evaluation.
Qed.

(** The prompt library is a dependency of no feature. *)
Lemma clack_unlisted kf : kf ∈ FEATURES → "@clack/prompts" ∉ devDeps kf.2.
Proof. revert kf. apply Forall_forall. by_evaluation. Qed.

(** C7.  In the manifest that is written, no name of [depsToRemove] is left
    in the [devDependencies] map, and every dependency of a selected
    feature is there as it was read. *)
Theorem manifest_dependencies (a : Answers) (pkg pkg' : value) (r : Removal) :
  collectRemoval noRemoval (deselected (selectedFeatures a)) = Some r →
  mutateManifest a pkg = Some pkg' →
  (∀ d deps', d ∈ depsToRemove r →
     getProp pkg' "devDependencies" = Some (JObj deps') →
     objGet d deps' = None)
  ∧ (∀ k f d deps, (k, f) ∈ FEATURES → k ∈ selectedFeatures a →
       d ∈ devDeps f →
       getProp pkg "devDependencies" = Some (JObj deps) →
       ∃ deps', getProp pkg' "devDependencies" = Some (JObj deps')
                ∧ objGet d deps' = objGet d deps).
Proof.
  intros Hr H. pose proof (devDependencies_after _ _ _ _ Hr H) as Hdd.
  split.
  - intros d deps' Hd Hdeps'. rewrite Hdeps' in Hdd.
    destruct (getProp pkg "devDependencies") as [[]|]; try done.
    injection Hdd as ->. simpl.
    apply objGet_None_objDelete. by apply objGet_deleted.
  - intros k f d deps Hkf Hk Hd Hdeps. rewrite Hdeps in Hdd. simpl in Hdd.
    eexists. split; [done |].
    rewrite objGet_objDelete_ne, objGet_not_deleted; [done | |].
    + rewrite collectRemoval_deselected in Hr. injection Hr as <-. simpl.
      intros (kf' & Hkf' & Hsel & Hd')%elem_of_removed.
      pose proof (devDeps_owner (k, f) kf' d Hkf Hkf' Hd Hd') as Heq.
      simpl in Heq. by subst.
    + intros <-. by apply (clack_unlisted (k, f)).
Qed.

(** ** The order of the keys *)

Lemma filter_ext_in {A} (P1 P2 : A → Prop)
    `{!∀ x, Decision (P1 x), !∀ x, Decision (P2 x)} (l : list A) :
  (∀ x, x ∈ l → P1 x ↔ P2 x) → filter P1 l = filter P2 l.
Proof.
  induction l as [|x l IH]; intros Hl; [done |].
  rewrite !filter_cons, IH
    by (intros y ?; apply Hl; by apply list_elem_of_further).
  apply decide_ext, Hl, list_elem_of_here.
Qed.

Lemma filter_all {A} (P : A → Prop) `{!∀ x, Decision (P x)} (l : list A) :
  (∀ x, x ∈ l → P x) → filter P l = l.
Proof.
  induction l as [|x l IH]; intros Hl; [done |].
  rewrite filter_cons_True by apply Hl, list_elem_of_here.
  f_equal. apply IH. intros y ?. by apply Hl, list_elem_of_further.
Qed.

Lemma objKeys_objSet_many kvs ms :
  NoDup kvs.*1 →
  objKeys (foldl (λ m kv, objSet kv.1 kv.2 m) ms kvs)
    = objKeys ms ++ filter (λ k, k ∉ objKeys ms) kvs.*1.
Proof.
  revert ms. induction kvs as [|[k x] kvs IH]; intros ms Hnd.
  - by rewrite app_nil_r.
  - rewrite fmap_cons in Hnd. apply NoDup_cons in Hnd as [Hk Hnd].
    cbn [foldl fst snd]. rewrite IH, objKeys_objSet by done.
    rewrite fmap_cons. cbn [fst].
    change (k :: kvs.*1) with ([k] ++ kvs.*1).
    rewrite filter_app, <- !app_assoc. do 2 f_equal.
    apply filter_ext_in. intros k' Hk'.
    rewrite not_elem_of_app, list_elem_of_filter, list_elem_of_singleton.
    split; [prop_solver |]. intros Hn. split; [done |]. intros [_ ->]. done.
Qed.

Lemma setMetadata_object a ms :
  setMetadata a (JObj ms)
    = Some (JObj (foldl (λ m kv, objSet kv.1 kv.2 m) ms (metadataFields a))).
Proof. reflexivity. Qed.

Lemma editProp_object ms k f pkg' :
  editProp (JObj ms) k f = Some pkg' →
  ∃ ms', pkg' = JObj ms' ∧ objKeys ms' = objKeys ms.
Proof.
  simpl. destruct (objGet k ms) as [o|] eqn:Hk; [| intros [= <-]; eauto].
  destruct (f o) as [o'|]; simpl; [| done]. intros [= <-].
  eexists. split; [done |].
  apply objKeys_objSet_present. by eapply objGet_Some_key.
Qed.

(** The top-level keys of the manifest that is written: those that were
    read, without [bun-create] and in the order read, then the metadata
    keys that were not there, in the order assigned. *)
Lemma mutateManifest_keys a ms pkg' :
  mutateManifest a (JObj ms) = Some pkg' →
  ∃ ms', pkg' = JObj ms'
    ∧ objKeys ms' = filter (λ k, k ≠ "bun-create") (objKeys ms)
                    ++ filter (λ k, k ∉ objKeys ms) metadataKeys.
Proof.
  unfold mutateManifest. rewrite setMetadata_object, collectRemoval_deselected.
  cbn [mbind option_bind]. set (r := Build_Removal _ _ _).
  set (ms1 := foldl _ ms _).
  assert (objKeys ms1 = objKeys ms ++ filter (λ k, k ∉ objKeys ms) metadataKeys)
    as Hk1 by (apply objKeys_objSet_many; by_evaluation).
  clearbody ms1 r. intros H.
  destruct (setStartScript a (JObj ms1)) as [p2|] eqn:H2; [| done].
  assert (∃ ms2, p2 = JObj ms2 ∧ objKeys ms2 = objKeys ms1) as (ms2 & -> & Hk2).
  { unfold setStartScript in H2. destruct (_ && _).
    - by apply editProp_object in H2.
    - injection H2 as <-. eauto. }
  cbn [mbind option_bind] in H.
  destruct (removeDevDependencies _ _) as [p3|] eqn:H3; [| done].
  assert (∃ ms3, p3 = JObj ms3 ∧ objKeys ms3 = objKeys ms2) as (ms3 & -> & Hk3).
  { unfold removeDevDependencies in H3. destruct (_ && _).
    - by apply editProp_object in H3.
    - injection H3 as <-. eauto. }
  cbn [mbind option_bind] in H.
  destruct (removeScripts _ _) as [p4|] eqn:H4; [| done].
  assert (∃ ms4, p4 = JObj ms4 ∧ objKeys ms4 = objKeys ms3) as (ms4 & -> & Hk4).
  { unfold removeScripts in H4. destruct (_ && _).
    - by apply editProp_object in H4.
    - injection H4 as <-. eauto. }
  cbn [mbind option_bind] in H.
  destruct (removeSetupDependency _) as [p5|] eqn:H5; [| done].
  assert (∃ ms5, p5 = JObj ms5 ∧ objKeys ms5 = objKeys ms4) as (ms5 & -> & Hk5).
  { unfold removeSetupDependency in H5. destruct (truthy _).
    - by apply editProp_object in H5.
    - injection H5 as <-. eauto. }
  cbn [mbind option_bind deleteProp] in H. injection H as <-.
  eexists. split; [done |].
  rewrite objKeys_objDelete, Hk5, Hk4, Hk3, Hk2, Hk1, filter_app. f_equal.
  rewrite list_filter_filter. apply filter_ext_in. intros k Hk.
  split; [prop_solver |]. intros Hn. split; [| done]. intros ->. revert Hk.
  by_evaluation.
Qed.

Lemma objKeys_deleted ks ms :
  objKeys (foldl (λ m k, objDelete k m) ms ks)
    = filter (λ k, k ∉ ks) (objKeys ms).
Proof.
  revert ms. induction ks as [|k ks IH]; intros ms.
  - simpl. symmetry. apply filter_all. intros x _. apply not_elem_of_nil.
  - simpl. rewrite IH, objKeys_objDelete, list_filter_filter.
    apply list_filter_iff. intros x. rewrite not_elem_of_cons.
    clear PROJECT_DIR JSON_parse bunInstall IH. tauto.
Qed.

Lemma getProp_removeDevDependencies_ne deps pkg pkg' k :
  removeDevDependencies deps pkg = Some pkg' → k ≠ "devDependencies" →
  getProp pkg' k = getProp pkg k.
Proof.
  unfold removeDevDependencies. intros H Hk.
  destruct (_ && _); [| by injection H as <-].
  by apply (getProp_editProp_ne _ _ _ _ _ H).
Qed.

Lemma getProp_removeSetupDependency_ne pkg pkg' k :
  removeSetupDependency pkg = Some pkg' → k ≠ "devDependencies" →
  getProp pkg' k = getProp pkg k.
Proof.
  unfold removeSetupDependency. intros H Hk.
  destruct (truthy _); [| by injection H as <-].
  by apply (getProp_editProp_ne _ _ _ _ _ H).
Qed.

Lemma getProp_setStartScript_scripts a pkg pkg' inner :
  setStartScript a pkg = Some pkg' →
  getProp pkg "scripts" = Some (JObj inner) →
  getProp pkg' "scripts" = Some (JObj (startScript a inner)).
Proof.
  unfold setStartScript, startScript. intros H Hs. rewrite Hs in H.
  case_bool_decide as He; simpl in H.
  - by injection H as <-.
  - by rewrite (getProp_editProp_eq _ _ _ _ H), Hs.
Qed.

Lemma getProp_removeScripts_scripts names pkg pkg' :
  removeScripts names pkg = Some pkg' →
  getProp pkg' "scripts" = withoutKeys names <$> getProp pkg "scripts".
Proof.
  unfold removeScripts. intros H.
  destruct (negb (bool_decide (names = []))) eqn:Hd; simpl in H.
  - destruct (truthy (getProp pkg "scripts")) eqn:Ht.
    + rewrite (getProp_editProp_eq _ _ _ _ H).
      destruct (getProp pkg "scripts") as [v|]; [| done]. simpl.
      by rewrite deleteProps_truthy.
    + injection H as <-.
      destruct (getProp pkg "scripts") as [[]|]; try done.
  - injection H as <-. apply negb_false_iff, bool_decide_eq_true in Hd as ->.
    by destruct (getProp pkg "scripts") as [[]|].
Qed.

(** The [scripts] of the manifest that is written, from those that were
    read, when they are an object. *)
Lemma scripts_after a pkg pkg' r inner :
  collectRemoval noRemoval (deselected (selectedFeatures a)) = Some r →
  mutateManifest a pkg = Some pkg' →
  getProp pkg "scripts" = Some (JObj inner) →
  getProp pkg' "scripts"
    = Some (withoutKeys (scriptsToRemove r) (JObj (startScript a inner))).
Proof.
  intros Hr H Hs. unfold mutateManifest in H. rewrite Hr in H.
  destruct (setMetadata a pkg) as [p1|] eqn:H1; [| done].
  cbn [mbind option_bind] in H.
  destruct (setStartScript a p1) as [p2|] eqn:H2; [| done].
  cbn [mbind option_bind] in H.
  destruct (removeDevDependencies (depsToRemove r) p2) as [p3|] eqn:H3; [| done].
  cbn [mbind option_bind] in H.
  destruct (removeScripts (scriptsToRemove r) p3) as [p4|] eqn:H4; [| done].
  cbn [mbind option_bind] in H.
  destruct (removeSetupDependency p4) as [p5|] eqn:H5; [| done].
  cbn [mbind option_bind] in H.
  rewrite (getProp_deleteProp_ne _ _ _ _ H) by done.
  rewrite (getProp_removeSetupDependency_ne _ _ _ H5) by done.
  rewrite (getProp_removeScripts_scripts _ _ _ H4).
  rewrite (getProp_removeDevDependencies_ne _ _ _ _ H3) by done.
  rewrite (getProp_setStartScript_scripts _ _ _ inner H2); [done |].
  rewrite (getProp_setMetadata _ _ _ _ H1); [done |]. by_evaluation.
Qed.

(** A non-empty object written with a tab for [gap]: one member a line,
    each behind one tab, in the order of the object. *)
Lemma stringify_object ms :
  ms ≠ [] →
  JSON_stringify (JObj ms) TAB
    = "{" +:+ LF +:+ TAB
      +:+ String.concat ("," +:+ LF +:+ TAB) (memberText <$> ms)
      +:+ LF +:+ "}".
Proof.
  intros Hms. unfold JSON_stringify. cbn [serialize]. unfold wrapParts.
  destruct ms as [|kv ms]; [done |]. reflexivity.
Qed.

(** ** The README *)

Lemma containsRun_true block l :
  containsRun block l = true ↔ ∃ pre post, l = pre ++ block ++ post.
Proof.
  split.
  - induction l as [|x l IH]; simpl; rewrite orb_true_iff, bool_decide_eq_true.
    + intros [[post ->] | ?]; [| done]. by exists [], post.
    + intros [[post ->] | H]; [by exists [], post |].
      destruct (IH H) as (pre & post & ->). by exists (x :: pre), post.
  - intros (pre & post & ->). induction pre as [|x pre IH]; simpl.
    + destruct (block ++ post) eqn:E; simpl; rewrite orb_true_iff;
        left; apply bool_decide_eq_true; rewrite <- E; by exists post.
    + rewrite IH. apply orb_true_r.
Qed.

Lemma splitOn_plain sep s : hasChar sep s = false → splitOn sep s = [s].
Proof.
  induction s as [|c s IH]; [done |]. simpl.
  intros [Hc Hs]%orb_false_iff. rewrite Hc, IH; done.
Qed.

Lemma splitOn_app sep s rest :
  hasChar sep s = false →
  splitOn sep (s +:+ String sep rest) = s :: splitOn sep rest.
Proof.
  induction s as [|c s IH]; simpl.
  - intros _. by rewrite bool_decide_true.
  - intros [Hc Hs]%orb_false_iff. rewrite Hc, IH; done.
Qed.

Lemma splitOn_concat sep ls :
  ls ≠ [] → Forall (λ l, hasChar sep l = false) ls →
  splitOn sep (String.concat (String sep "") ls) = ls.
Proof.
  induction ls as [|l ls IH]; [done |]. intros _ Hls.
  apply Forall_cons in Hls as [Hl Hls].
  destruct ls as [|l' ls]; [by apply splitOn_plain |].
  change (String.concat (String sep "") (l :: l' :: ls))
    with (l +:+ String sep (String.concat (String sep "") (l' :: ls))).
  rewrite splitOn_app, IH; done.
Qed.

(** Without the git hooks the lines hold no commit-convention block. *)
Lemma readmeLines_without_hooks name desc features :
  includes features "gitHooks" = false →
  containsRun commitConvention (readmeLines name desc features) = false.
Proof.
  intros Hh. apply not_true_is_false. intros Hrun.
  apply containsRun_true in Hrun as (pre & post & Hrun).
  unfold readmeLines in Hrun. rewrite Hh in Hrun.
  set (d := if bool_decide (desc = "") then _ else _) in Hrun. clearbody d.
  assert (∀ pre l, l = pre ++ commitConvention ++ post →
            containsRun commitConvention l = true) as Hc
    by (intros ? l ->; apply containsRun_true; eauto).
  destruct pre as [|x0 [|x1 [|x2 pre]]]; try discriminate Hrun.
  injection Hrun as _ _ _ Hrun. apply Hc in Hrun.
  destruct (includes features "markdownlint"); vm_compute in Hrun;
    discriminate.
Qed.

Lemma readmeLines_with_hooks name desc features :
  includes features "gitHooks" = true →
  containsRun commitConvention (readmeLines name desc features) = true.
Proof.
  intros Hh. apply containsRun_true. unfold readmeLines. rewrite Hh.
  eexists _, [""]. rewrite !app_assoc. reflexivity.
Qed.

Lemma readmeLines_commit_section name desc features :
  containsRun commitConvention (readmeLines name desc features) = true
  ↔ "gitHooks" ∈ features.
Proof.
  rewrite <- includes_true.
  destruct (includes features "gitHooks") eqn:Hh.
  - by rewrite readmeLines_with_hooks.
  - by rewrite readmeLines_without_hooks.
Qed.

(** When neither the name nor the description has a line break, the lines
    of the text are the lines that were joined. *)
Lemma textLines_readmeText name desc features :
  hasChar lineBreak name = false → hasChar lineBreak desc = false →
  textLines (readmeText name desc features) = readmeLines name desc features.
Proof.
  intros Hn Hd. unfold textLines, readmeText, LF.
  apply splitOn_concat; [done |]. unfold readmeLines.
  repeat first [apply Forall_app; split | apply Forall_cons; split];
    try (by destruct (includes features _); by_evaluation);
    try by_evaluation.
  - done.
  - case_bool_decide; [by_evaluation | done].
Qed.

(** ** Paths *)

Lemma stepInto_app dir acc seg :
  seg ≠ ".." → stepInto (dir ++ acc) seg = dir ++ stepInto acc seg.
Proof.
  intros Hseg. unfold stepInto. case_bool_decide; [done |].
  rewrite bool_decide_false by done. by rewrite app_assoc.
Qed.

(** A relative path that never goes up is joined by appending. *)
Lemma join_plain dir p :
  Forall (λ seg, seg ≠ "..") (segments p) → join dir p = dir ++ join [] p.
Proof.
  unfold join. rewrite <- (app_nil_r dir) at 1. generalize (@nil string).
  induction (segments p) as [|seg segs IH]; intros acc Hsegs; [done |].
  apply Forall_cons in Hsegs as [Hseg Hsegs]. simpl.
  rewrite stepInto_app by done. by apply IH.
Qed.

Lemma registry_paths_plain :
  Forall (λ kf, Forall (λ p, Forall (λ seg, seg ≠ "..") (segments p))
                  (files kf.2)) FEATURES.
Proof. by_evaluation. Qed.

Lemma join_registry dir kf p :
  kf ∈ FEATURES → p ∈ files kf.2 → join dir p = dir ++ join [] p.
Proof.
  intros Hkf Hp. apply join_plain.
  pose proof registry_paths_plain as H. rewrite Forall_forall in H.
  specialize (H kf Hkf). rewrite Forall_forall in H. by apply H.
Qed.

(** Only the git hooks list the lint-staged file or a directory above it,
    only the CI workflow lists a directory above [ci.yml], and no feature
    lists the editor settings or a directory above them. *)
Lemma above_lintstaged :
  Forall (λ kf, Forall (λ p, join [] p `prefix_of` [".lintstagedrc"] →
                             kf.1 = "gitHooks") (files kf.2)) FEATURES.
Proof. by_evaluation. Qed.

Lemma above_ci :
  Forall (λ kf, Forall (λ p,
      join [] p `prefix_of` [".github"; "workflows"; "ci.yml"] →
      kf.1 = "githubCI") (files kf.2)) FEATURES.
Proof. by_evaluation. Qed.

Lemma above_vscode :
  Forall (λ kf, Forall (λ p,
      ¬ join [] p `prefix_of` [".vscode"; "settings.json"]) (files kf.2))
    FEATURES.
Proof. by_evaluation. Qed.

Lemma vscode_unlisted kf :
  kf ∈ FEATURES → ".vscode/settings.json" ∉ files kf.2.
Proof. revert kf. apply Forall_forall. by_evaluation. Qed.

(** No path that is removed is [dir ++ target] or a directory above it,
    when every feature that lists such a path is selected and the rule of
    [.github] does not apply to it. *)
Lemma removed_not_above sel fsr dir (target : list string) :
  resolvedFiles sel = Some fsr →
  (∀ kf p, kf ∈ FEATURES → p ∈ files kf.2 →
           join [] p `prefix_of` target → kf.1 ∈ sel) →
  ([".github"] `prefix_of` target →
   "githubTemplates" ∈ sel ∨ "githubCI" ∈ sel) →
  ∀ p, p ∈ fsr → ¬ join dir p `prefix_of` dir ++ target.
Proof.
  intros Hfsr Hown Hgithub p Hp Hpre.
  apply (elem_of_resolvedFiles _ _ _ Hfsr) in Hp
    as [(kf & Hkf & Hsel & Hp) | (-> & ? & ?)].
  - rewrite (join_registry dir kf p Hkf Hp) in Hpre.
    apply prefix_app_inv in Hpre. by apply Hsel, (Hown kf p).
  - change (join dir ".github") with (dir ++ [".github"]) in Hpre.
    apply prefix_app_inv in Hpre. destruct (Hgithub Hpre); done.
Qed.

Lemma join_lintstaged dir : join dir ".lintstagedrc" = dir ++ [".lintstagedrc"].
Proof. rewrite join_plain; [done | by_evaluation]. Qed.

Lemma join_vscode dir :
  join dir ".vscode/settings.json" = dir ++ [".vscode"; "settings.json"].
Proof. rewrite join_plain; [done | by_evaluation]. Qed.

Lemma join_ci dir :
  join dir ".github/workflows/ci.yml"
    = dir ++ [".github"; "workflows"; "ci.yml"].
Proof. rewrite join_plain; [done | by_evaluation]. Qed.

(** ** Removing files *)

Lemma removeTree_lookup (full : list string) (fs : FS) (q : list string) :
  removeTree full fs !! q = if decide (full `prefix_of` q) then None else fs !! q.
Proof.
  unfold removeTree. case_decide as Hp.
  - apply map_lookup_filter_None. right. intros x _ Hn. by apply Hn.
  - destruct (fs !! q) as [x|] eqn:Hq.
    + by apply map_lookup_filter_Some.
    + apply map_lookup_filter_None. by left.
Qed.

Lemma removeTree_gone (full : list string) (fs : FS) : removeTree full fs !! full = None.
Proof. by rewrite removeTree_lookup, decide_True. Qed.

Lemma removeTree_None (full : list string) (fs : FS) (q : list string) :
  fs !! q = None → removeTree full fs !! q = None.
Proof. intros Hq. rewrite removeTree_lookup. by case_decide. Qed.

(** One turn of the loop of [removeFiles], case by case. *)
Lemma removeFile_missing (p : string) (fs : FS) :
  fs !! join PROJECT_DIR p = None →
  removeFile p fs = (Ret (), fs, [EExists (join PROJECT_DIR p)]).
Proof.
  intros Hp. unfold removeFile, mbind, M_bind, existsSync.
  rewrite bool_decide_false; [done |]. rewrite Hp. by intros [? ?].
Qed.

Lemma removeFile_found (p : string) (fs : FS) :
  is_Some (fs !! join PROJECT_DIR p) →
  removeFile p fs =
    match join PROJECT_DIR p with
    | [] => (Throw "ShellError", fs, [EExists []; ERemove []])
    | c :: l =>
        (Ret (), removeTree (c :: l) fs, [EExists (c :: l); ERemove (c :: l)])
    end.
Proof.
  intros Hp. unfold removeFile, mbind, M_bind, existsSync.
  rewrite bool_decide_true by done.
  by destruct (join PROJECT_DIR p).
Qed.

Lemma removeFiles_cons (p : string) (ps : list string) (fs : FS) :
  removeFiles (p :: ps) fs =
    match removeFile p fs with
    | (Ret _, fs1, t1) =>
        match removeFiles ps fs1 with (r, fs2, t2) => (r, fs2, t1 ++ t2) end
    | (Exit code, fs1, t1) => (Exit code, fs1, t1)
    | (Throw err, fs1, t1) => (Throw err, fs1, t1)
    | (Blocked, fs1, t1) => (Blocked, fs1, t1)
    end.
Proof. reflexivity. Qed.

(** Removal never brings a path into being. *)
Lemma removeFile_None (p : string) (fs : FS) (q : list string) :
  fs !! q = None → fsOf (removeFile p fs) !! q = None.
Proof.
  intros Hq. destruct (fs !! join PROJECT_DIR p) eqn:Hp.
  - rewrite removeFile_found by (rewrite Hp; eauto).
    destruct (join PROJECT_DIR p); [done |]. by apply removeTree_None.
  - by rewrite removeFile_missing.
Qed.

Lemma removeFiles_None (ps : list string) (fs : FS) (q : list string) :
  fs !! q = None → fsOf (removeFiles ps fs) !! q = None.
Proof.
  revert fs. induction ps as [|p ps IH]; intros fs Hq; [done |].
  rewrite removeFiles_cons.
  pose proof (removeFile_None p fs q Hq) as H1.
  destruct (removeFile p fs) as [[[] fs1] t1]; try done.
  specialize (IH fs1 H1).
  by destruct (removeFiles ps fs1) as [[r fs2] t2].
Qed.

(** C6.  Removing the same paths a second time ends the same way and
    leaves the file system as the first removal left it; and a path that
    does not exist is passed over, with no error and no change. *)
Theorem removeFiles_idempotent (paths : list string) (fs : FS) :
  (fsOf (removeFiles paths (fsOf (removeFiles paths fs)))
     = fsOf (removeFiles paths fs)
   ∧ outcomeOf (removeFiles paths (fsOf (removeFiles paths fs)))
     = outcomeOf (removeFiles paths fs))
  ∧ ∀ p, fs !! join PROJECT_DIR p = None →
      removeFile p fs = (Ret (), fs, [EExists (join PROJECT_DIR p)])
      ∧ removeFiles [p] fs = (Ret (), fs, [EExists (join PROJECT_DIR p)]).
Proof.
  split.
  - revert fs. induction paths as [|p ps IH]; intros fs; [done |].
    rewrite (removeFiles_cons p ps fs).
    destruct (fs !! join PROJECT_DIR p) as [x|] eqn:Hp.
    + rewrite (removeFile_found p fs) by (rewrite Hp; eauto).
      destruct (join PROJECT_DIR p) as [|c full] eqn:Hfull.
      * cbn [fsOf outcomeOf fst snd]. rewrite removeFiles_cons.
        rewrite removeFile_found by (rewrite Hfull, Hp; eauto).
        by rewrite Hfull.
      * specialize (IH (removeTree (c :: full) fs)).
        pose proof (removeFiles_None ps (removeTree (c :: full) fs)
                      (c :: full) (removeTree_gone _ _)) as Hgone.
        destruct (removeFiles ps (removeTree (c :: full) fs))
          as [[r fs1] t1] eqn:Hrun.
        cbn [fsOf outcomeOf fst snd] in *.
        rewrite removeFiles_cons, removeFile_missing by (by rewrite Hfull).
        destruct (removeFiles ps fs1) as [[r' fs2] t2]. by simpl in *.
    + rewrite (removeFile_missing p fs Hp).
      specialize (IH fs).
      pose proof (removeFiles_None ps fs _ Hp) as Hgone.
      destruct (removeFiles ps fs) as [[r fs1] t1] eqn:Hrun.
      cbn [fsOf outcomeOf fst snd] in *.
      rewrite removeFiles_cons, removeFile_missing by done.
      destruct (removeFiles ps fs1) as [[r' fs2] t2]. by simpl in *.
  - intros p Hp. split; [by apply removeFile_missing |].
    rewrite removeFiles_cons, removeFile_missing by done. done.
Qed.

(** ** Computations *)

Lemma bind_run {A B} (m : M A) (f : A → M B) (fs : FS) :
  (m ≫= f) fs =
    match m fs with
    | (Ret a, fs1, t1) =>
        match f a fs1 with (r, fs2, t2) => (r, fs2, t1 ++ t2) end
    | (Exit code, fs1, t1) => (Exit code, fs1, t1)
    | (Throw err, fs1, t1) => (Throw err, fs1, t1)
    | (Blocked, fs1, t1) => (Blocked, fs1, t1)
    end.
Proof. reflexivity. Qed.

(** A sequence that returns: both halves returned. *)
Lemma bind_Ret_inv {A B} (m : M A) (f : A → M B) (fs fs' : FS) b t :
  (m ≫= f) fs = (Ret b, fs', t) →
  ∃ a fs1 t1 t2,
    m fs = (Ret a, fs1, t1) ∧ f a fs1 = (Ret b, fs', t2) ∧ t = t1 ++ t2.
Proof.
  rewrite bind_run. destruct (m fs) as [[[a| | |] fs1] t1]; try done.
  destruct (f a fs1) as [[r fs2] t2] eqn:Hf. intros [= -> -> <-].
  by exists a, fs1, t1, t2.
Qed.

Section predicates.
Context {A B : Type} (m : M A) (f : A → M B).

Lemma emitsOnly_bind Q :
  emitsOnly Q m → (∀ a, emitsOnly Q (f a)) → emitsOnly Q (m ≫= f).
Proof.
  intros Hm Hf fs. rewrite bind_run. specialize (Hm fs).
  destruct (m fs) as [[[a| | |] fs1] t1]; try done.
  specialize (Hf a fs1). destruct (f a fs1) as [[r fs2] t2].
  apply Forall_app. by split.
Qed.

Lemma readsOnly_bind :
  readsOnly m → (∀ a, readsOnly (f a)) → readsOnly (m ≫= f).
Proof.
  intros Hm Hf fs. rewrite bind_run. specialize (Hm fs).
  destruct (m fs) as [[[a| | |] fs1] t1]; try done.
  specialize (Hf a fs1). destruct (f a fs1) as [[r fs2] t2].
  unfold fsOf in *. simpl in *. congruence.
Qed.

Lemma keeps_bind q :
  keeps q m → (∀ a, keeps q (f a)) → keeps q (m ≫= f).
Proof.
  intros Hm Hf fs. rewrite bind_run. specialize (Hm fs).
  destruct (m fs) as [[[a| | |] fs1] t1]; try done.
  specialize (Hf a fs1). destruct (f a fs1) as [[r fs2] t2].
  unfold fsOf in *. simpl in *. congruence.
Qed.
End predicates.

Lemma readsOnly_keeps {A} (c : M A) q : readsOnly c → keeps q c.
Proof. intros Hc fs. by rewrite Hc. Qed.

Lemma readsOnly_ret {A} (a : A) : readsOnly (mret a).
Proof. done. Qed.
Lemma readsOnly_emit e : readsOnly (emit e).
Proof. done. Qed.
Lemma readsOnly_exit {A} code : readsOnly (@exit A code).
Proof. done. Qed.
Lemma readsOnly_throw {A} err : readsOnly (@throw A err).
Proof. done. Qed.
Lemma readsOnly_blocked {A} : readsOnly (@blocked A).
Proof. done. Qed.
Lemma readsOnly_orThrow {A} err (o : option A) : readsOnly (orThrow err o).
Proof. by destruct o. Qed.
Lemma readsOnly_existsSync full : readsOnly (existsSync full).
Proof. done. Qed.
Lemma readsOnly_readText full : readsOnly (readText full).
Proof. intros fs. unfold readText. by destruct (fs !! full) as [[]|]. Qed.
Lemma readsOnly_parseJSON text : readsOnly (parseJSON text).
Proof. apply readsOnly_orThrow. Qed.
Lemma readsOnly_readPkg : readsOnly readPkg.
Proof.
  apply readsOnly_bind; [apply readsOnly_readText |].
  intros ?. apply readsOnly_parseJSON.
Qed.

Lemma readsOnly_mapM {A B} (f : A → M B) xs :
  (∀ x, readsOnly (f x)) → readsOnly (mapM f xs).
Proof.
  intros Hf. induction xs as [|x xs IH]; [done |].
  apply readsOnly_bind; [done |]. intros ?.
  apply readsOnly_bind; [done |]. intros ?. apply readsOnly_ret.
Qed.

Lemma readsOnly_summaryLine pre k : readsOnly (summaryLine pre k).
Proof.
  apply readsOnly_bind; [apply readsOnly_orThrow |].
  intros ?. apply readsOnly_ret.
Qed.

Lemma emitsOnly_ret {A} Q (a : A) : emitsOnly Q (mret a).
Proof. intros fs. apply Forall_nil_2. Qed.
Lemma emitsOnly_emit Q e : Q e → emitsOnly Q (emit e).
Proof. intros He fs. by apply Forall_singleton. Qed.
Lemma emitsOnly_exit {A} Q code : emitsOnly Q (@exit A code).
Proof. intros fs. apply Forall_nil_2. Qed.
Lemma emitsOnly_throw {A} Q err : emitsOnly Q (@throw A err).
Proof. intros fs. apply Forall_nil_2. Qed.
Lemma emitsOnly_blocked {A} Q : emitsOnly Q (@blocked A).
Proof. intros fs. apply Forall_nil_2. Qed.
Lemma emitsOnly_orThrow {A} Q err (o : option A) : emitsOnly Q (orThrow err o).
Proof. destruct o; [apply emitsOnly_ret | apply emitsOnly_throw]. Qed.
Lemma emitsOnly_existsSync Q full : Q (EExists full) → emitsOnly Q (existsSync full).
Proof. intros He fs. by apply Forall_singleton. Qed.
Lemma emitsOnly_readText Q full : Q (ERead full) → emitsOnly Q (readText full).
Proof.
  intros He fs. unfold readText.
  destruct (fs !! full) as [[]|]; by apply Forall_singleton.
Qed.
Lemma emitsOnly_writeText Q full text :
  Q (EWrite full text) → emitsOnly Q (writeText full text).
Proof.
  intros He fs. unfold writeText.
  destruct (fs !! full) as [[]|]; by apply Forall_singleton.
Qed.
Lemma emitsOnly_rmrf Q full : Q (ERemove full) → emitsOnly Q (rmrf full).
Proof. intros He fs. unfold rmrf. destruct full; by apply Forall_singleton. Qed.
Lemma emitsOnly_install Q : Q EInstall → emitsOnly Q install.
Proof.
  intros He fs. unfold install.
  destruct (bunInstall fs) as [fs' []]; by apply Forall_singleton.
Qed.
Lemma emitsOnly_forEach {A} Q (body : A → M unit) xs :
  (∀ x, emitsOnly Q (body x)) → emitsOnly Q (forEach body xs).
Proof.
  intros Hb. induction xs as [|x xs IH]; [apply emitsOnly_ret |].
  apply emitsOnly_bind; [done |]. by intros _.
Qed.
Lemma emitsOnly_mapM {A B} Q (f : A → M B) xs :
  (∀ x, emitsOnly Q (f x)) → emitsOnly Q (mapM f xs).
Proof.
  intros Hf. induction xs as [|x xs IH]; [apply emitsOnly_ret |].
  apply emitsOnly_bind; [done |]. intros ?.
  apply emitsOnly_bind; [done |]. intros ?. apply emitsOnly_ret.
Qed.

Lemma keeps_writeText (q full : list string) text :
  full ≠ q → keeps q (writeText full text).
Proof.
  intros Hne fs. unfold writeText.
  destruct (fs !! full) as [[]|]; unfold fsOf; simpl;
    by rewrite ?lookup_insert_ne.
Qed.
Lemma keeps_rmrf (q full : list string) :
  ¬ full `prefix_of` q → keeps q (rmrf full).
Proof.
  intros Hn fs. unfold rmrf. destruct full; [done |].
  unfold fsOf. simpl. by rewrite removeTree_lookup, decide_False.
Qed.
Lemma keeps_forEach {A} q (body : A → M unit) xs :
  (∀ x, x ∈ xs → keeps q (body x)) → keeps q (forEach body xs).
Proof.
  induction xs as [|x xs IH]; intros Hb; [done |].
  apply keeps_bind; [apply Hb, list_elem_of_here |].
  intros _. apply IH. intros y ?. by apply Hb, list_elem_of_further.
Qed.

Lemma bind_assoc {A B C} (m : M A) (f : A → M B) (g : B → M C) (fs : FS) :
  ((m ≫= f) ≫= g) fs = (m ≫= (λ a, f a ≫= g)) fs.
Proof.
  rewrite !bind_run. destruct (m fs) as [[[a| | |] fs1] t1]; try done.
  rewrite bind_run. destruct (f a fs1) as [[[b| | |] fs2] t2]; try done.
  destruct (g b fs2) as [[r fs3] t3]. by rewrite app_assoc.
Qed.

(** ** The prompt sequence *)

Lemma asked_app t1 t2 : asked (t1 ++ t2) = asked t1 ++ asked t2.
Proof. apply omap_app. Qed.

Lemma promptRun_ext {A} ps (c c' : M A) :
  (∀ fs, c fs = c' fs) → promptRun ps c → promptRun ps c'.
Proof. intros Heq Hc fs. rewrite <- Heq. apply Hc. Qed.

Lemma promptRun_ret {A} (a : A) : promptRun [] (mret a).
Proof.
  intros fs. split; [done |]. left. exists a.
  split; [done |]. split; [apply Forall_nil_2 | done].
Qed.

Lemma promptRun_bind {A B} ps1 ps2 (m : M A) (f : A → M B) :
  promptRun ps1 m → (∀ a, promptRun ps2 (f a)) →
  promptRun (ps1 ++ ps2) (m ≫= f).
Proof.
  intros Hm Hf fs. rewrite bind_run.
  destruct (Hm fs) as [Hfs Hrun].
  destruct (m fs) as [[r1 fs1] t1]. unfold fsOf, outcomeOf, traceOf in *.
  simpl in *. subst fs1.
  destruct Hrun as [(a & -> & Hok & Hasked)
                   | [(-> & pre & p & -> & Hok & Hpre) | (-> & Hok & Hpre)]].
  - destruct (Hf a fs) as [Hfs2 Hrun2].
    destruct (f a fs) as [[r2 fs2] t2].
    unfold fsOf, outcomeOf, traceOf in *. simpl in *. subst fs2.
    split; [done |].
    destruct Hrun2 as [(b & -> & Hok2 & Hasked2)
                      | [(-> & pre & p & -> & Hok2 & Hpre) | (-> & Hok2 & Hpre)]].
    + left. exists b. rewrite asked_app, Forall_app. by subst.
    + right; left. split; [done |]. exists (t1 ++ pre), p.
      rewrite asked_app, Forall_app, <- !app_assoc. subst ps1.
      split_and!; try done. by apply prefix_app.
    + right; right. rewrite asked_app, Forall_app. subst ps1.
      split_and!; try done. by apply prefix_app.
  - split; [done |]. right; left. split; [done |]. exists pre, p.
    split_and!; try done. by apply prefix_app_r.
  - split; [done |]. right; right. split_and!; try done.
    by apply prefix_app_r.
Qed.

(** One question without validation, with its [assertNotCancelled]. *)
Lemma promptRun_ask {A} p (a : answer A) :
  promptRun [p] (prompt p a ≫= assertNotCancelled).
Proof.
  intros fs. split; [by destruct a |]. destruct a as [v|].
  - left. exists v. split; [done |]. split; [| done].
    by apply Forall_singleton.
  - right; left. split; [done |]. exists [], p.
    split; [done |]. split; [apply Forall_nil_2 | done].
Qed.

(** The submissions to a validated prompt change nothing and show only
    rejections. *)
Lemma submissions_run (p : promptId) (validate : string → option string)
    (subs : list (answer string)) (fs : FS) :
  fsOf (submissions p validate subs fs) = fs
  ∧ Forall answeredEvent (traceOf (submissions p validate subs fs))
  ∧ asked (traceOf (submissions p validate subs fs)) = []
  ∧ ((∃ a, outcomeOf (submissions p validate subs fs) = Ret a)
     ∨ outcomeOf (submissions p validate subs fs) = Blocked).
Proof.
  induction subs as [|[v|] subs IH]; simpl.
  - split_and!; try done; try apply Forall_nil_2. by right.
  - destruct (validate v) as [msg|].
    + rewrite bind_run. simpl.
      destruct IH as (Hfs & Hok & Hasked & Hout).
      destruct (submissions p validate subs fs) as [[r fs1] t1].
      unfold fsOf, outcomeOf, traceOf in *. simpl in *.
      split_and!; try done. by apply Forall_cons.
    + split_and!; try done; try apply Forall_nil_2. left; eauto.
  - split_and!; try done; try apply Forall_nil_2. left; eauto.
Qed.

(** The question with validation, with its [assertNotCancelled]. *)
Lemma promptRun_askValidated p validate subs :
  promptRun [p] (promptValidated p validate subs ≫= assertNotCancelled).
Proof.
  intros fs. unfold promptValidated. rewrite !bind_run.
  destruct (submissions_run p validate subs fs) as (Hfs & Hok & Hasked & Hout).
  destruct (submissions p validate subs fs) as [[r fs1] t1].
  unfold fsOf, outcomeOf, traceOf in *. simpl in *. subst fs1.
  destruct Hout as [[a ->] | ->].
  - destruct a as [v|]; simpl.
    + split; [done |]. left. exists v. split; [done |].
      rewrite !app_nil_r, asked_app, Hasked, Forall_app.
      split_and!; try done. by apply Forall_singleton.
    + split; [done |]. right; left. split; [done |]. exists t1, p.
      rewrite <- app_assoc, Hasked. by split_and!.
  - split; [done |]. right; right. simpl. rewrite Hasked.
    split_and!; try done. apply prefix_nil.
Qed.

Lemma promptRun_prompt {A B} p ps (a : answer A) (k : A → M B) :
  (∀ x, promptRun ps (k x)) →
  promptRun (p :: ps) (a' ← prompt p a; x ← assertNotCancelled a'; k x).
Proof.
  intros Hk.
  apply (promptRun_ext _ ((prompt p a ≫= assertNotCancelled) ≫= k));
    [intros fs; apply bind_assoc |].
  apply (promptRun_bind [p] ps); [apply promptRun_ask | done].
Qed.

Lemma promptRun_promptValidated {B} p ps validate subs (k : string → M B) :
  (∀ x, promptRun ps (k x)) →
  promptRun (p :: ps)
    (a' ← promptValidated p validate subs; x ← assertNotCancelled a'; k x).
Proof.
  intros Hk.
  apply (promptRun_ext _
           ((promptValidated p validate subs ≫= assertNotCancelled) ≫= k));
    [intros fs; apply bind_assoc |].
  apply (promptRun_bind [p] ps); [apply promptRun_askValidated | done].
Qed.

(** The prompt sequence asks the seven prompts in order, changes nothing,
    and ends at the first one that is cancelled. *)
Lemma promptSequence_run u : promptRun promptOrder (promptSequence u).
Proof.
  unfold promptSequence, promptOrder.
  apply promptRun_prompt; intros description.
  apply promptRun_promptValidated; intros version.
  apply promptRun_prompt; intros author.
  apply promptRun_prompt; intros license.
  apply promptRun_prompt; intros isPrivate.
  apply promptRun_prompt; intros entrypoint.
  apply promptRun_prompt; intros selectedFeatures.
  apply promptRun_ret.
Qed.

(** ** The stages after the prompts *)

(** Goals [emitsOnly Q c] for a [c] built from the calls above, when [Q]
    holds of the events of the calls by evaluation. *)
Ltac emits_step :=
  first
    [ apply emitsOnly_ret | apply emitsOnly_throw | apply emitsOnly_exit
    | apply emitsOnly_orThrow
    | apply emitsOnly_emit; done
    | apply emitsOnly_existsSync; done
    | apply emitsOnly_readText; done
    | apply emitsOnly_writeText; done
    | apply emitsOnly_rmrf; done
    | apply emitsOnly_install; done
    | apply emitsOnly_forEach; intros ?
    | apply emitsOnly_mapM; intros ?
    | apply emitsOnly_bind; [| intros ?]
    | match goal with
      | |- emitsOnly _ (if ?b then _ else _) => destruct b
      | |- emitsOnly _ (match ?l with _ => _ end) => destruct l
      end ].

Lemma emitsOnly_removeFiles Q paths :
  (∀ full, Q (EExists full) ∧ Q (ERemove full)) →
  emitsOnly Q (removeFiles paths).
Proof.
  intros HQ. apply emitsOnly_forEach. intros p. unfold removeFile.
  apply emitsOnly_bind; [apply emitsOnly_existsSync, HQ |].
  intros [|]; [apply emitsOnly_rmrf, HQ | apply emitsOnly_ret].
Qed.

Lemma emitsOnly_dropJSONKey Q rel key :
  Q (EExists (join PROJECT_DIR rel)) → Q (ERead (join PROJECT_DIR rel)) →
  (∀ text, Q (EWrite (join PROJECT_DIR rel) text)) →
  emitsOnly Q (dropJSONKey rel key).
Proof.
  intros He Hr Hw. unfold dropJSONKey, parseJSON.
  apply emitsOnly_bind; [by apply emitsOnly_existsSync |].
  intros [|]; [| apply emitsOnly_ret].
  apply emitsOnly_bind; [by apply emitsOnly_readText |]. intros text.
  apply emitsOnly_bind; [apply emitsOnly_orThrow |]. intros doc.
  apply emitsOnly_bind; [apply emitsOnly_orThrow |]. intros doc'.
  apply emitsOnly_writeText, Hw.
Qed.

(** After the prompts, no prompt is shown and nothing is cancelled. *)
Lemma applyChanges_no_prompt name a :
  emitsOnly (λ e, isPromptEvent e = false ∧ e ≠ ECancel cancelMessage)
    (applyChanges name a).
Proof.
  unfold applyChanges, readPkg, parseJSON, writePkg, generateReadme,
    crossFeatureCleanup, lintStagedRule, vscodeMarkdownRule, ciCommitlintRule,
    vscodeWorkflowRule, handleLicense, summaryLine.
  repeat first
    [ apply emitsOnly_removeFiles; done
    | apply emitsOnly_dropJSONKey; done
    | emits_step ].
Qed.

Lemma main_run (u : Script) (fs : FS) :
  main u fs =
    match promptSequence u fs with
    | (Ret a, fs1, t1) =>
        match applyChanges (basename PROJECT_DIR) a fs1 with
        | (r, fs2, t2) =>
            (r, fs2, EIntro ("Setting up " +:+ basename PROJECT_DIR) :: t1 ++ t2)
        end
    | (Exit code, fs1, t1) =>
        (Exit code, fs1, EIntro ("Setting up " +:+ basename PROJECT_DIR) :: t1)
    | (Throw err, fs1, t1) =>
        (Throw err, fs1, EIntro ("Setting up " +:+ basename PROJECT_DIR) :: t1)
    | (Blocked, fs1, t1) =>
        (Blocked, fs1, EIntro ("Setting up " +:+ basename PROJECT_DIR) :: t1)
    end.
Proof.
  unfold main. cbv zeta. rewrite bind_run. unfold emit at 1.
  cbv beta iota. rewrite bind_run.
  destruct (promptSequence u fs) as [[[a| | |] fs1] t1]; try reflexivity.
  destruct (applyChanges (basename PROJECT_DIR) a fs1) as [[r fs2] t2].
  reflexivity.
Qed.

Lemma answered_not_cancelled t p : Forall answeredEvent t → EPrompt p true ∉ t.
Proof.
  intros Hok Hin. rewrite Forall_forall in Hok. by apply (Hok _ Hin).
Qed.

Lemma answered_not_file t :
  Forall answeredEvent t → Forall (λ e, isFileEvent e = false) t.
Proof.
  intros H. eapply Forall_impl; [exact H |].
  by intros [| ? [] | | | | | | | | | | | |].
Qed.

(** The two ways a run can go: every prompt that was shown was answered,
    and what follows the prompts shows none; or a prompt was cancelled and
    the run ended there. *)
Lemma program_shape (u : Script) (fs : FS) :
  ∃ t1 t2,
    traceOf (program u fs)
      = EIntro ("Setting up " +:+ basename PROJECT_DIR) :: t1 ++ t2
    ∧ ((Forall answeredEvent t1
        ∧ Forall (λ e, isPromptEvent e = false) t2)
       ∨ (t2 = []
          ∧ outcomeOf (program u fs) = Exit 0
          ∧ fsOf (program u fs) = fs
          ∧ ∃ pre q, t1 = pre ++ [EPrompt q true; ECancel cancelMessage]
                     ∧ Forall answeredEvent pre
                     ∧ (asked pre ++ [q]) `prefix_of` promptOrder)).
Proof.
  unfold program. rewrite main_run.
  destruct (promptSequence_run u fs) as [Hfs Hrun].
  destruct (promptSequence u fs) as [[r1 fs1] t1].
  unfold fsOf, outcomeOf, traceOf in *. simpl in Hfs, Hrun. subst fs1.
  set (intro := EIntro _).
  destruct Hrun as [(a & -> & Hok & Hasked)
                   | [(-> & pre & q & -> & Hok & Hpre) | (-> & Hok & Hpre)]].
  - pose proof (applyChanges_no_prompt (basename PROJECT_DIR) a fs) as Hlate.
    unfold traceOf in Hlate.
    destruct (applyChanges (basename PROJECT_DIR) a fs) as [[r2 fs2] t2].
    simpl in Hlate.
    exists t1,
      (t2 ++ match r2 with
             | Throw err => [EError ("Setup failed: " +:+ err)]
             | _ => []
             end).
    split.
    + destruct r2; simpl; by rewrite ?app_nil_r, <- ?app_assoc.
    + left. split; [done |]. apply Forall_app. split.
      * eapply Forall_impl; [exact Hlate |]. by intros e [? _].
      * destruct r2; try apply Forall_nil_2. by apply Forall_singleton.
  - exists (pre ++ [EPrompt q true; ECancel cancelMessage]), [].
    simpl. rewrite app_nil_r. split; [done |]. right.
    split_and!; try done. by exists pre, q.
  - exists t1, []. simpl. rewrite app_nil_r. split; [done |]. left.
    split; [done | apply Forall_nil_2].
Qed.

(** C8.  When a prompt is cancelled the process ends with exit code 0 at
    that prompt: the cancellation message is the last event, before it
    there are only the greeting and the prompts answered so far, in the
    order of the sequence, and the file system is untouched. *)
Theorem cancel_exits_at_once (u : Script) (fs : FS) (p : promptId) :
  EPrompt p true ∈ traceOf (program u fs) →
  outcomeOf (program u fs) = Exit 0
  ∧ fsOf (program u fs) = fs
  ∧ ∃ pre,
      traceOf (program u fs)
        = EIntro ("Setting up " +:+ basename PROJECT_DIR)
            :: pre ++ [EPrompt p true; ECancel cancelMessage]
      ∧ Forall answeredEvent pre
      ∧ (asked pre ++ [p]) `prefix_of` promptOrder.
Proof.
  intros Hin.
  destruct (program_shape u fs)
    as (t1 & t2 & Ht & [[Hok Hlate]
                       | (-> & Hout & Hfs & pre & q & -> & Hok & Hpre)]);
    rewrite Ht in Hin;
    rewrite elem_of_cons, elem_of_app in Hin;
    destruct Hin as [? | Hin]; try done.
  - exfalso. destruct Hin as [Hin | Hin].
    + by apply (answered_not_cancelled t1 p).
    + rewrite Forall_forall in Hlate. by pose proof (Hlate _ Hin).
  - split_and!; try done. exists pre.
    assert (p = q) as ->; [| by rewrite Ht, app_nil_r].
    rewrite elem_of_app, !elem_of_cons, !elem_of_nil in Hin.
    destruct Hin as [[Hp | [[= ->] | [? | []]]] | []]; try done.
    by destruct (answered_not_cancelled pre p).
Qed.

(** C9.  The events of a run split in two: first the prompts, among which
    nothing looks at or changes a file, then the rest, among which there is
    no prompt; and when a prompt is cancelled there is no second part and
    the file system is the one the run started with. *)
Theorem prompts_precede_files (u : Script) (fs : FS) :
  ∃ t1 t2,
    traceOf (program u fs) = t1 ++ t2
    ∧ Forall (λ e, isFileEvent e = false) t1
    ∧ Forall (λ e, isPromptEvent e = false) t2
    ∧ ((∃ p, EPrompt p true ∈ traceOf (program u fs)) →
       t2 = [] ∧ fsOf (program u fs) = fs).
Proof.
  destruct (program_shape u fs)
    as (t1 & t2 & Ht & [[Hok Hlate]
                       | (-> & Hout & Hfs & pre & q & -> & Hok & Hpre)]).
  - exists (EIntro ("Setting up " +:+ basename PROJECT_DIR) :: t1), t2.
    split_and!; try done.
    + apply Forall_cons. split; [done |]. by apply answered_not_file.
    + intros [p Hin]. exfalso. rewrite Ht in Hin.
      rewrite elem_of_cons, elem_of_app in Hin.
      destruct Hin as [? | [Hin | Hin]]; [done | |].
      * by apply (answered_not_cancelled t1 p).
      * rewrite Forall_forall in Hlate. by pose proof (Hlate _ Hin).
  - exists (EIntro ("Setting up " +:+ basename PROJECT_DIR)
              :: pre ++ [EPrompt q true; ECancel cancelMessage]), [].
    split; [by rewrite Ht, !app_nil_r |].
    split; [| split; [apply Forall_nil_2 | done]].
    apply Forall_cons. split; [done |]. apply Forall_app. split.
    + by apply answered_not_file.
    + by repeat apply Forall_cons_2.
Qed.

(** ** Cross-feature cleanup *)

(** The files the four rules can write, with the guard under which each
    is written. *)
Lemma crossFeatureCleanup_writes sel :
  emitsOnly (λ e, match e with
                  | EWrite full _ =>
                      (full = PROJECT_DIR ++ [".lintstagedrc"]
                       ∧ "gitHooks" ∈ sel ∧ "markdownlint" ∉ sel)
                      ∨ (full = PROJECT_DIR ++ [".github"; "workflows"; "ci.yml"]
                         ∧ "githubCI" ∈ sel ∧ "gitHooks" ∉ sel)
                      ∨ full = PROJECT_DIR ++ [".vscode"; "settings.json"]
                  | _ => True
                  end)
    (crossFeatureCleanup sel).
Proof.
  unfold crossFeatureCleanup, lintStagedRule, vscodeMarkdownRule,
    ciCommitlintRule, vscodeWorkflowRule.
  apply emitsOnly_bind; [| intros _; apply emitsOnly_bind;
                           [| intros _; apply emitsOnly_bind; [| intros _]]].
  - destruct (includes sel "markdownlint") eqn:Hm,
             (includes sel "gitHooks") eqn:Hg; simpl; try apply emitsOnly_ret.
    apply includes_false in Hm. apply includes_true in Hg.
    apply emitsOnly_dropJSONKey; try done. intros text. left.
    split_and!; [apply join_lintstaged | done | done].
  - destruct (includes sel "markdownlint"); simpl; [apply emitsOnly_ret |].
    apply emitsOnly_dropJSONKey; try done. intros text. right; right.
    apply join_vscode.
  - destruct (includes sel "gitHooks") eqn:Hg,
             (includes sel "githubCI") eqn:Hc; simpl; try apply emitsOnly_ret.
    apply includes_false in Hg. apply includes_true in Hc.
    apply emitsOnly_bind; [by apply emitsOnly_existsSync |].
    intros [|]; [| apply emitsOnly_ret].
    apply emitsOnly_bind; [by apply emitsOnly_readText |]. intros ci.
    apply emitsOnly_writeText. right; left.
    split_and!; [apply join_ci | done | done].
  - destruct (includes sel "githubCI"); simpl; [apply emitsOnly_ret |].
    apply emitsOnly_dropJSONKey; try done. intros text. right; right.
    apply join_vscode.
Qed.

(** C10.  A file that a cross-feature rule writes is not removed: no path
    given to [removeFiles] is that file or a directory above it.  The
    lint-staged file is written only when the git hooks are selected, the
    workflow only when the CI feature is selected, and the editor settings
    are in no feature's list. *)
Theorem edited_files_not_removed (sel : list string) (fs : FS)
    (fsr : list string) (full : list string) (text : string) :
  resolvedFiles sel = Some fsr →
  EWrite full text ∈ traceOf (crossFeatureCleanup sel fs) →
  (∀ p, p ∈ fsr → ¬ join PROJECT_DIR p `prefix_of` full)
  ∧ (∀ rel, full = join PROJECT_DIR rel → rel ∉ fsr)
  ∧ ((full = join PROJECT_DIR ".lintstagedrc" ∧ "gitHooks" ∈ sel)
     ∨ (full = join PROJECT_DIR ".github/workflows/ci.yml" ∧ "githubCI" ∈ sel)
     ∨ (full = join PROJECT_DIR ".vscode/settings.json"
        ∧ ∀ k f, (k, f) ∈ FEATURES → ".vscode/settings.json" ∉ files f)).
Proof.
  intros Hfsr Hin.
  pose proof (crossFeatureCleanup_writes sel fs) as Hw.
  rewrite Forall_forall in Hw. specialize (Hw _ Hin). simpl in Hw.
  assert (∀ p, p ∈ fsr → ¬ join PROJECT_DIR p `prefix_of` full) as Habove.
  { destruct Hw as [(-> & Hg & _) | [(-> & Hc & _) | ->]];
      apply (removed_not_above sel fsr PROJECT_DIR _ Hfsr).
    - intros kf p Hkf Hp Hpre.
      pose proof above_lintstaged as H. rewrite Forall_forall in H.
      specialize (H kf Hkf). rewrite Forall_forall in H.
      by rewrite (H p Hp Hpre).
    - intros Hpre. exfalso. revert Hpre. by_evaluation.
    - intros kf p Hkf Hp Hpre.
      pose proof above_ci as H. rewrite Forall_forall in H.
      specialize (H kf Hkf). rewrite Forall_forall in H.
      by rewrite (H p Hp Hpre).
    - intros _. by right.
    - intros kf p Hkf Hp Hpre.
      pose proof above_vscode as H. rewrite Forall_forall in H.
      specialize (H kf Hkf). rewrite Forall_forall in H.
      by destruct (H p Hp).
    - intros Hpre. exfalso. revert Hpre. by_evaluation. }
  split; [done |]. split.
  - intros rel -> Hrel. by apply (Habove rel Hrel).
  - destruct Hw as [(-> & Hg & _) | [(-> & Hc & _) | ->]].
    + left. by rewrite join_lintstaged.
    + right; left. by rewrite join_ci.
    + right; right. split; [by rewrite join_vscode |].
      intros k f Hkf. apply (vscode_unlisted (k, f) Hkf).
Qed.

(** ** Runs that return *)

Lemma readsOnly_run {A} (c : M A) (fs fs' : FS) r t :
  readsOnly c → c fs = (r, fs', t) → fs' = fs.
Proof. intros Hc H. specialize (Hc fs). by rewrite H in Hc. Qed.

Lemma keeps_run {A} (c : M A) (q : list string) (fs fs' : FS) r t :
  keeps q c → c fs = (r, fs', t) → fs' !! q = fs !! q.
Proof. intros Hc H. specialize (Hc fs). by rewrite H in Hc. Qed.

Lemma orThrow_Ret {A} err (o : option A) (fs fs' : FS) a t :
  orThrow err o fs = (Ret a, fs', t) → o = Some a ∧ fs' = fs ∧ t = [].
Proof. destruct o; [by intros [= -> -> <-] | done]. Qed.

Lemma readText_Ret (full : list string) (fs fs' : FS) text t :
  readText full fs = (Ret text, fs', t) →
  fs !! full = Some (File text) ∧ fs' = fs.
Proof.
  unfold readText. destruct (fs !! full) as [[text'|]|]; try done.
  by intros [= -> -> <-].
Qed.

Lemma writeText_Ret (full : list string) text (fs fs' : FS) t :
  writeText full text fs = (Ret (), fs', t) →
  fs' = <[full := File text]> fs ∧ t = [EWrite full text].
Proof.
  unfold writeText. destruct (fs !! full) as [[text'|]|]; try done;
    by intros [= <- <-].
Qed.

Lemma existsSync_Ret (full : list string) (fs fs' : FS) found t :
  existsSync full fs = (Ret found, fs', t) →
  found = bool_decide (is_Some (fs !! full)) ∧ fs' = fs.
Proof. by intros [= <- <- <-]. Qed.

(** A rule that edits a JSON file and returns, when the file exists. *)
Lemma dropJSONKey_Ret (rel key : string) (fs fs' : FS) t :
  is_Some (fs !! join PROJECT_DIR rel) →
  dropJSONKey rel key fs = (Ret (), fs', t) →
  ∃ text doc doc',
    fs !! join PROJECT_DIR rel = Some (File text)
    ∧ JSON_parse text = Some doc
    ∧ deleteProp doc key = Some doc'
    ∧ fs' = <[join PROJECT_DIR rel := File (JSON_stringify doc' TAB +:+ LF)]> fs.
Proof.
  intros Hex H. unfold dropJSONKey in H. cbv zeta in H.
  apply bind_Ret_inv in H as (found & fs1 & t1 & t2 & Hfound & H & _).
  apply existsSync_Ret in Hfound as [-> ->].
  rewrite bool_decide_true in H by done.
  apply bind_Ret_inv in H as (text & fs2 & t3 & t4 & Hread & H & _).
  apply readText_Ret in Hread as [Hread ->].
  apply bind_Ret_inv in H as (doc & fs3 & t5 & t6 & Hparse & H & _).
  apply orThrow_Ret in Hparse as (Hparse & -> & _).
  apply bind_Ret_inv in H as (doc' & fs4 & t7 & t8 & Hdel & H & _).
  apply orThrow_Ret in Hdel as (Hdel & -> & _).
  apply writeText_Ret in H as [-> _].
  by exists text, doc, doc'.
Qed.

Lemma keeps_dropJSONKey (q : list string) rel key :
  join PROJECT_DIR rel ≠ q → keeps q (dropJSONKey rel key).
Proof.
  intros Hne. unfold dropJSONKey, parseJSON.
  apply keeps_bind; [apply readsOnly_keeps, readsOnly_existsSync |].
  intros [|]; [| by apply readsOnly_keeps].
  apply keeps_bind; [apply readsOnly_keeps, readsOnly_readText |]. intros text.
  apply keeps_bind; [apply readsOnly_keeps, readsOnly_orThrow |]. intros doc.
  apply keeps_bind; [apply readsOnly_keeps, readsOnly_orThrow |]. intros doc'.
  by apply keeps_writeText.
Qed.

Lemma keeps_removeFiles (q : list string) paths :
  (∀ p, p ∈ paths → ¬ join PROJECT_DIR p `prefix_of` q) →
  keeps q (removeFiles paths).
Proof.
  intros Hp. apply keeps_forEach. intros p Hin. unfold removeFile.
  apply keeps_bind; [apply readsOnly_keeps, readsOnly_existsSync |].
  intros [|]; [| by apply readsOnly_keeps].
  by apply keeps_rmrf, Hp.
Qed.

Lemma keeps_install (q : list string) :
  (∀ fs0 : FS, (bunInstall fs0).1 !! q = fs0 !! q) → keeps q install.
Proof.
  intros Hq fs. unfold install. specialize (Hq fs).
  by destruct (bunInstall fs) as [fs' []].
Qed.

(** A plain name in the project directory is not, and is not above, another
    plain name there. *)
Lemma join_name_not_above dir (a b : string) :
  Forall (λ seg, seg ≠ "..") (segments a) →
  ¬ join [] a `prefix_of` [b] →
  ¬ join dir a `prefix_of` dir ++ [b].
Proof.
  intros Ha Hn Hpre. rewrite join_plain in Hpre by done.
  by apply prefix_app_inv in Hpre.
Qed.

Lemma prompt_Ret {A} p (a a' : answer A) (fs fs' : FS) t :
  prompt p a fs = (Ret a', fs', t) → a' = a.
Proof. by intros [= <- _ _]. Qed.

Lemma assertNotCancelled_Ret {A} (a : answer A) (fs fs' : FS) x t :
  assertNotCancelled a fs = (Ret x, fs', t) → a = Value x.
Proof. destruct a; [by intros [= <- _ _] | done]. Qed.

(** The answers of a prompt sequence that returns hold the selection the
    user made. *)
Lemma promptSequence_features (u : Script) (fs fs' : FS) a t :
  promptSequence u fs = (Ret a, fs', t) →
  onFeatures u = Value (selectedFeatures a).
Proof.
  intros H. unfold promptSequence in H.
  do 12 apply bind_Ret_inv in H as (? & ? & ? & ? & _ & H & _).
  apply bind_Ret_inv in H as (a7 & ? & ? & ? & Hask & H & _).
  apply bind_Ret_inv in H as (sel & ? & ? & ? & Hsel & H & _).
  apply prompt_Ret in Hask as ->. apply assertNotCancelled_Ret in Hsel.
  by injection H as <- _ _.
Qed.

(** The paths a run removes besides those of the features. *)
Lemma keeps_removeFiles_name (b : string) (a : string) :
  Forall (λ seg, seg ≠ "..") (segments a) →
  ¬ join [] a `prefix_of` [b] →
  keeps (PROJECT_DIR ++ [b]) (removeFiles [a]).
Proof.
  intros Ha Hn. apply keeps_removeFiles. intros p ->%list_elem_of_singleton.
  by apply join_name_not_above.
Qed.

Lemma keeps_writeText_name (b a : string) text :
  Forall (λ seg, seg ≠ "..") (segments a) →
  join [] a ≠ [b] →
  keeps (PROJECT_DIR ++ [b]) (writeText (join PROJECT_DIR a) text).
Proof.
  intros Ha Hn. apply keeps_writeText. rewrite join_plain by done.
  by intros ?%app_inv_head.
Qed.

Ltac keeps_step :=
  first
    [ apply readsOnly_keeps;
      first [ apply readsOnly_ret | apply readsOnly_emit
            | apply readsOnly_orThrow
            | apply readsOnly_mapM; intros ?; apply readsOnly_summaryLine ]
    | apply keeps_removeFiles_name; by_evaluation
    | apply keeps_writeText_name; by_evaluation
    | apply keeps_dropJSONKey; rewrite join_vscode; intros ?%app_inv_head;
      discriminate
    | apply keeps_bind; [| intros ?]
    | match goal with
      | |- keeps _ (if ?b then _ else _) => destruct b
      | |- keeps _ (match ?l with _ => _ end) => destruct l
      end ].

(** C4.  In a run that returns, with the git hooks selected and the
    markdown linting not, a lint-staged file that exists is parsed and
    written back without its [*.md] entry: the file is still there, the
    document in it has no such entry, and its other entries are those that
    were read, in the same order.  [bun install] is taken not to touch the
    file. *)
Theorem lintstaged_markdown_entry_removed (u : Script) (sel : list string)
    (fs fs' : FS) (t : list event) :
  let lintStagedPath := join PROJECT_DIR ".lintstagedrc" in
  (∀ fs0 : FS, (bunInstall fs0).1 !! lintStagedPath = fs0 !! lintStagedPath) →
  onFeatures u = Value sel →
  "gitHooks" ∈ sel → "markdownlint" ∉ sel →
  is_Some (fs !! lintStagedPath) →
  main u fs = (Ret (), fs', t) →
  ∃ text doc doc',
    fs !! lintStagedPath = Some (File text)
    ∧ JSON_parse text = Some doc
    ∧ deleteProp doc "*.md" = Some doc'
    ∧ fs' !! lintStagedPath = Some (File (JSON_stringify doc' TAB +:+ LF))
    ∧ getProp doc' "*.md" = None
    ∧ (∀ k, k ≠ "*.md" → getProp doc' k = getProp doc k)
    ∧ (∀ ms, doc = JObj ms →
         ∃ ms', doc' = JObj ms'
                ∧ objKeys ms' = filter (λ k, k ≠ "*.md") (objKeys ms)).
Proof.
  intros L Hinstall Hsel Hhooks Hmd Hex H.
  rewrite main_run in H.
  destruct (promptSequence u fs) as [[[a| | |] fs1] t1] eqn:Hprompt;
    try discriminate H.
  pose proof (promptSequence_features _ _ _ _ _ Hprompt) as Hfeat.
  rewrite Hsel in Hfeat. injection Hfeat as Hfeat.
  pose proof (proj1 (promptSequence_run u fs)) as Hfs.
  rewrite Hprompt in Hfs. unfold fsOf in Hfs. simpl in Hfs. subst fs1.
  destruct (applyChanges (basename PROJECT_DIR) a fs) as [[r2 fs2] t2]
    eqn:Happly.
  injection H as -> -> _. clear Hprompt.
  unfold applyChanges in Happly. cbv zeta in Happly. rewrite <- Hfeat in Happly.
  apply bind_Ret_inv in Happly as (? & f1 & ? & ? & H1 & Happly & _).
  apply (readsOnly_run _ _ _ _ _ (readsOnly_emit _)) in H1 as ->.
  apply bind_Ret_inv in Happly as (pkg & f1 & ? & ? & H1 & Happly & _).
  apply (readsOnly_run _ _ _ _ _ readsOnly_readPkg) in H1 as ->.
  apply bind_Ret_inv in Happly as (pkg1 & f1 & ? & ? & H1 & Happly & _).
  apply orThrow_Ret in H1 as (_ & -> & _).
  apply bind_Ret_inv in Happly as (pkg2 & f1 & ? & ? & H1 & Happly & _).
  apply orThrow_Ret in H1 as (_ & -> & _).
  apply bind_Ret_inv in Happly as (r & f1 & ? & ? & Hr & Happly & _).
  apply orThrow_Ret in Hr as (Hr & -> & _).
  apply bind_Ret_inv in Happly as (pkg3 & f1 & ? & ? & H1 & Happly & _).
  apply orThrow_Ret in H1 as (_ & -> & _).
  apply bind_Ret_inv in Happly as (pkg4 & f1 & ? & ? & H1 & Happly & _).
  apply orThrow_Ret in H1 as (_ & -> & _).
  apply bind_Ret_inv in Happly as ([] & fsA & ? & ? & Hrules & Hrest & _).
  (* the rule of the lint-staged file, then the three other rules *)
  unfold crossFeatureCleanup in Hrules.
  apply bind_Ret_inv in Hrules as ([] & fsB & ? & ? & Hrule & Hrules & _).
  unfold lintStagedRule in Hrule.
  rewrite (proj2 (includes_false _ _) Hmd),
    (proj2 (includes_true _ _) Hhooks) in Hrule. simpl in Hrule.
  apply (dropJSONKey_Ret _ _ _ _ _ Hex) in Hrule
    as (text & doc & doc' & Htext & Hdoc & Hdoc' & ->).
  assert (L = PROJECT_DIR ++ [".lintstagedrc"]) as HL by apply join_lintstaged.
  apply (keeps_run _ L) in Hrules.
  2:{ unfold vscodeMarkdownRule, ciCommitlintRule, vscodeWorkflowRule.
      rewrite (proj2 (includes_true _ _) Hhooks), HL. simpl.
      repeat keeps_step. }
  apply (keeps_run _ L) in Hrest.
  2:{ unfold writePkg, PKG_PATH, generateReadme, handleLicense. rewrite HL.
      apply keeps_bind.
      { apply keeps_removeFiles. rewrite <- HL.
        apply (removed_not_above sel _ PROJECT_DIR [".lintstagedrc"]).
        - unfold resolvedFiles. by rewrite Hr.
        - intros kf p Hkf Hp Hpre.
          pose proof above_lintstaged as Ha. rewrite Forall_forall in Ha.
          specialize (Ha kf Hkf). rewrite Forall_forall in Ha.
          by rewrite (Ha p Hp Hpre).
        - intros Hpre. exfalso. revert Hpre. by_evaluation. }
      intros _.
      repeat first [ apply keeps_install; rewrite <- HL; exact Hinstall
                   | keeps_step ]. }
  exists text, doc, doc'. rewrite Hrest, Hrules.
  split_and!; try done.
  - fold L. apply lookup_insert_eq.
  - destruct doc; simpl in Hdoc'; simplify_eq; try done.
    apply objGet_objDelete_eq.
  - intros k Hk. by apply (getProp_deleteProp_ne _ _ _ _ Hdoc').
  - intros ms ->. injection Hdoc' as <-. eexists. split; [done |].
    apply objKeys_objDelete.
Qed.

(** ** The manifest in a run *)

(** A run that returns has read the manifest, made the edits of
    [mutateManifest] and written the result with [writePkg]. *)
Lemma applyChanges_manifest (name : string) (a : Answers) (fs fs' : FS)
    (t : list event) :
  applyChanges name a fs = (Ret (), fs', t) →
  ∃ text pkg pkg',
    fs !! PKG_PATH = Some (File text)
    ∧ JSON_parse text = Some pkg
    ∧ mutateManifest a pkg = Some pkg'
    ∧ EWrite PKG_PATH (JSON_stringify pkg' TAB +:+ LF) ∈ t.
Proof.
  intros H. unfold applyChanges in H. cbv zeta in H.
  apply bind_Ret_inv in H as (? & f1 & ? & ? & H1 & H & ->).
  apply (readsOnly_run _ _ _ _ _ (readsOnly_emit _)) in H1 as ->.
  apply bind_Ret_inv in H as (pkg & f1 & ? & ? & Hread & H & ->).
  unfold readPkg in Hread.
  apply bind_Ret_inv in Hread as (text & f2 & ? & ? & Htext & Hparse & _).
  apply readText_Ret in Htext as [Htext ->].
  apply orThrow_Ret in Hparse as (Hparse & -> & _).
  apply bind_Ret_inv in H as (pkg1 & f1 & ? & ? & H1 & H & ->).
  apply orThrow_Ret in H1 as (Hp1 & -> & _).
  apply bind_Ret_inv in H as (pkg2 & f1 & ? & ? & H1 & H & ->).
  apply orThrow_Ret in H1 as (Hp2 & -> & _).
  apply bind_Ret_inv in H as (r & f1 & ? & ? & H1 & H & ->).
  apply orThrow_Ret in H1 as (Hr & -> & _).
  apply bind_Ret_inv in H as (pkg3 & f1 & ? & ? & H1 & H & ->).
  apply orThrow_Ret in H1 as (Hp3 & -> & _).
  apply bind_Ret_inv in H as (pkg4 & f1 & ? & ? & H1 & H & ->).
  apply orThrow_Ret in H1 as (Hp4 & -> & _).
  apply bind_Ret_inv in H as ([] & fsA & ? & ? & _ & H & ->).
  apply bind_Ret_inv in H as ([] & fsB & ? & ? & _ & H & ->).
  apply bind_Ret_inv in H as (pkg5 & f1 & ? & ? & H1 & H & ->).
  apply orThrow_Ret in H1 as (Hp5 & -> & _).
  apply bind_Ret_inv in H as (pkg6 & f1 & ? & ? & H1 & H & ->).
  apply orThrow_Ret in H1 as (Hp6 & -> & _).
  apply bind_Ret_inv in H as ([] & fsC & ? & ? & Hwrite & H & ->).
  apply writeText_Ret in Hwrite as [_ ->].
  exists text, pkg, pkg6. split_and!; try done.
  - unfold mutateManifest. rewrite Hp1. simpl. rewrite Hp2. simpl.
    rewrite Hr. simpl. rewrite Hp3. simpl. rewrite Hp4. simpl.
    by rewrite Hp5.
  - rewrite !elem_of_app. do 11 right. left. apply list_elem_of_here.
Qed.

(** C3.  The README that is written is a function of the name, the
    description and the set of features alone: it is the same text from any
    file system, and for any list with the same features.  It has the
    commit-convention block exactly when the git hooks are among the
    features: among the lines that are joined, for every name and
    description, and among the lines of the text, when the name and the
    description have no line break. *)
Theorem readme_deterministic (name desc : string) (features : list string) :
  (∀ fs1 fs2 : FS,
     traceOf (generateReadme name desc features fs1)
       = traceOf (generateReadme name desc features fs2))
  ∧ (∀ fs : FS,
       traceOf (generateReadme name desc features fs)
         = [EWrite (join PROJECT_DIR "README.md")
              (String.concat LF (readmeLines name desc features))])
  ∧ (∀ features', (∀ k, k ∈ features ↔ k ∈ features') →
       readmeText name desc features' = readmeText name desc features)
  ∧ (containsRun commitConvention (readmeLines name desc features) = true
     ↔ "gitHooks" ∈ features)
  ∧ (hasChar lineBreak name = false → hasChar lineBreak desc = false →
     (containsRun commitConvention
        (textLines (readmeText name desc features)) = true
      ↔ "gitHooks" ∈ features)).
Proof.
  assert (∀ fs : FS,
            traceOf (generateReadme name desc features fs)
              = [EWrite (join PROJECT_DIR "README.md")
                   (String.concat LF (readmeLines name desc features))]) as Hw.
  { intros fs. unfold generateReadme, writeText.
    by destruct (fs !! join PROJECT_DIR "README.md") as [[]|]. }
  split_and!.
  - intros fs1 fs2. by rewrite !Hw.
  - done.
  - intros features' Hsame. unfold readmeText, readmeLines, includes.
    by rewrite !(bool_decide_ext _ _ (Hsame _)).
  - apply readmeLines_commit_section.
  - intros Hn Hd. rewrite textLines_readmeText by done.
    apply readmeLines_commit_section.
Qed.

(** C2, as the code has it.  The manifest, an object, is written by
    [writePkg] as its serialisation with a tab for each level of nesting,
    followed by a line break: one member a line behind one tab, the keys
    that were read in the order read (without [bun-create]), then the
    metadata keys that were not there.  Inside [devDependencies] and
    [scripts] the keys that are left keep the order read as well. *)
Theorem manifest_written_with_tabs (a : Answers) (ms : list (string * value))
    (pkg' : value) (r : Removal) (fs : FS) :
  collectRemoval noRemoval (deselected (selectedFeatures a)) = Some r →
  mutateManifest a (JObj ms) = Some pkg' →
  ∃ ms',
    pkg' = JObj ms'
    ∧ objKeys ms' = filter (λ k, k ≠ "bun-create") (objKeys ms)
                    ++ filter (λ k, k ∉ objKeys ms) metadataKeys
    ∧ (∀ deps, objGet "devDependencies" ms = Some (JObj deps) →
         ∃ deps', objGet "devDependencies" ms' = Some (JObj deps')
           ∧ objKeys deps'
               = filter (λ k, k ∉ depsToRemove r ++ ["@clack/prompts"])
                   (objKeys deps))
    ∧ (∀ inner, objGet "scripts" ms = Some (JObj inner) →
         ∃ inner', objGet "scripts" ms' = Some (JObj inner')
           ∧ objKeys inner'
               = filter (λ k, k ∉ scriptsToRemove r)
                   (objKeys inner
                    ++ filter (λ k, k ∉ objKeys inner)
                         (if bool_decide (entrypoint a = "src/index.ts")
                          then [] else ["start"])))
    ∧ traceOf (writePkg pkg' fs)
        = [EWrite PKG_PATH (JSON_stringify pkg' TAB +:+ LF)]
    ∧ JSON_stringify pkg' TAB +:+ LF
        = ("{" +:+ LF +:+ TAB
           +:+ String.concat ("," +:+ LF +:+ TAB) (memberText <$> ms')
           +:+ LF +:+ "}") +:+ LF.
Proof.
  intros Hr H. destruct (mutateManifest_keys _ _ _ H) as (ms' & -> & Hkeys).
  exists ms'. split_and!; try done.
  - intros deps Hdeps.
    pose proof (devDependencies_after _ _ _ _ Hr H) as Hafter.
    simpl in Hafter. rewrite Hdeps in Hafter. simpl in Hafter.
    eexists. split; [exact Hafter |].
    rewrite objKeys_objDelete, objKeys_deleted, list_filter_filter.
    apply list_filter_iff. intros k.
    rewrite not_elem_of_app, list_elem_of_singleton.
    clear. tauto.
  - intros inner Hinner.
    pose proof (scripts_after _ _ _ _ inner Hr H Hinner) as Hafter.
    simpl in Hafter. eexists. split; [exact Hafter |].
    rewrite objKeys_deleted. f_equal. unfold startScript.
    case_bool_decide.
    + by rewrite filter_nil, app_nil_r.
    + apply objKeys_objSet.
  - unfold writePkg, writeText. by destruct (fs !! PKG_PATH) as [[]|].
  - rewrite stringify_object; [done |]. intros ->.
    assert ("description" ∈ objKeys (@nil (string * value))) as Hd;
      [| by apply elem_of_nil in Hd].
    rewrite Hkeys, elem_of_app, !list_elem_of_filter.
    destruct (decide ("description" ∈ objKeys ms)).
    + left. split; [done | done].
    + right. split; [done | by_evaluation].
Qed.


(** * Further properties of the wizard *)

(** ** Texts *)

Lemma str_app_cons c (s t : string) : String c s +:+ t = String c (s +:+ t).
Proof. reflexivity. Qed.

Lemma str_app_nil_r (s : string) : s +:+ "" = s.
Proof. induction s as [|c s IH]; [done |]. by rewrite str_app_cons, IH. Qed.

Lemma str_app_assoc (s t u : string) : (s +:+ t) +:+ u = s +:+ (t +:+ u).
Proof.
  induction s as [|c s IH]; [done |]. by rewrite !str_app_cons, IH.
Qed.

(** *** The version pattern *)

Lemma dropDigits_split s :
  ∃ a, allDigits a = true ∧ s = a +:+ dropDigits s.
Proof.
  induction s as [|c s (a & Ha & Hs)]; [by exists "" |]. simpl.
  destruct (isDigit c) eqn:Hc.
  - exists (String c a). simpl. rewrite Hc, Ha, str_app_cons. by rewrite <- Hs.
  - by exists "".
Qed.

Lemma dropDigits_app a r :
  allDigits a = true →
  match r with String c _ => isDigit c = false | EmptyString => True end →
  dropDigits (a +:+ r) = r.
Proof.
  intros Ha Hr. induction a as [|c a IH].
  - destruct r as [|c r]; [done |]. simpl. by rewrite Hr.
  - simpl in Ha. apply andb_true_iff in Ha as [Hc Ha].
    rewrite str_app_cons. simpl. rewrite Hc. by apply IH.
Qed.

Lemma someDigits_Some s r :
  someDigits s = Some r →
  ∃ a, a ≠ "" ∧ allDigits a = true ∧ s = a +:+ r.
Proof.
  destruct s as [|c s]; [done |]. simpl.
  destruct (isDigit c) eqn:Hc; [| done]. intros [= <-].
  destruct (dropDigits_split s) as (a & Ha & Hs).
  exists (String c a). simpl. rewrite Hc, Ha, str_app_cons, <- Hs. done.
Qed.

Lemma someDigits_app a r :
  a ≠ "" → allDigits a = true →
  match r with String c _ => isDigit c = false | EmptyString => True end →
  someDigits (a +:+ r) = Some r.
Proof.
  intros Hne Ha Hr. destruct a as [|c a]; [done |].
  simpl in Ha. apply andb_true_iff in Ha as [Hc Ha].
  rewrite str_app_cons. simpl. rewrite Hc. by rewrite dropDigits_app.
Qed.

Lemma someDigits_is_Some a r :
  a ≠ "" → allDigits a = true → is_Some (someDigits (a +:+ r)).
Proof.
  intros Hne Ha. destruct a as [|c a]; [done |].
  simpl in Ha. apply andb_true_iff in Ha as [Hc Ha].
  rewrite str_app_cons. simpl. rewrite Hc. eauto.
Qed.

Lemma aDot_Some s r : aDot s = Some r ↔ s = "." +:+ r.
Proof.
  destruct s as [|c s]; simpl; [done |]. case_bool_decide as Hc.
  - subst c. split; [by intros [= ->] | by intros [= ->]].
  - split; [done |]. intros [= -> _]. done.
Qed.

(** X1.  The version prompt accepts exactly the texts that start with
    three non-empty runs of digits separated by dots, whatever follows. *)
Theorem semver_pattern (v : string) :
  semverPrefix v = true
  ↔ ∃ a b c rest,
      a ≠ "" ∧ b ≠ "" ∧ c ≠ ""
      ∧ allDigits a = true ∧ allDigits b = true ∧ allDigits c = true
      ∧ v = a +:+ "." +:+ b +:+ "." +:+ c +:+ rest.
Proof.
  unfold semverPrefix. split.
  - destruct (someDigits v) as [r1|] eqn:H1; [| done]. simpl.
    destruct (aDot r1) as [r2|] eqn:H2; [| done]. simpl.
    destruct (someDigits r2) as [r3|] eqn:H3; [| done]. simpl.
    destruct (aDot r3) as [r4|] eqn:H4; [| done]. simpl.
    destruct (someDigits r4) as [r5|] eqn:H5; [| done]. intros _.
    apply someDigits_Some in H1 as (a & ? & ? & ->).
    apply aDot_Some in H2 as ->.
    apply someDigits_Some in H3 as (b & ? & ? & ->).
    apply aDot_Some in H4 as ->.
    apply someDigits_Some in H5 as (c & ? & ? & ->).
    by exists a, b, c, r5.
  - intros (a & b & c & rest & Ha & Hb & Hc & Hda & Hdb & Hdc & ->).
    rewrite someDigits_app by done. cbn [mbind option_bind].
    rewrite (proj2 (aDot_Some _ _) eq_refl). cbn [mbind option_bind].
    rewrite someDigits_app by done. cbn [mbind option_bind].
    rewrite (proj2 (aDot_Some _ _) eq_refl). cbn [mbind option_bind].
    by destruct (someDigits_is_Some c rest Hc Hdc) as [r ->].
Qed.

(** *** The replacement in the workflow file *)

Lemma dropSpaces_split s :
  ∃ sp, allSpaces sp = true ∧ s = sp +:+ dropSpaces s.
Proof.
  induction s as [|c s (sp & Hsp & Hs)]; [by exists "" |]. simpl.
  destruct (isSpace c) eqn:Hc.
  - exists (String c sp). simpl. rewrite Hc, Hsp, str_app_cons. by rewrite <- Hs.
  - by exists "".
Qed.

Lemma dropLiteral_Some lit s r : dropLiteral lit s = Some r ↔ s = lit +:+ r.
Proof.
  revert s. induction lit as [|a lit IH]; intros s; simpl.
  - split; [by intros [= ->] | by intros ->].
  - destruct s as [|b s]; [done |]. rewrite str_app_cons.
    case_bool_decide as Hab.
    + subst b. rewrite IH. split; [by intros -> | by intros [= ->]].
    + split; [done |]. by intros [= -> _].
Qed.


(** [afterFirst] finds the literal wherever it occurs. *)
Lemma afterFirst_None lit s :
  afterFirst lit s = None → ∀ pre post, s ≠ pre +:+ lit +:+ post.
Proof.
  intros Hnone pre. revert s Hnone.
  induction pre as [|c pre IH]; intros s Hnone post ->.
  - assert (dropLiteral lit (lit +:+ post) = Some post) as Hd
      by (by apply dropLiteral_Some).
    change ("" +:+ lit +:+ post) with (lit +:+ post) in Hnone.
    destruct (lit +:+ post); simpl in Hnone; by rewrite Hd in Hnone.
  - rewrite str_app_cons in Hnone. simpl in Hnone.
    destruct (dropLiteral lit (String c (pre +:+ lit +:+ post))); [done |].
    by apply (IH _ Hnone post).
Qed.

Lemma replaceStep_cons opening closing c text :
  replaceStep opening closing (String c text) =
    if bool_decide (c = lineBreak) then
      match (dropLiteral opening (dropSpaces text) ≫= afterFirst closing
             : option string) with
      | Some rest => LF +:+ rest
      | None => String c (replaceStep opening closing text)
      end
    else String c (replaceStep opening closing text).
Proof. reflexivity. Qed.

Lemma replaceStep_absent opening closing text :
  (∀ pre post, text ≠ pre +:+ opening +:+ post) →
  replaceStep opening closing text = text.
Proof.
  induction text as [|c text IH]; intros Hno; [done |].
  assert (replaceStep opening closing text = text) as Htail.
  { apply IH. intros pre post ->. by apply (Hno (String c pre) post). }
  rewrite replaceStep_cons, Htail. case_bool_decide as Hc; [| done].
  destruct (dropLiteral opening (dropSpaces text)) as [r|] eqn:Hd; [| done].
  exfalso. apply dropLiteral_Some in Hd.
  destruct (dropSpaces_split text) as (sp & _ & Htext).
  apply (Hno (String c sp) r). rewrite Htext at 1. by rewrite Hd.
Qed.


(** X3.  A workflow text that names neither of the two commitlint steps
    is written back as it was read. *)
Theorem stripCommitlintSteps_unchanged (ci : string) :
  (∀ pre post, ci ≠ pre +:+ "- name: Validate current commit" +:+ post) →
  (∀ pre post, ci ≠ pre +:+ "- name: Validate PR commits" +:+ post) →
  stripCommitlintSteps ci = ci.
Proof.
  intros H1 H2. unfold stripCommitlintSteps. cbv zeta.
  rewrite (replaceStep_absent _ _ ci H1).
  exact (replaceStep_absent _ _ ci H2).
Qed.

(** ** More on the manifest *)

(** After the metadata are set, only [scripts], [devDependencies] and
    [bun-create] are edited. *)
Lemma mutateManifest_after_metadata a pkg pkg' :
  mutateManifest a pkg = Some pkg' →
  ∃ p1, setMetadata a pkg = Some p1
        ∧ ∀ k, k ≠ "scripts" → k ≠ "devDependencies" → k ≠ "bun-create" →
               getProp pkg' k = getProp p1 k.
Proof.
  intros H. unfold mutateManifest in H.
  rewrite collectRemoval_deselected in H.
  destruct (setMetadata a pkg) as [p1|] eqn:H1; [| done].
  cbn [mbind option_bind] in H.
  destruct (setStartScript a p1) as [p2|] eqn:H2; [| done].
  cbn [mbind option_bind] in H.
  destruct (removeDevDependencies _ p2) as [p3|] eqn:H3; [| done].
  cbn [mbind option_bind] in H.
  destruct (removeScripts _ p3) as [p4|] eqn:H4; [| done].
  cbn [mbind option_bind] in H.
  destruct (removeSetupDependency p4) as [p5|] eqn:H5; [| done].
  cbn [mbind option_bind] in H.
  exists p1. split; [done |]. intros k Hs Hd Hb.
  rewrite (getProp_deleteProp_ne _ _ _ _ H) by done.
  rewrite (getProp_removeSetupDependency_ne _ _ _ H5) by done.
  rewrite (getProp_removeScripts _ _ _ _ H4) by done.
  rewrite (getProp_removeDevDependencies_ne _ _ _ _ H3) by done.
  by rewrite (getProp_setStartScript _ _ _ _ H2).
Qed.

Lemma mutateManifest_bun_create a pkg pkg' :
  mutateManifest a pkg = Some pkg' → getProp pkg' "bun-create" = None.
Proof.
  intros H. unfold mutateManifest in H.
  rewrite collectRemoval_deselected in H.
  destruct (setMetadata a pkg) as [p1|]; [| done].
  cbn [mbind option_bind] in H.
  destruct (setStartScript a p1) as [p2|]; [| done].
  cbn [mbind option_bind] in H.
  destruct (removeDevDependencies _ p2) as [p3|]; [| done].
  cbn [mbind option_bind] in H.
  destruct (removeScripts _ p3) as [p4|]; [| done].
  cbn [mbind option_bind] in H.
  destruct (removeSetupDependency p4) as [p5|]; [| done].
  cbn [mbind option_bind] in H.
  destruct p5; simpl in H; simplify_eq; try done.
  apply objGet_objDelete_eq.
Qed.

(** X4.  In the manifest that is written, an object, the seven metadata
    properties hold the answers of the user, whatever was read and whatever
    is edited afterwards, and there is no [bun-create] property. *)
Theorem manifest_metadata (a : Answers) (ms : list (string * value))
    (pkg' : value) :
  mutateManifest a (JObj ms) = Some pkg' →
  getProp pkg' "description" = Some (JStr (description a))
  ∧ getProp pkg' "version" = Some (JStr (version a))
  ∧ getProp pkg' "author" = Some (JStr (author a))
  ∧ getProp pkg' "license" = Some (JStr (licenseId (license a)))
  ∧ getProp pkg' "private" = Some (JBool (isPrivate a))
  ∧ getProp pkg' "main" = Some (JStr (entrypoint a))
  ∧ getProp pkg' "keywords" = Some (JArr [])
  ∧ getProp pkg' "bun-create" = None.
Proof.
  intros H. pose proof (mutateManifest_bun_create _ _ _ H) as Hbun.
  destruct (mutateManifest_after_metadata _ _ _ H) as (p1 & H1 & Hkeep).
  rewrite setMetadata_object in H1. injection H1 as <-.
  split_and!; try done; rewrite Hkeep by done; cbn [getProp foldl metadataFields fst snd].
  - rewrite !objGet_objSet_ne by done. apply objGet_objSet_eq.
  - rewrite !objGet_objSet_ne by done. apply objGet_objSet_eq.
  - rewrite !objGet_objSet_ne by done. apply objGet_objSet_eq.
  - rewrite !objGet_objSet_ne by done. apply objGet_objSet_eq.
  - rewrite !objGet_objSet_ne by done. apply objGet_objSet_eq.
  - rewrite !objGet_objSet_ne by done. apply objGet_objSet_eq.
  - apply objGet_objSet_eq.
Qed.

(** X5.  Every other property of the manifest ([name], [dependencies] and
    so on: all but the metadata, [scripts], [devDependencies] and
    [bun-create]) is written as it was read. *)
Theorem manifest_other_properties (a : Answers) (pkg pkg' : value)
    (k : string) :
  mutateManifest a pkg = Some pkg' →
  k ∉ metadataKeys → k ∉ ["scripts"; "devDependencies"; "bun-create"] →
  getProp pkg' k = getProp pkg k.
Proof.
  intros H Hm Hk.
  destruct (mutateManifest_after_metadata _ _ _ H) as (p1 & H1 & Hkeep).
  rewrite Hkeep.
  - by apply (getProp_setMetadata _ _ _ _ H1).
  - intros ->. apply Hk. by_evaluation.
  - intros ->. apply Hk. by_evaluation.
  - intros ->. apply Hk. by_evaluation.
Qed.

(** The only script a feature owns is [prepare], of the git hooks. *)
Lemma registry_scripts :
  Forall (λ kf, Forall (λ k, kf.1 = "gitHooks" ∧ k = "prepare")
                  (default [] (scripts kf.2))) FEATURES
  ∧ Exists (λ kf, kf.1 = "gitHooks" ∧ "prepare" ∈ default [] (scripts kf.2))
      FEATURES.
Proof. split; by_evaluation. Qed.

Lemma elem_of_scriptsToRemove sel r k :
  collectRemoval noRemoval (deselected sel) = Some r →
  k ∈ scriptsToRemove r ↔ k = "prepare" ∧ "gitHooks" ∉ sel.
Proof.
  rewrite collectRemoval_deselected. intros [= <-]. simpl.
  rewrite elem_of_removed. destruct registry_scripts as [Hall Hex]. split.
  - intros (kf & Hkf & Hsel & Hk). rewrite Forall_forall in Hall.
    specialize (Hall kf Hkf). rewrite Forall_forall in Hall.
    destruct (Hall k Hk) as [Hg ->]. by rewrite <- Hg.
  - intros [-> Hsel]. apply Exists_exists in Hex as (kf & Hkf & Hg & Hp).
    exists kf. by rewrite Hg.
Qed.

Lemma objGet_startScript a inner k :
  objGet k (startScript a inner)
    = if decide (k = "start" ∧ entrypoint a ≠ "src/index.ts")
      then Some (JStr ("bun " +:+ entrypoint a)) else objGet k inner.
Proof.
  unfold startScript. case_bool_decide as He.
  - rewrite decide_False; [done |]. by intros [_ ?].
  - case_decide as Hk.
    + destruct Hk as [-> _]. apply objGet_objSet_eq.
    + apply objGet_objSet_ne. intros <-. by apply Hk.
Qed.

(** X6.  In the [scripts] of the manifest that is written, [start] runs
    the entrypoint when it is not the default one, [prepare] is there only
    when the git hooks are selected, and every other script is as read. *)
Theorem manifest_scripts (a : Answers) (pkg pkg' : value)
    (inner : list (string * value)) :
  mutateManifest a pkg = Some pkg' →
  getProp pkg "scripts" = Some (JObj inner) →
  ∃ inner',
    getProp pkg' "scripts" = Some (JObj inner')
    ∧ objGet "start" inner'
        = (if decide (entrypoint a = "src/index.ts")
           then objGet "start" inner
           else Some (JStr ("bun " +:+ entrypoint a)))
    ∧ objGet "prepare" inner'
        = (if decide ("gitHooks" ∈ selectedFeatures a)
           then objGet "prepare" inner else None)
    ∧ ∀ k, k ≠ "start" → k ≠ "prepare" → objGet k inner' = objGet k inner.
Proof.
  intros H Hs.
  pose proof (collectRemoval_deselected (selectedFeatures a)) as Hr.
  set (r := Build_Removal _ _ _) in Hr.
  pose proof (scripts_after _ _ _ _ inner Hr H Hs) as Hafter.
  pose proof (elem_of_scriptsToRemove _ _ "start" Hr) as Hstart.
  pose proof (elem_of_scriptsToRemove _ _ "prepare" Hr) as Hprep.
  clearbody r. simpl in Hafter. eexists. split; [exact Hafter |].
  split_and!.
  - rewrite objGet_not_deleted by (rewrite Hstart; by intros [? _]).
    rewrite objGet_startScript. repeat case_decide; try done.
    + by destruct H0 as [_ ?].
    + exfalso. apply H0. by split.
  - case_decide as Hg.
    + rewrite objGet_not_deleted by (rewrite Hprep; by intros [_ ?]).
      rewrite objGet_startScript, decide_False; [done |]. by intros [? _].
    + apply objGet_deleted. by apply Hprep.
  - intros k Hk1 Hk2.
    rewrite objGet_not_deleted
      by (rewrite (elem_of_scriptsToRemove _ _ k Hr); by intros [? _]).
    rewrite objGet_startScript, decide_False; [done |]. by intros [? _].
Qed.

(** ** More on removing files *)






(** ** What a run looks at and changes *)

Lemma emitsOnly_bind_Ret {A B} Q (m : M A) (f : A → M B) :
  emitsOnly Q m →
  (∀ a fs, outcomeOf (m fs) = Ret a → emitsOnly Q (f a)) →
  emitsOnly Q (m ≫= f).
Proof.
  intros Hm Hf fs. rewrite bind_run. specialize (Hm fs).
  pose proof (λ a, Hf a fs) as Hf'. clear Hf.
  destruct (m fs) as [[[a| | |] fs1] t1]; try done.
  specialize (Hf' a eq_refl fs1). rename Hf' into Hf. destruct (f a fs1) as [[r fs2] t2].
  apply Forall_app. by split.
Qed.

Lemma keeps_bind_Ret {A B} q (m : M A) (f : A → M B) :
  keeps q m →
  (∀ a fs, outcomeOf (m fs) = Ret a → keeps q (f a)) →
  keeps q (m ≫= f).
Proof.
  intros Hm Hf fs. rewrite bind_run. specialize (Hm fs).
  pose proof (λ a, Hf a fs) as Hf'. clear Hf.
  destruct (m fs) as [[[a| | |] fs1] t1]; try done.
  specialize (Hf' a eq_refl fs1). rename Hf' into Hf. destruct (f a fs1) as [[r fs2] t2].
  unfold fsOf in *. simpl in *. congruence.
Qed.

Lemma orThrow_outcome {A} err (o : option A) (fs : FS) a :
  outcomeOf (orThrow err o fs) = Ret a → o = Some a.
Proof. destruct o; [by intros [= ->] | done]. Qed.

Lemma emitsOnly_forEach_elem {A} Q (body : A → M unit) xs :
  (∀ x, x ∈ xs → emitsOnly Q (body x)) → emitsOnly Q (forEach body xs).
Proof.
  induction xs as [|x xs IH]; intros Hb; [apply emitsOnly_ret |].
  apply emitsOnly_bind; [apply Hb, list_elem_of_here |].
  intros _. apply IH. intros y ?. by apply Hb, list_elem_of_further.
Qed.

Lemma emitsOnly_removeFiles_elem Q paths :
  (∀ p, p ∈ paths →
        Q (EExists (join PROJECT_DIR p)) ∧ Q (ERemove (join PROJECT_DIR p))) →
  emitsOnly Q (removeFiles paths).
Proof.
  intros HQ. apply emitsOnly_forEach_elem. intros p Hp. unfold removeFile.
  destruct (HQ p Hp).
  apply emitsOnly_bind; [by apply emitsOnly_existsSync |].
  intros [|]; [by apply emitsOnly_rmrf | apply emitsOnly_ret].
Qed.

Lemma emitsOnly_submissions Q p validate subs :
  (∀ msg, Q (ERejected p msg)) → emitsOnly Q (submissions p validate subs).
Proof.
  intros HQ. induction subs as [|[v|] subs IH]; simpl.
  - apply emitsOnly_blocked.
  - destruct (validate v); [| apply emitsOnly_ret].
    apply emitsOnly_bind; [by apply emitsOnly_emit | by intros _].
  - apply emitsOnly_ret.
Qed.

(** The prompts name no path. *)
Lemma emitsOnly_promptSequence Q u :
  (∀ e, pathOf e = None → Q e) → emitsOnly Q (promptSequence u).
Proof.
  intros HQ. unfold promptSequence, promptValidated, prompt, assertNotCancelled.
  repeat first
    [ apply emitsOnly_submissions; intros ?; by apply HQ
    | apply emitsOnly_emit; by apply HQ
    | apply emitsOnly_ret | apply emitsOnly_exit
    | apply emitsOnly_bind; [| intros ?]
    | match goal with
      | |- emitsOnly _ (match ?l with _ => _ end) => destruct l
      end ].
Qed.

(** What is removed is among the paths of the registry and [.github]. *)
Lemma removed_touched sel r p :
  collectRemoval noRemoval (deselected sel) = Some r →
  p ∈ githubDirRule sel (filesToRemove r) → p ∈ touchedPaths.
Proof.
  intros Hr Hp.
  assert (resolvedFiles sel = Some (githubDirRule sel (filesToRemove r))) as Hfsr
    by (unfold resolvedFiles; by rewrite Hr).
  apply (elem_of_resolvedFiles _ _ _ Hfsr) in Hp
    as [(kf & Hkf & _ & Hp) | (-> & _)]; [| by_evaluation].
  unfold touchedPaths. apply elem_of_app. right.
  apply elem_of_concat. exists (files kf.2). split; [| done].
  by apply list_elem_of_fmap_2, list_elem_of_fmap_2.
Qed.

(** The events of the stages after the prompts name the paths of
    [touchedPaths] only. *)
Lemma applyChanges_emits Q name a :
  (∀ e, pathOf e = None → Q e) →
  (∀ rel e, rel ∈ touchedPaths → pathOf e = Some (join PROJECT_DIR rel) → Q e) →
  emitsOnly Q (applyChanges name a).
Proof.
  intros HQ1 HQ2.
  assert (∀ rel, rel ∈ touchedPaths →
          Q (EExists (join PROJECT_DIR rel)) ∧ Q (ERead (join PROJECT_DIR rel))
          ∧ Q (ERemove (join PROJECT_DIR rel))
          ∧ ∀ text, Q (EWrite (join PROJECT_DIR rel) text)) as HQ.
  { intros rel Hrel. split_and!; [..| intros text]; by apply (HQ2 rel). }
  assert ("package.json" ∈ touchedPaths) as Hpkg by by_evaluation.
  assert (".lintstagedrc" ∈ touchedPaths) as Hlint by by_evaluation.
  assert (".vscode/settings.json" ∈ touchedPaths) as Hvs by by_evaluation.
  assert (".github/workflows/ci.yml" ∈ touchedPaths) as Hci by by_evaluation.
  assert ("setup" ∈ touchedPaths) as Hsetup by by_evaluation.
  assert ("README.md" ∈ touchedPaths) as Hreadme by by_evaluation.
  assert ("LICENSE" ∈ touchedPaths) as Hlic by by_evaluation.
  assert (∀ rel key, rel ∈ touchedPaths → emitsOnly Q (dropJSONKey rel key))
    as Hdrop.
  { intros rel key Hrel. destruct (HQ rel Hrel) as (? & ? & ? & ?).
    by apply emitsOnly_dropJSONKey. }
  assert (∀ rel, rel ∈ touchedPaths → emitsOnly Q (removeFiles [rel])) as Hrm.
  { intros rel Hrel. apply emitsOnly_removeFiles_elem.
    intros p ->%list_elem_of_singleton.
    destruct (HQ rel Hrel) as (? & ? & ? & ?).
    done. }
  unfold applyChanges. cbv zeta.
  apply emitsOnly_bind; [by apply emitsOnly_emit, HQ1 |]. intros _.
  apply emitsOnly_bind.
  { unfold readPkg, parseJSON, PKG_PATH.
    apply emitsOnly_bind; [apply emitsOnly_readText, HQ, Hpkg |].
    intros ?. apply emitsOnly_orThrow. }
  intros pkg.
  apply emitsOnly_bind; [apply emitsOnly_orThrow |]. intros pkg1.
  apply emitsOnly_bind; [apply emitsOnly_orThrow |]. intros pkg2.
  apply emitsOnly_bind_Ret; [apply emitsOnly_orThrow |].
  intros r fs0 Hr%orThrow_outcome.
  apply emitsOnly_bind; [apply emitsOnly_orThrow |]. intros pkg3.
  apply emitsOnly_bind; [apply emitsOnly_orThrow |]. intros pkg4.
  apply emitsOnly_bind.
  { unfold crossFeatureCleanup, lintStagedRule, vscodeMarkdownRule,
      ciCommitlintRule, vscodeWorkflowRule.
    repeat first
      [ apply Hdrop; assumption
      | apply emitsOnly_existsSync, HQ, Hci
      | apply emitsOnly_readText, HQ, Hci
      | apply emitsOnly_writeText, HQ, Hci
      | apply emitsOnly_ret
      | apply emitsOnly_bind; [| intros ?]
      | match goal with
        | |- emitsOnly _ (if ?b then _ else _) => destruct b
        end ]. }
  intros _.
  apply emitsOnly_bind.
  { apply emitsOnly_removeFiles_elem. intros p Hp.
    apply (removed_touched _ _ _ Hr) in Hp.
    destruct (HQ p Hp) as (? & ? & ? & ?). done. }
  intros _.
  apply emitsOnly_bind; [apply emitsOnly_orThrow |]. intros pkg5.
  apply emitsOnly_bind; [apply emitsOnly_orThrow |]. intros pkg6.
  apply emitsOnly_bind; [apply emitsOnly_writeText, HQ, Hpkg |]. intros _.
  apply emitsOnly_bind; [by apply Hrm |]. intros _.
  apply emitsOnly_bind.
  { destruct (negb _); [| apply emitsOnly_ret].
    apply emitsOnly_bind; [by apply emitsOnly_emit, HQ1 |]. intros _.
    by apply emitsOnly_install, HQ1. }
  intros _.
  apply emitsOnly_bind; [by apply emitsOnly_emit, HQ1 |]. intros _.
  apply emitsOnly_bind; [apply emitsOnly_writeText, HQ, Hreadme |]. intros _.
  apply emitsOnly_bind; [by apply emitsOnly_emit, HQ1 |]. intros _.
  apply emitsOnly_bind.
  { unfold handleLicense.
    destruct (license a);
      first [ by apply Hrm | apply emitsOnly_ret | by apply emitsOnly_emit, HQ1 ]. }
  intros _. unfold summaryLine.
  repeat first
    [ apply emitsOnly_ret | apply emitsOnly_orThrow
    | by apply emitsOnly_emit, HQ1
    | apply emitsOnly_mapM; intros ?
    | apply emitsOnly_bind; [| intros ?] ].
Qed.

Lemma emitsOnly_program Q u :
  (∀ e, pathOf e = None → Q e) →
  (∀ rel e, rel ∈ touchedPaths → pathOf e = Some (join PROJECT_DIR rel) → Q e) →
  emitsOnly Q (program u).
Proof.
  intros HQ1 HQ2 fs. unfold program.
  assert (emitsOnly Q (main u)) as Hmain.
  { unfold main. cbv zeta.
    apply emitsOnly_bind; [by apply emitsOnly_emit, HQ1 |]. intros _.
    apply emitsOnly_bind; [by apply emitsOnly_promptSequence |]. intros a.
    by apply applyChanges_emits. }
  specialize (Hmain fs). destruct (main u fs) as [[[] fs'] t]; try done.
  unfold traceOf in *. simpl in *. apply Forall_app. split; [done |].
  apply Forall_singleton. by apply HQ1.
Qed.

(** The paths of [touchedPaths] do not go up, nor name the directory they
    are taken from. *)
Lemma touchedPaths_plain :
  Forall (λ rel, Forall (λ seg, seg ≠ "..") (segments rel) ∧ join [] rel ≠ [])
    touchedPaths.
Proof. by_evaluation. Qed.

Lemma touched_below dir rel :
  rel ∈ touchedPaths → below dir (join dir rel).
Proof.
  intros Hrel. pose proof touchedPaths_plain as H.
  rewrite Forall_forall in H. destruct (H rel Hrel) as [Hplain Hne].
  exists (join [] rel). split; [done |]. by apply join_plain.
Qed.

(** X8.  Whatever the user answers and whatever the project holds, every
    path the wizard looks at, reads, writes or removes is strictly below
    the project directory, and is one of the paths spelled out in the
    wizard or listed in the registry. *)
Theorem run_inside_project (u : Script) (fs : FS) :
  Forall (inFootprint PROJECT_DIR) (traceOf (program u fs)).
Proof.
  apply emitsOnly_program.
  - intros e He. unfold inFootprint. by rewrite He.
  - intros rel e Hrel He. unfold inFootprint. rewrite He.
    split; [by apply touched_below | by exists rel].
Qed.

(** The stages after the prompts leave a path alone that is neither at nor
    below one of [touchedPaths], when [bun install] does. *)
Lemma applyChanges_keeps (q : list string) name a :
  (∀ rel, rel ∈ touchedPaths → ¬ join PROJECT_DIR rel `prefix_of` q) →
  (∀ fs0 : FS, (bunInstall fs0).1 !! q = fs0 !! q) →
  keeps q (applyChanges name a).
Proof.
  intros Hq Hinstall.
  assert (∀ rel, rel ∈ touchedPaths → join PROJECT_DIR rel ≠ q) as Hne.
  { intros rel Hrel <-. by apply (Hq rel Hrel). }
  assert ("package.json" ∈ touchedPaths) as Hpkg by by_evaluation.
  assert (".lintstagedrc" ∈ touchedPaths) as Hlint by by_evaluation.
  assert (".vscode/settings.json" ∈ touchedPaths) as Hvs by by_evaluation.
  assert (".github/workflows/ci.yml" ∈ touchedPaths) as Hci by by_evaluation.
  assert ("setup" ∈ touchedPaths) as Hsetup by by_evaluation.
  assert ("README.md" ∈ touchedPaths) as Hreadme by by_evaluation.
  assert ("LICENSE" ∈ touchedPaths) as Hlic by by_evaluation.
  assert (∀ rel, rel ∈ touchedPaths → keeps q (removeFiles [rel])) as Hrm.
  { intros rel Hrel. apply keeps_removeFiles.
    intros p ->%list_elem_of_singleton. by apply Hq. }
  unfold applyChanges. cbv zeta.
  apply keeps_bind; [apply readsOnly_keeps, readsOnly_emit |]. intros _.
  apply keeps_bind; [apply readsOnly_keeps, readsOnly_readPkg |]. intros pkg.
  apply keeps_bind; [apply readsOnly_keeps, readsOnly_orThrow |]. intros pkg1.
  apply keeps_bind; [apply readsOnly_keeps, readsOnly_orThrow |]. intros pkg2.
  apply keeps_bind_Ret; [apply readsOnly_keeps, readsOnly_orThrow |].
  intros r fs0 Hr%orThrow_outcome.
  apply keeps_bind; [apply readsOnly_keeps, readsOnly_orThrow |]. intros pkg3.
  apply keeps_bind; [apply readsOnly_keeps, readsOnly_orThrow |]. intros pkg4.
  apply keeps_bind.
  { unfold crossFeatureCleanup, lintStagedRule, vscodeMarkdownRule,
      ciCommitlintRule, vscodeWorkflowRule.
    repeat first
      [ apply keeps_dropJSONKey, Hne; assumption
      | apply readsOnly_keeps, readsOnly_existsSync
      | apply readsOnly_keeps, readsOnly_readText
      | apply keeps_writeText, Hne, Hci
      | apply readsOnly_keeps, readsOnly_ret
      | apply keeps_bind; [| intros ?]
      | match goal with
        | |- keeps _ (if ?b then _ else _) => destruct b
        end ]. }
  intros _.
  apply keeps_bind.
  { apply keeps_removeFiles. intros p Hp.
    by apply Hq, (removed_touched _ _ _ Hr). }
  intros _.
  apply keeps_bind; [apply readsOnly_keeps, readsOnly_orThrow |]. intros pkg5.
  apply keeps_bind; [apply readsOnly_keeps, readsOnly_orThrow |]. intros pkg6.
  apply keeps_bind; [apply keeps_writeText, Hne, Hpkg |]. intros _.
  apply keeps_bind; [by apply Hrm |]. intros _.
  apply keeps_bind.
  { destruct (negb _); [| apply readsOnly_keeps, readsOnly_ret].
    apply keeps_bind; [apply readsOnly_keeps, readsOnly_emit |]. intros _.
    by apply keeps_install. }
  intros _.
  apply keeps_bind; [apply readsOnly_keeps, readsOnly_emit |]. intros _.
  apply keeps_bind; [apply keeps_writeText, Hne, Hreadme |]. intros _.
  apply keeps_bind; [apply readsOnly_keeps, readsOnly_emit |]. intros _.
  apply keeps_bind.
  { unfold handleLicense.
    destruct (license a);
      first [ by apply Hrm | apply readsOnly_keeps, readsOnly_ret
            | apply readsOnly_keeps, readsOnly_emit ]. }
  intros _.
  repeat first
    [ apply readsOnly_keeps, readsOnly_emit
    | apply readsOnly_keeps, readsOnly_mapM; intros ?;
      apply readsOnly_summaryLine
    | apply keeps_bind; [| intros ?] ].
Qed.

Lemma program_fs (u : Script) (fs : FS) :
  fsOf (program u fs) = fsOf (main u fs).
Proof. unfold program. by destruct (main u fs) as [[[] fs'] t]. Qed.

Lemma program_outcome (u : Script) (fs : FS) :
  outcomeOf (program u fs)
    = match outcomeOf (main u fs) with Throw _ => Exit 1 | r => r end.
Proof. unfold program. by destruct (main u fs) as [[[] fs'] t]. Qed.

Lemma readsOnly_promptSequence u : readsOnly (promptSequence u).
Proof. intros fs. apply (promptSequence_run u fs). Qed.

Lemma not_below_touched dir (q : list string) :
  ¬ below dir q →
  Forall (λ rel, ¬ join dir rel `prefix_of` q) touchedPaths.
Proof.
  intros Hq. apply Forall_forall. intros rel Hrel [k ->].
  destruct (touched_below dir rel Hrel) as (rest & Hrest & Heq).
  apply Hq. exists (rest ++ k). rewrite Heq, <- app_assoc.
  split; [| done]. by destruct rest.
Qed.

(** X9.  A run, however it ends, leaves every path as it was that is
    outside the project directory, or that is inside it but neither at nor
    below a path the wizard names (the sources of the project are such
    paths), as long as [bun install] leaves it. *)
Theorem untouched_paths_kept (u : Script) (fs : FS) (q : list string) :
  ¬ below PROJECT_DIR q
  ∨ Forall (λ rel, ¬ join PROJECT_DIR rel `prefix_of` q) touchedPaths →
  (∀ fs0 : FS, (bunInstall fs0).1 !! q = fs0 !! q) →
  fsOf (program u fs) !! q = fs !! q.
Proof.
  intros Hq Hinstall. rewrite program_fs.
  assert (Forall (λ rel, ¬ join PROJECT_DIR rel `prefix_of` q) touchedPaths)
    as Hq' by (destruct Hq; [by apply not_below_touched | done]).
  rewrite Forall_forall in Hq'.
  revert fs. change (keeps q (main u)). unfold main. cbv zeta.
  apply keeps_bind; [apply readsOnly_keeps, readsOnly_emit |]. intros _.
  apply keeps_bind; [apply readsOnly_keeps, readsOnly_promptSequence |].
  intros a. by apply applyChanges_keeps.
Qed.

(** ** The answers *)

Lemma ask_Ret {A B} p (a : answer A) (k : A → M B) (fs fs' : FS) b t :
  (a' ← prompt p a; x ← assertNotCancelled a'; k x) fs = (Ret b, fs', t) →
  ∃ x t', a = Value x ∧ k x fs = (Ret b, fs', t') ∧ t = EPrompt p false :: t'.
Proof.
  destruct a as [x|]; [| done]. unfold prompt. rewrite !bind_run. simpl.
  rewrite !bind_run. simpl. destruct (k x fs) as [[r fs2] t2] eqn:Hk.
  intros [= -> -> <-]. by exists x, t2.
Qed.

Lemma submissions_Ret p validate subs (fs fs' : FS) a t :
  submissions p validate subs fs = (Ret a, fs', t) →
  fs' = fs
  ∧ ∃ pre post msgs,
      subs = pre ++ a :: post
      ∧ Forall2 (λ s msg, ∃ v, s = Value v ∧ validate v = Some msg) pre msgs
      ∧ (∀ v, a = Value v → validate v = None)
      ∧ t = ERejected p <$> msgs.
Proof.
  revert t. induction subs as [|[v|] subs IH]; intros t; simpl; [done | |].
  - destruct (validate v) as [msg|] eqn:Hv.
    + rewrite bind_run. simpl.
      destruct (submissions p validate subs fs) as [[r fs1] t1].
      intros [= -> -> <-].
      destruct (IH t1 eq_refl) as (-> & pre & post & msgs & -> & Hpre & Ha & ->).
      split; [done |]. exists (Value v :: pre), post, (msg :: msgs).
      split_and!; try done. apply Forall2_cons; eauto.
    + intros [= <- <- <-]. split; [done |]. exists [], subs, [].
      split_and!; try done. by intros ? [= <-].
  - intros [= <- <- <-]. split; [done |]. exists [], subs, [].
    by split_and!.
Qed.

Lemma askValidated_Ret {B} p validate subs (k : string → M B) (fs fs' : FS)
    b t :
  (a' ← promptValidated p validate subs; x ← assertNotCancelled a'; k x) fs
    = (Ret b, fs', t) →
  ∃ x pre post msgs t',
    subs = pre ++ Value x :: post
    ∧ Forall2 (λ s msg, ∃ v, s = Value v ∧ validate v = Some msg) pre msgs
    ∧ validate x = None
    ∧ k x fs = (Ret b, fs', t')
    ∧ t = (ERejected p <$> msgs) ++ EPrompt p false :: t'.
Proof.
  intros H.
  apply bind_Ret_inv in H as (a & fs1 & t1 & t2 & Hask & H & ->).
  unfold promptValidated in Hask.
  apply bind_Ret_inv in Hask as (a' & fs2 & t3 & t4 & Hsub & Hask & ->).
  apply submissions_Ret in Hsub
    as (-> & pre & post & msgs & -> & Hpre & Ha & ->).
  injection Hask as <- <- <-.
  destruct a' as [x|]; [| done].
  rewrite bind_run in H. simpl in H. destruct (k x fs) as [[r fs3] t5] eqn:Hk.
  injection H as -> -> <-.
  exists x, pre, post, msgs, t5. split_and!; try done; [by apply Ha |].
  by rewrite <- app_assoc.
Qed.

(** X10.  When the prompt sequence returns, the answers are what the user
    gave to each prompt; the version is the first submission that starts
    as a semantic version, and each submission before it was turned down
    with the message of the check; the file system is as before, and the
    events are the seven prompts in order, with the rejections before the
    version is taken. *)
Theorem prompt_answers (u : Script) (fs fs' : FS) (a : Answers)
    (t : list event) :
  promptSequence u fs = (Ret a, fs', t) →
  fs' = fs
  ∧ onDescription u = Value (description a)
  ∧ onAuthor u = Value (author a)
  ∧ onLicense u = Value (license a)
  ∧ onPrivate u = Value (isPrivate a)
  ∧ onEntrypoint u = Value (entrypoint a)
  ∧ onFeatures u = Value (selectedFeatures a)
  ∧ semverPrefix (version a) = true
  ∧ ∃ pre post,
      onVersion u = pre ++ Value (version a) :: post
      ∧ Forall (λ s, ∃ v, s = Value v ∧ semverPrefix v = false) pre
      ∧ t = [EPrompt PDescription false]
            ++ ((λ _, ERejected PVersion "Must be valid semver (e.g. 0.1.0)")
                  <$> pre)
            ++ [EPrompt PVersion false; EPrompt PAuthor false;
                EPrompt PLicense false; EPrompt PPrivate false;
                EPrompt PEntrypoint false; EPrompt PFeatures false].
Proof.
  intros H. unfold promptSequence in H.
  apply ask_Ret in H as (d & t1 & Hd & H & ->).
  apply askValidated_Ret in H
    as (v & pre & post & msgs & t2 & Hv & Hpre & Hok & H & ->).
  apply ask_Ret in H as (au & t3 & Hau & H & ->).
  apply ask_Ret in H as (l & t4 & Hl & H & ->).
  apply ask_Ret in H as (pr & t5 & Hpr & H & ->).
  apply ask_Ret in H as (en & t6 & Hen & H & ->).
  apply ask_Ret in H as (sel & t7 & Hsel & H & ->).
  injection H as <- <- <-. simpl.
  unfold validateVersion in Hok.
  destruct (semverPrefix v) eqn:Hsem; [| done].
  split_and!; try done. exists pre, post. split_and!; [done | |].
  - clear Hv. induction Hpre as [|s msg pre msgs (w & -> & Hw) _ IH];
      [apply Forall_nil_2 |].
    apply Forall_cons. split; [| done]. exists w. split; [done |].
    unfold validateVersion in Hw. by destruct (semverPrefix w).
  - f_equal. f_equal. clear Hv.
    induction Hpre as [|s msg pre msgs (w & -> & Hw) _ IH]; [done |].
    rewrite !fmap_cons, IH. f_equal. f_equal.
    unfold validateVersion in Hw. destruct (semverPrefix w); congruence.
Qed.

(** ** The stages of a run that returns *)

Lemma emit_Ret e (fs fs' : FS) t :
  emit e fs = (Ret (), fs', t) → fs' = fs ∧ t = [e].
Proof. by intros [= <- <-]. Qed.

Lemma writeText_Ret_file (full : list string) text (fs fs' : FS) t :
  writeText full text fs = (Ret (), fs', t) → fs !! full ≠ Some Dir.
Proof. unfold writeText. by destruct (fs !! full) as [[]|]. Qed.

Lemma main_Ret (u : Script) (fs fs' : FS) t :
  main u fs = (Ret (), fs', t) →
  ∃ a t1 t2,
    promptSequence u fs = (Ret a, fs, t1)
    ∧ applyChanges (basename PROJECT_DIR) a fs = (Ret (), fs', t2)
    ∧ t = EIntro ("Setting up " +:+ basename PROJECT_DIR) :: t1 ++ t2.
Proof.
  rewrite main_run. pose proof (readsOnly_promptSequence u fs) as Hfs.
  destruct (promptSequence u fs) as [[[a| | |] fs1] t1]; try done.
  unfold fsOf in Hfs. simpl in Hfs. subst fs1.
  destruct (applyChanges _ a fs) as [[r fs2] t2] eqn:Happly.
  intros [= -> -> <-]. by exists a, t1, t2.
Qed.

Lemma program_Ret (u : Script) (fs fs' : FS) t :
  program u fs = (Ret (), fs', t) → main u fs = (Ret (), fs', t).
Proof. unfold program. by destruct (main u fs) as [[[[]| | |] ?] ?]. Qed.

(** The lines of the summary are the labels of the registry. *)
Lemma summary_Ret pre (ks : list string) (fs fs' : FS) out t :
  mapM (summaryLine pre) ks fs = (Ret out, fs', t) →
  Forall2 (λ k line, ∃ f, getFeature FEATURES k = Some f
                          ∧ line = pre +:+ label f) ks out.
Proof.
  revert fs fs' out t. induction ks as [|k ks IH]; intros fs fs' out t H.
  - injection H as <- _ _. apply Forall2_nil_2.
  - cbn [mapM] in H.
    apply bind_Ret_inv in H as (line & fs1 & ? & ? & Hline & H & _).
    apply bind_Ret_inv in H as (lines & fs2 & ? & ? & Hlines & H & _).
    injection H as <- _ _. apply Forall2_cons.
    split; [| by apply (IH _ _ _ _ Hlines)].
    unfold summaryLine in Hline.
    apply bind_Ret_inv in Hline as (f & fs3 & ? & ? & Hf & Hline & _).
    apply orThrow_Ret in Hf as (Hf & _ & _). injection Hline as <- _ _.
    by exists f.
Qed.

(** A run of the stages after the prompts that returns, stage by stage. *)
Lemma applyChanges_stages (name : string) (a : Answers) (fs fs' : FS)
    (t : list event) :
  applyChanges name a fs = (Ret (), fs', t) →
  let sel := selectedFeatures a in
  ∃ text pkg pkg' r fsA tA fsB tB fsD tD fsE tE tG kept removed,
    fs !! PKG_PATH = Some (File text)
    ∧ JSON_parse text = Some pkg
    ∧ mutateManifest a pkg = Some pkg'
    ∧ collectRemoval noRemoval (deselected sel) = Some r
    ∧ crossFeatureCleanup sel fs = (Ret (), fsA, tA)
    ∧ removeFiles (githubDirRule sel (filesToRemove r)) fsA = (Ret (), fsB, tB)
    ∧ fsB !! PKG_PATH ≠ Some Dir
    ∧ removeFiles ["setup"]
        (<[PKG_PATH := File (JSON_stringify pkg' TAB +:+ LF)]> fsB)
        = (Ret (), fsD, tD)
    ∧ installStage bunInstall r fsD fsE tE
    ∧ fsE !! join PROJECT_DIR "README.md" ≠ Some Dir
    ∧ handleLicense (license a)
        (<[join PROJECT_DIR "README.md"
             := File (readmeText name (description a) sel)]> fsE)
        = (Ret (), fs', tG)
    ∧ t = [ESpinner "Configuring project..."; ERead PKG_PATH]
          ++ tA ++ tB
          ++ [EWrite PKG_PATH (JSON_stringify pkg' TAB +:+ LF)]
          ++ tD ++ tE
          ++ [ESpinner "Generating README...";
              EWrite (join PROJECT_DIR "README.md")
                (readmeText name (description a) sel);
              ESpinner "Project configured!"]
          ++ tG
          ++ [ENote (String.concat LF (kept ++ removed)) "Features";
              EOutro "Done! Run `bun start` to begin."]
    ∧ Forall2 (λ k line, ∃ f, getFeature FEATURES k = Some f
                              ∧ line = "  + " +:+ label f) sel kept
    ∧ Forall2 (λ k line, ∃ f, getFeature FEATURES k = Some f
                              ∧ line = "  - " +:+ label f)
        (deselected sel) removed.
Proof.
  intros H sel. unfold applyChanges in H. cbv zeta in H. fold sel in H.
  apply bind_Ret_inv in H as ([] & f1 & ? & ? & H1 & H & ->).
  apply emit_Ret in H1 as [-> ->].
  apply bind_Ret_inv in H as (pkg & f1 & ? & ? & Hread & H & ->).
  unfold readPkg in Hread.
  apply bind_Ret_inv in Hread as (text & f2 & ? & ? & Htext & Hparse & ->).
  pose proof Htext as Htrace. unfold readText in Htrace.
  destruct (fs !! PKG_PATH) as [[]|] eqn:Hpkg in Htrace; try done.
  injection Htrace as _ _ <-.
  apply readText_Ret in Htext as [Htext ->].
  apply orThrow_Ret in Hparse as (Hparse & -> & ->).
  apply bind_Ret_inv in H as (pkg1 & f1 & ? & ? & H1 & H & ->).
  apply orThrow_Ret in H1 as (Hp1 & -> & ->).
  apply bind_Ret_inv in H as (pkg2 & f1 & ? & ? & H1 & H & ->).
  apply orThrow_Ret in H1 as (Hp2 & -> & ->).
  apply bind_Ret_inv in H as (r & f1 & ? & ? & H1 & H & ->).
  apply orThrow_Ret in H1 as (Hr & -> & ->).
  apply bind_Ret_inv in H as (pkg3 & f1 & ? & ? & H1 & H & ->).
  apply orThrow_Ret in H1 as (Hp3 & -> & ->).
  apply bind_Ret_inv in H as (pkg4 & f1 & ? & ? & H1 & H & ->).
  apply orThrow_Ret in H1 as (Hp4 & -> & ->).
  apply bind_Ret_inv in H as ([] & fsA & tA & ? & HA & H & ->).
  apply bind_Ret_inv in H as ([] & fsB & tB & ? & HB & H & ->).
  apply bind_Ret_inv in H as (pkg5 & f1 & ? & ? & H1 & H & ->).
  apply orThrow_Ret in H1 as (Hp5 & -> & ->).
  apply bind_Ret_inv in H as (pkg6 & f1 & ? & ? & H1 & H & ->).
  apply orThrow_Ret in H1 as (Hp6 & -> & ->).
  apply bind_Ret_inv in H as ([] & fsC & ? & ? & Hwrite & H & ->).
  unfold writePkg in Hwrite.
  pose proof (writeText_Ret_file _ _ _ _ _ Hwrite) as HpkgB.
  apply writeText_Ret in Hwrite as [-> ->].
  apply bind_Ret_inv in H as ([] & fsD & tD & ? & HD & H & ->).
  apply bind_Ret_inv in H as ([] & fsE & tE & ? & HE & H & ->).
  apply bind_Ret_inv in H as ([] & f1 & ? & ? & H1 & H & ->).
  apply emit_Ret in H1 as [-> ->].
  apply bind_Ret_inv in H as ([] & fsF & ? & ? & Hreadme & H & ->).
  unfold generateReadme in Hreadme.
  pose proof (writeText_Ret_file _ _ _ _ _ Hreadme) as HreadmeE.
  apply writeText_Ret in Hreadme as [-> ->].
  apply bind_Ret_inv in H as ([] & f1 & ? & ? & H1 & H & ->).
  apply emit_Ret in H1 as [-> ->].
  apply bind_Ret_inv in H as ([] & fsG & tG & ? & HG & H & ->).
  apply bind_Ret_inv in H as (kept & f1 & tk & ? & Hk & H & ->).
  pose proof (readsOnly_mapM _ sel (readsOnly_summaryLine "  + ")) as Hro.
  pose proof (emitsOnly_mapM (λ _, False) (summaryLine "  + ") sel) as Hno.
  apply (readsOnly_run _ _ _ _ _ Hro) in Hk as Hk'. subst f1.
  apply bind_Ret_inv in H as (removed & f1 & tr & ? & Hrm & H & ->).
  pose proof (readsOnly_mapM _ (deselected sel) (readsOnly_summaryLine "  - "))
    as Hro'.
  apply (readsOnly_run _ _ _ _ _ Hro') in Hrm as Hrm'. subst f1.
  apply bind_Ret_inv in H as ([] & f1 & ? & ? & H1 & H & ->).
  apply emit_Ret in H1 as [-> ->]. apply emit_Ret in H as [-> ->].
  assert (∀ pre ks (fs0 fs1 : FS) out tt,
            mapM (summaryLine pre) ks fs0 = (out, fs1, tt) → tt = []) as Hquiet.
  { intros pre ks fs0 fs1 out tt Hrun.
    assert (emitsOnly (λ _, False) (mapM (summaryLine pre) ks)) as Hem.
    { apply emitsOnly_mapM. intros k. unfold summaryLine.
      apply emitsOnly_bind; [apply emitsOnly_orThrow |]. intros ?.
      apply emitsOnly_ret. }
    specialize (Hem fs0). rewrite Hrun in Hem. unfold traceOf in Hem.
    simpl in Hem. destruct tt as [|e tt]; [done |].
    by apply Forall_cons in Hem as [[] _]. }
  pose proof (summary_Ret _ _ _ _ _ _ Hk) as Hkept.
  pose proof (summary_Ret _ _ _ _ _ _ Hrm) as Hremoved.
  apply Hquiet in Hk as ->. apply Hquiet in Hrm as ->. clear Hquiet Hno.
  exists text, pkg, pkg6, r, fsA, tA, fsB, tB, fsD, tD, fsE, tE, tG, kept,
    removed.
  split_and!; try done.
  - unfold mutateManifest. rewrite Hp1. simpl. rewrite Hp2. simpl.
    fold sel. rewrite Hr. simpl. rewrite Hp3. simpl. rewrite Hp4. simpl.
    by rewrite Hp5.
  - unfold installStage. destruct (decide (depsToRemove r = [])) as [Hd|Hd].
    + rewrite bool_decide_true in HE by done. simpl in HE.
      injection HE as <- <-. by left.
    + rewrite bool_decide_false in HE by done. simpl in HE.
      rewrite bind_run in HE. simpl in HE. unfold install in HE.
      destruct (bunInstall fsD) as [fs1 []]; [| done].
      injection HE as <- <-. by right.
Qed.

(** ** The files a run leaves *)

Lemma join_pkg : PKG_PATH = PROJECT_DIR ++ ["package.json"].
Proof. unfold PKG_PATH. rewrite join_plain; [done | by_evaluation]. Qed.

Lemma join_readme : join PROJECT_DIR "README.md" = PROJECT_DIR ++ ["README.md"].
Proof. rewrite join_plain; [done | by_evaluation]. Qed.

Lemma join_license : join PROJECT_DIR "LICENSE" = PROJECT_DIR ++ ["LICENSE"].
Proof. rewrite join_plain; [done | by_evaluation]. Qed.

Lemma join_setup : join PROJECT_DIR "setup" = PROJECT_DIR ++ ["setup"].
Proof. rewrite join_plain; [done | by_evaluation]. Qed.

(** The four rules leave every entry of the project directory but the
    lint-staged file. *)
Lemma crossFeatureCleanup_keeps_name sel (b : string) :
  b ≠ ".lintstagedrc" → keeps (PROJECT_DIR ++ [b]) (crossFeatureCleanup sel).
Proof.
  intros Hb.
  unfold crossFeatureCleanup, lintStagedRule, vscodeMarkdownRule,
    ciCommitlintRule, vscodeWorkflowRule.
  repeat first
    [ apply keeps_dropJSONKey; rewrite ?join_lintstaged, ?join_vscode;
      intros ?%app_inv_head; congruence
    | apply readsOnly_keeps, readsOnly_existsSync
    | apply readsOnly_keeps, readsOnly_readText
    | apply keeps_writeText; rewrite join_ci; intros ?%app_inv_head;
      congruence
    | apply readsOnly_keeps, readsOnly_ret
    | apply keeps_bind; [| intros ?]
    | match goal with
      | |- keeps _ (if ?b then _ else _) => destruct b
      end ].
Qed.

(** No feature lists the manifest, the README or the license. *)
Lemma registry_spares :
  Forall (λ b, b ≠ ".github"
               ∧ Forall (λ kf, Forall (λ p, ¬ join [] p `prefix_of` [b])
                                 (files kf.2)) FEATURES)
    ["package.json"; "README.md"; "LICENSE"].
Proof. by_evaluation. Qed.

Lemma removal_keeps_name sel r (b : string) :
  collectRemoval noRemoval (deselected sel) = Some r →
  b ∈ ["package.json"; "README.md"; "LICENSE"] →
  keeps (PROJECT_DIR ++ [b]) (removeFiles (githubDirRule sel (filesToRemove r))).
Proof.
  intros Hr Hb. pose proof registry_spares as H. rewrite Forall_forall in H.
  destruct (H b Hb) as [Hgh Hreg]. apply keeps_removeFiles.
  apply (removed_not_above sel _ PROJECT_DIR [b]).
  - unfold resolvedFiles. by rewrite Hr.
  - intros kf p Hkf Hp Hpre. rewrite Forall_forall in Hreg.
    specialize (Hreg kf Hkf). rewrite Forall_forall in Hreg.
    by destruct (Hreg p Hp).
  - intros Hpre. apply prefix_cons_inv_1 in Hpre. congruence.
Qed.

Lemma installStage_keeps r (fs fs' : FS) t (q : list string) :
  installStage bunInstall r fs fs' t →
  (∀ fs0 : FS, (bunInstall fs0).1 !! q = fs0 !! q) →
  fs' !! q = fs !! q.
Proof.
  intros [(_ & -> & _) | (_ & Hrun & _)] Hq; [done |].
  by rewrite <- (Hq fs), Hrun.
Qed.

Lemma keeps_handleLicense l (target : list string) :
  ¬ ["LICENSE"] `prefix_of` target →
  keeps (PROJECT_DIR ++ target) (handleLicense l).
Proof.
  intros Hb. unfold handleLicense.
  destruct l;
    first [ apply readsOnly_keeps, readsOnly_ret
          | apply readsOnly_keeps, readsOnly_emit | idtac ].
  apply keeps_removeFiles. intros p ->%list_elem_of_singleton.
  rewrite join_license. by intros Hpre%prefix_app_inv.
Qed.

Lemma keeps_removeSetup (target : list string) :
  ¬ ["setup"] `prefix_of` target →
  keeps (PROJECT_DIR ++ target) (removeFiles ["setup"]).
Proof.
  intros Hb. apply keeps_removeFiles. intros p ->%list_elem_of_singleton.
  rewrite join_setup. by intros Hpre%prefix_app_inv.
Qed.

Lemma promptSequence_fields (u : Script) (fs fs' : FS) a t :
  promptSequence u fs = (Ret a, fs', t) →
  onDescription u = Value (description a)
  ∧ onLicense u = Value (license a)
  ∧ onEntrypoint u = Value (entrypoint a)
  ∧ onFeatures u = Value (selectedFeatures a).
Proof.
  intros H. unfold promptSequence in H.
  apply ask_Ret in H as (d & t1 & Hd & H & ->).
  apply askValidated_Ret in H as (v & ? & ? & ? & t2 & _ & _ & _ & H & ->).
  apply ask_Ret in H as (au & t3 & Hau & H & ->).
  apply ask_Ret in H as (l & t4 & Hl & H & ->).
  apply ask_Ret in H as (pr & t5 & Hpr & H & ->).
  apply ask_Ret in H as (en & t6 & Hen & H & ->).
  apply ask_Ret in H as (sel & t7 & Hsel & H & ->).
  by injection H as <- <- <-.
Qed.

(** X11.  When the process ends by itself, it has read the manifest,
    edited what it parsed as [mutateManifest] does with the answers, and
    the manifest then holds that value, written with tabs and a line
    break at the end, as long as [bun install] leaves the manifest. *)
Theorem manifest_file_after (u : Script) (fs fs' : FS) (t : list event) :
  (∀ fs0 : FS, (bunInstall fs0).1 !! PKG_PATH = fs0 !! PKG_PATH) →
  program u fs = (Ret (), fs', t) →
  ∃ a t1 text pkg pkg',
    promptSequence u fs = (Ret a, fs, t1)
    ∧ fs !! PKG_PATH = Some (File text)
    ∧ JSON_parse text = Some pkg
    ∧ mutateManifest a pkg = Some pkg'
    ∧ fs' !! PKG_PATH = Some (File (JSON_stringify pkg' TAB +:+ LF)).
Proof.
  intros Hinstall H.
  apply program_Ret, main_Ret in H as (a & t1 & t2 & Hprompt & H & ->).
  apply applyChanges_stages in H
    as (text & pkg & pkg' & r & fsA & tA & fsB & tB & fsD & tD & fsE & tE
        & tG & kept & removed & Htext & Hparse & Hmut & Hr & HA & HB & _
        & HD & HE & _ & HG & _).
  exists a, t1, text, pkg, pkg'. split_and!; try done.
  rewrite join_pkg in *.
  apply (keeps_run _ (PROJECT_DIR ++ ["package.json"])) in HG;
    [| apply keeps_handleLicense; by_evaluation].
  rewrite HG, lookup_insert_ne
    by (rewrite join_readme; intros ?%app_inv_head; congruence).
  rewrite (installStage_keeps _ _ _ _ _ HE Hinstall).
  apply (keeps_run _ (PROJECT_DIR ++ ["package.json"])) in HD;
    [| apply keeps_removeSetup; by_evaluation].
  rewrite HD. apply lookup_insert_eq.
Qed.

(** X12.  When the process ends by itself, the README of the project is
    the generated text for the name of the project directory, the
    description the user gave and the features the user selected. *)
Theorem readme_file_after (u : Script) (fs fs' : FS) (t : list event)
    (desc : string) (sel : list string) :
  onDescription u = Value desc → onFeatures u = Value sel →
  program u fs = (Ret (), fs', t) →
  fs' !! join PROJECT_DIR "README.md"
    = Some (File (readmeText (basename PROJECT_DIR) desc sel)).
Proof.
  intros Hdesc Hsel H.
  apply program_Ret, main_Ret in H as (a & t1 & t2 & Hprompt & H & ->).
  apply promptSequence_fields in Hprompt as (Hd & _ & _ & Hs).
  rewrite Hdesc in Hd. rewrite Hsel in Hs.
  injection Hd as ->. injection Hs as ->.
  apply applyChanges_stages in H
    as (text & pkg & pkg' & r & fsA & tA & fsB & tB & fsD & tD & fsE & tE
        & tG & kept & removed & _ & _ & _ & _ & _ & _ & _ & _ & _ & _ & HG & _).
  rewrite join_readme in *.
  apply (keeps_run _ (PROJECT_DIR ++ ["README.md"])) in HG;
    [| apply keeps_handleLicense; by_evaluation].
  rewrite HG. apply lookup_insert_eq.
Qed.

(** X13.  When the process ends by itself, the license file is gone if
    the user chose [UNLICENSED], and is as it was for every other choice,
    as long as [bun install] leaves it. *)
Theorem license_file_after (u : Script) (fs fs' : FS) (t : list event)
    (l : License) :
  (∀ fs0 : FS, (bunInstall fs0).1 !! join PROJECT_DIR "LICENSE"
               = fs0 !! join PROJECT_DIR "LICENSE") →
  onLicense u = Value l →
  program u fs = (Ret (), fs', t) →
  fs' !! join PROJECT_DIR "LICENSE"
    = if decide (l = UNLICENSED) then None else fs !! join PROJECT_DIR "LICENSE".
Proof.
  intros Hinstall Hl H.
  apply program_Ret, main_Ret in H as (a & t1 & t2 & Hprompt & H & ->).
  apply promptSequence_fields in Hprompt as (_ & Hl' & _ & _).
  rewrite Hl in Hl'. injection Hl' as Hl'.
  apply applyChanges_stages in H
    as (text & pkg & pkg' & r & fsA & tA & fsB & tB & fsD & tD & fsE & tE
        & tG & kept & removed & _ & _ & _ & Hr & HA & HB & _ & HD & HE & _
        & HG & _).
  rewrite <- Hl' in HG. clear Hl'.
  assert (fsE !! join PROJECT_DIR "LICENSE" = fs !! join PROJECT_DIR "LICENSE")
    as Hbefore.
  { rewrite (installStage_keeps _ _ _ _ _ HE Hinstall).
    rewrite join_license in *.
    apply (keeps_run _ (PROJECT_DIR ++ ["LICENSE"])) in HD;
      [| apply keeps_removeSetup; by_evaluation].
    rewrite HD, lookup_insert_ne
      by (rewrite join_pkg; intros ?%app_inv_head; congruence).
    apply (keeps_run _ (PROJECT_DIR ++ ["LICENSE"])) in HB;
      [| apply (removal_keeps_name _ _ _ Hr); by_evaluation].
    apply (keeps_run _ (PROJECT_DIR ++ ["LICENSE"])) in HA;
      [| by apply crossFeatureCleanup_keeps_name].
    by rewrite HB, HA. }
  assert (∀ fsF : FS, fsF = <[join PROJECT_DIR "README.md"
            := File (readmeText (basename PROJECT_DIR) (description a)
                       (selectedFeatures a))]> fsE →
          fsF !! join PROJECT_DIR "LICENSE" = fs !! join PROJECT_DIR "LICENSE")
    as HF.
  { intros fsF ->. rewrite lookup_insert_ne; [done |].
    rewrite join_readme, join_license. intros ?%app_inv_head. congruence. }
  specialize (HF _ eq_refl). revert HG HF.
  generalize (<[join PROJECT_DIR "README.md"
            := File (readmeText (basename PROJECT_DIR) (description a)
                       (selectedFeatures a))]> fsE).
  intros fsF HG HF. unfold handleLicense in HG.
  destruct l; simpl.
  - injection HG as <- _. done.
  - injection HG as <- _. done.
  - injection HG as <- _. done.
  - injection HG as <- _. done.
  - assert (fsOf (removeFiles ["LICENSE"] fsF) !! join PROJECT_DIR "LICENSE"
            = None) as Hgone; [| by rewrite HG in Hgone].
    rewrite removeFiles_cons.
    destruct (fsF !! join PROJECT_DIR "LICENSE") eqn:Hlic.
    + rewrite removeFile_found by (rewrite Hlic; eauto).
      rewrite join_license.
      destruct (PROJECT_DIR ++ ["LICENSE"]) eqn:Hp;
        [by destruct PROJECT_DIR |].
      unfold fsOf. simpl. apply removeTree_gone.
    + by rewrite removeFile_missing.
Qed.

(** After a removal that returns, none of the paths exists. *)
Lemma removeFiles_gone (paths : list string) (fs fs' : FS) t (p : string) :
  removeFiles paths fs = (Ret (), fs', t) → p ∈ paths →
  fs' !! join PROJECT_DIR p = None.
Proof.
  revert fs t. induction paths as [|p' ps IH]; intros fs t H Hp.
  - by apply elem_of_nil in Hp.
  - rewrite removeFiles_cons in H.
    destruct (removeFile p' fs) as [[[[]| | |] fs1] t1] eqn:H1; try done.
    destruct (removeFiles ps fs1) as [[r fs2] t2] eqn:H2.
    injection H as -> -> <-.
    apply elem_of_cons in Hp as [-> | Hp]; [| by apply (IH fs1 t2)].
    pose proof (removeFiles_None ps fs1 (join PROJECT_DIR p')) as Hgone.
    rewrite H2 in Hgone. apply Hgone. clear Hgone H2 IH.
    destruct (fs !! join PROJECT_DIR p') eqn:Hlook.
    + rewrite removeFile_found in H1 by (rewrite Hlook; eauto).
      destruct (join PROJECT_DIR p') as [|c full]; [done |].
      injection H1 as <- _. apply removeTree_gone.
    + rewrite removeFile_missing in H1 by done. by injection H1 as <- _.
Qed.

Lemma handleLicense_None l (fs : FS) (q : list string) :
  fs !! q = None → fsOf (handleLicense l fs) !! q = None.
Proof.
  intros Hq. unfold handleLicense. destruct l; try done.
  by apply removeFiles_None.
Qed.

(** No removed path is the manifest, the README or the license, or a
    directory above one of them. *)
Lemma removed_spares sel r (b p : string) :
  collectRemoval noRemoval (deselected sel) = Some r →
  b ∈ ["package.json"; "README.md"; "LICENSE"] →
  p ∈ githubDirRule sel (filesToRemove r) →
  ¬ join PROJECT_DIR p `prefix_of` PROJECT_DIR ++ [b].
Proof.
  intros Hr Hb. pose proof registry_spares as H. rewrite Forall_forall in H.
  destruct (H b Hb) as [Hgh Hreg].
  apply (removed_not_above sel _ PROJECT_DIR [b]).
  - unfold resolvedFiles. by rewrite Hr.
  - intros kf p' Hkf Hp Hpre. rewrite Forall_forall in Hreg.
    specialize (Hreg kf Hkf). rewrite Forall_forall in Hreg.
    by destruct (Hreg p' Hp).
  - intros Hpre. apply prefix_cons_inv_1 in Hpre. congruence.
Qed.

(** X14.  When the process ends by itself, the [setup] directory and
    every path listed by a feature that was not selected (and [.github],
    when neither of its two features was selected) do not exist, as long
    as [bun install] does not bring them into being. *)
Theorem removed_paths_gone (u : Script) (fs fs' : FS) (t : list event)
    (sel fsr : list string) (rel : string) :
  onFeatures u = Value sel → resolvedFiles sel = Some fsr →
  rel ∈ fsr ∨ rel = "setup" →
  (∀ fs0 : FS, fs0 !! join PROJECT_DIR rel = None →
               (bunInstall fs0).1 !! join PROJECT_DIR rel = None) →
  program u fs = (Ret (), fs', t) →
  fs' !! join PROJECT_DIR rel = None.
Proof.
  intros Hsel Hfsr Hrel Hinstall H.
  apply program_Ret, main_Ret in H as (a & t1 & t2 & Hprompt & H & ->).
  apply promptSequence_fields in Hprompt as (_ & _ & _ & Hs).
  rewrite Hsel in Hs. injection Hs as ->.
  apply applyChanges_stages in H
    as (text & pkg & pkg' & r & fsA & tA & fsB & tB & fsD & tD & fsE & tE
        & tG & kept & removed & _ & _ & _ & Hr & HA & HB & _ & HD & HE & _
        & HG & _).
  unfold resolvedFiles in Hfsr. rewrite Hr in Hfsr. simpl in Hfsr.
  injection Hfsr as <-.
  assert (fsD !! join PROJECT_DIR rel = None) as HgoneD.
  { destruct Hrel as [Hrel | ->].
    - pose proof (removeFiles_None ["setup"]
        (<[PKG_PATH := File (JSON_stringify pkg' TAB +:+ LF)]> fsB)
        (join PROJECT_DIR rel)) as Hkeep.
      rewrite HD in Hkeep. apply Hkeep.
      rewrite lookup_insert_ne; [by apply (removeFiles_gone _ _ _ _ _ HB) |].
      rewrite join_pkg. intros Heq.
      apply (removed_spares _ _ "package.json" rel Hr); [by_evaluation | done |].
      by rewrite Heq.
    - apply (removeFiles_gone _ _ _ _ _ HD), list_elem_of_here. }
  assert (fsE !! join PROJECT_DIR rel = None) as HgoneE.
  { destruct HE as [(_ & -> & _) | (_ & Hrun & _)]; [done |].
    specialize (Hinstall fsD HgoneD). by rewrite Hrun in Hinstall. }
  match type of HG with handleLicense _ ?fsF = _ =>
    pose proof (handleLicense_None (license a) fsF (join PROJECT_DIR rel))
      as Hkeep
  end.
  rewrite HG in Hkeep. apply Hkeep.
  rewrite lookup_insert_ne; [done |].
  rewrite join_readme. intros Heq. destruct Hrel as [Hrel | ->].
  - apply (removed_spares _ _ "README.md" rel Hr); [by_evaluation | done |].
    by rewrite Heq.
  - rewrite join_setup in Heq. apply app_inv_head in Heq. congruence.
Qed.

(** From the removal of the features' files on, a run leaves a path of
    the project that is none of the paths named there, nor below one. *)
Lemma after_rules_kept sel r (a : Answers) name (target : list string)
    (fsA fsB fsD fsE fs' : FS) tB tD tE tG text :
  collectRemoval noRemoval (deselected sel) = Some r →
  removeFiles (githubDirRule sel (filesToRemove r)) fsA = (Ret (), fsB, tB) →
  removeFiles ["setup"] (<[PKG_PATH := File text]> fsB) = (Ret (), fsD, tD) →
  installStage bunInstall r fsD fsE tE →
  handleLicense (license a)
    (<[join PROJECT_DIR "README.md"
         := File (readmeText name (description a) sel)]> fsE)
    = (Ret (), fs', tG) →
  (∀ kf p, kf ∈ FEATURES → p ∈ files kf.2 →
           join [] p `prefix_of` target → kf.1 ∈ sel) →
  ([".github"] `prefix_of` target →
   "githubTemplates" ∈ sel ∨ "githubCI" ∈ sel) →
  Forall (λ b, ¬ [b] `prefix_of` target)
    ["package.json"; "setup"; "README.md"; "LICENSE"] →
  (∀ fs0 : FS, (bunInstall fs0).1 !! (PROJECT_DIR ++ target)
               = fs0 !! (PROJECT_DIR ++ target)) →
  fs' !! (PROJECT_DIR ++ target) = fsA !! (PROJECT_DIR ++ target).
Proof.
  intros Hr HB HD HE HG Hown Hgithub Hnames Hinstall.
  rewrite !Forall_cons in Hnames.
  destruct Hnames as (Hpkg & Hsetup & Hreadme & Hlic & _).
  apply (keeps_run _ (PROJECT_DIR ++ target)) in HG;
    [| by apply keeps_handleLicense].
  rewrite HG, lookup_insert_ne.
  2:{ rewrite join_readme. intros <-%app_inv_head. by apply Hreadme. }
  rewrite (installStage_keeps _ _ _ _ _ HE Hinstall).
  apply (keeps_run _ (PROJECT_DIR ++ target)) in HD;
    [| by apply keeps_removeSetup].
  rewrite HD, lookup_insert_ne.
  2:{ rewrite join_pkg. intros <-%app_inv_head. by apply Hpkg. }
  apply (keeps_run _ (PROJECT_DIR ++ target)) in HB; [done |].
  apply keeps_removeFiles.
  apply (removed_not_above sel _ PROJECT_DIR target); try done.
  unfold resolvedFiles. by rewrite Hr.
Qed.

(** ** The workflow file *)



(** ** When the dependencies are installed again *)

Lemma nonempty_elem {A} (l : list A) : l ≠ [] ↔ ∃ x, x ∈ l.
Proof.
  destruct l as [|x l]; split; try done.
  - by intros [x ?%elem_of_nil].
  - intros _. exists x. apply list_elem_of_here.
Qed.

Lemma depsToRemove_nonempty sel r :
  collectRemoval noRemoval (deselected sel) = Some r →
  depsToRemove r ≠ [] ↔ ∃ kf, kf ∈ FEATURES ∧ (kf.1 ∉ sel) ∧ devDeps kf.2 ≠ [].
Proof.
  rewrite collectRemoval_deselected. intros [= <-]. simpl.
  rewrite nonempty_elem. split.
  - intros (d & (kf & Hkf & Hsel & Hd)%elem_of_removed). exists kf.
    split_and!; try done. apply nonempty_elem. eauto.
  - intros (kf & Hkf & Hsel & (d & Hd)%nonempty_elem). exists d.
    apply elem_of_removed. eauto.
Qed.

(** The rules, the removals and the handling of the license do not run
    [bun install]. *)
Lemma stages_no_install :
  (∀ sel, emitsOnly (λ e, e ≠ EInstall) (crossFeatureCleanup sel))
  ∧ (∀ paths, emitsOnly (λ e, e ≠ EInstall) (removeFiles paths))
  ∧ (∀ l, emitsOnly (λ e, e ≠ EInstall) (handleLicense l)).
Proof.
  split_and!.
  - intros sel.
    unfold crossFeatureCleanup, lintStagedRule, vscodeMarkdownRule,
      ciCommitlintRule, vscodeWorkflowRule.
    repeat first [ apply emitsOnly_dropJSONKey; done | emits_step ].
  - intros paths. by apply emitsOnly_removeFiles.
  - intros l. unfold handleLicense.
    destruct l;
      first [ by apply emitsOnly_removeFiles | apply emitsOnly_ret
            | by apply emitsOnly_emit ].
Qed.

Lemma emitsOnly_run {A} Q (c : M A) (fs fs' : FS) r t e :
  emitsOnly Q c → c fs = (r, fs', t) → e ∈ t → Q e.
Proof.
  intros Hc Hrun He. specialize (Hc fs). rewrite Hrun in Hc.
  unfold traceOf in Hc. simpl in Hc. rewrite Forall_forall in Hc. by apply Hc.
Qed.

(** X16.  In a run that ends by itself, [bun install] is run exactly when
    a feature that was not selected lists development dependencies. *)
Theorem install_iff_dependencies (u : Script) (sel : list string)
    (fs fs' : FS) (t : list event) :
  onFeatures u = Value sel →
  program u fs = (Ret (), fs', t) →
  EInstall ∈ t
  ↔ ∃ kf, kf ∈ FEATURES ∧ (kf.1 ∉ sel) ∧ devDeps kf.2 ≠ [].
Proof.
  intros Hsel H.
  apply program_Ret, main_Ret in H as (a & t1 & t2 & Hprompt & H & ->).
  pose proof (promptSequence_fields _ _ _ _ _ Hprompt) as (_ & _ & _ & Hs).
  rewrite Hsel in Hs. injection Hs as ->.
  assert (EInstall ∉ t1) as Ht1.
  { destruct (promptSequence_run u fs) as [_ Hrun]. rewrite Hprompt in Hrun.
    unfold outcomeOf, traceOf in Hrun. simpl in Hrun.
    destruct Hrun as [(? & _ & Hok & _) | [[? _] | [? _]]]; try done.
    intros Hin. rewrite Forall_forall in Hok. by apply (Hok _ Hin). }
  apply applyChanges_stages in H
    as (text & pkg & pkg' & r & fsA & tA & fsB & tB & fsD & tD & fsE & tE
        & tG & kept & removed & _ & _ & _ & Hr & HA & HB & _ & HD & HE & _
        & HG & -> & _).
  destruct stages_no_install as (Hrules & Hrm & Hlic).
  pose proof (λ H, emitsOnly_run _ _ _ _ _ _ EInstall (Hrules _) HA H eq_refl)
    as HtA.
  pose proof (λ H, emitsOnly_run _ _ _ _ _ _ EInstall (Hrm _) HB H eq_refl)
    as HtB.
  pose proof (λ H, emitsOnly_run _ _ _ _ _ _ EInstall (Hrm _) HD H eq_refl)
    as HtD.
  pose proof (λ H, emitsOnly_run _ _ _ _ _ _ EInstall (Hlic _) HG H eq_refl)
    as HtG.
  rewrite <- (depsToRemove_nonempty _ _ Hr).
  rewrite elem_of_cons, !elem_of_app, !elem_of_cons, !elem_of_nil.
  destruct HE as [(Hd & _ & ->) | (Hd & _ & ->)].
  - rewrite elem_of_nil. split; [| done]. intros Hin. exfalso.
    destruct_or!;
      first [ done | by apply HtA | by apply HtB | by apply HtD
            | by apply HtG ].
  - split; [done |]. intros _. do 7 right. left. right. by left.
Qed.

(** ** A manifest that cannot be used *)

(** X17.  When the prompts are answered and the manifest is missing, is
    a directory, does not parse, or parses to [null] or a primitive, the
    process shows the error and exits with code 1, having read the
    manifest and changed nothing. *)
Theorem bad_manifest_fails (u : Script) (fs fs1 : FS) (a : Answers)
    (t1 : list event) (err : string) :
  promptSequence u fs = (Ret a, fs1, t1) →
  manifestError JSON_parse (fs !! PKG_PATH) = Some err →
  program u fs
    = (Exit 1, fs,
       EIntro ("Setting up " +:+ basename PROJECT_DIR)
         :: t1 ++ [ESpinner "Configuring project..."; ERead PKG_PATH;
                   EError ("Setup failed: " +:+ err)]).
Proof.
  intros Hprompt Herr.
  pose proof (readsOnly_promptSequence u fs) as Hfs. rewrite Hprompt in Hfs.
  unfold fsOf in Hfs. simpl in Hfs. subst fs1.
  assert (applyChanges (basename PROJECT_DIR) a fs
          = (Throw err, fs, [ESpinner "Configuring project..."; ERead PKG_PATH]))
    as Happly.
  { unfold applyChanges. rewrite bind_run. simpl. rewrite bind_run.
    unfold readPkg. rewrite bind_run. unfold readText, manifestError in *.
    destruct (fs !! PKG_PATH) as [[text|]|].
    - unfold parseJSON.
      destruct (JSON_parse text) as [[]|]; simpl; simplify_eq; done.
    - by simplify_eq.
    - by simplify_eq. }
  unfold program. rewrite main_run, Hprompt, Happly. cbn [app].
  by rewrite <- app_assoc.
Qed.

(** ** How the process ends *)

Lemma returnsOrThrows_bind {A B} (m : M A) (f : A → M B) :
  returnsOrThrows m → (∀ a, returnsOrThrows (f a)) → returnsOrThrows (m ≫= f).
Proof.
  intros Hm Hf fs. rewrite bind_run. specialize (Hm fs).
  destruct (m fs) as [[[a| | |] fs1] t1]; try done.
  specialize (Hf a fs1). by destruct (f a fs1) as [[r fs2] t2].
Qed.

Lemma returnsOrThrows_ret {A} (a : A) : returnsOrThrows (mret a).
Proof. done. Qed.
Lemma returnsOrThrows_emit e : returnsOrThrows (emit e).
Proof. done. Qed.
Lemma returnsOrThrows_orThrow {A} err (o : option A) :
  returnsOrThrows (orThrow err o).
Proof. by destruct o. Qed.
Lemma returnsOrThrows_existsSync full : returnsOrThrows (existsSync full).
Proof. done. Qed.
Lemma returnsOrThrows_readText full : returnsOrThrows (readText full).
Proof. intros fs. unfold readText. by destruct (fs !! full) as [[]|]. Qed.
Lemma returnsOrThrows_writeText full text :
  returnsOrThrows (writeText full text).
Proof. intros fs. unfold writeText. by destruct (fs !! full) as [[]|]. Qed.
Lemma returnsOrThrows_rmrf full : returnsOrThrows (rmrf full).
Proof. intros fs. by destruct full. Qed.
Lemma returnsOrThrows_install : returnsOrThrows install.
Proof. intros fs. unfold install. by destruct (bunInstall fs) as [? []]. Qed.

Lemma returnsOrThrows_forEach {A} (body : A → M unit) xs :
  (∀ x, returnsOrThrows (body x)) → returnsOrThrows (forEach body xs).
Proof.
  intros Hb. induction xs as [|x xs IH]; [done |].
  apply returnsOrThrows_bind; [done |]. by intros _.
Qed.

Lemma returnsOrThrows_mapM {A B} (f : A → M B) xs :
  (∀ x, returnsOrThrows (f x)) → returnsOrThrows (mapM f xs).
Proof.
  intros Hf. induction xs as [|x xs IH]; [done |].
  apply returnsOrThrows_bind; [done |]. intros ?.
  apply returnsOrThrows_bind; [done |]. by intros ?.
Qed.

(** After the prompts the process is not exited and does not wait. *)
Lemma returnsOrThrows_applyChanges name a :
  returnsOrThrows (applyChanges name a).
Proof.
  unfold applyChanges, readPkg, parseJSON, writePkg, generateReadme,
    crossFeatureCleanup, lintStagedRule, vscodeMarkdownRule, ciCommitlintRule,
    vscodeWorkflowRule, dropJSONKey, parseJSON, handleLicense, removeFiles,
    removeFile, summaryLine.
  repeat first
    [ apply returnsOrThrows_ret | apply returnsOrThrows_emit
    | apply returnsOrThrows_orThrow | apply returnsOrThrows_existsSync
    | apply returnsOrThrows_readText | apply returnsOrThrows_writeText
    | apply returnsOrThrows_rmrf | apply returnsOrThrows_install
    | apply returnsOrThrows_forEach; intros ?
    | apply returnsOrThrows_mapM; intros ?
    | apply returnsOrThrows_bind; [| intros ?]
    | match goal with
      | |- returnsOrThrows (if ?b then _ else _) => destruct b
      | |- returnsOrThrows (match ?l with _ => _ end) => destruct l
      end ].
Qed.

Lemma last_two {A} (l : list A) (x y : A) : last (l ++ [x; y]) = Some y.
Proof. change (l ++ [x; y]) with (l ++ [x] ++ [y]). by rewrite app_assoc, last_snoc. Qed.

(** X18.  The process never ends in an uncaught error.  It ends by
    itself only after the closing message and with no prompt cancelled;
    it exits with code 0 only at a cancelled prompt, after the
    cancellation message and with nothing changed; it exits with code 1
    only after the line of an error, with no prompt cancelled; and while
    it waits for a submission nothing is changed. *)
Theorem how_the_process_ends (u : Script) (fs : FS) :
  match outcomeOf (program u fs) with
  | Ret _ =>
      last (traceOf (program u fs))
        = Some (EOutro "Done! Run `bun start` to begin.")
      ∧ ∀ p, EPrompt p true ∉ traceOf (program u fs)
  | Exit code =>
      (code = 0%Z
       ∧ (∃ p, EPrompt p true ∈ traceOf (program u fs))
       ∧ last (traceOf (program u fs)) = Some (ECancel cancelMessage)
       ∧ fsOf (program u fs) = fs)
      ∨ (code = 1%Z
         ∧ (∃ err, last (traceOf (program u fs))
                   = Some (EError ("Setup failed: " +:+ err)))
         ∧ ∀ p, EPrompt p true ∉ traceOf (program u fs))
  | Throw _ => False
  | Blocked => fsOf (program u fs) = fs
  end.
Proof.
  unfold program. rewrite main_run.
  destruct (promptSequence_run u fs) as [Hfs Hrun].
  destruct (promptSequence u fs) as [[r1 fs1] t1].
  unfold fsOf, outcomeOf, traceOf in Hfs, Hrun. simpl in Hfs, Hrun. subst fs1.
  destruct Hrun as [(a & -> & Hok & _) | [(-> & pre & p & -> & Hok & _)
                                         | (-> & _)]].
  - pose proof (returnsOrThrows_applyChanges (basename PROJECT_DIR) a fs) as Hend.
    pose proof (applyChanges_no_prompt (basename PROJECT_DIR) a fs) as Hquiet.
    destruct (applyChanges _ a fs) as [[r2 fs2] t2] eqn:Happly.
    unfold outcomeOf, traceOf in Hend, Hquiet. simpl in Hend, Hquiet.
    assert (∀ p extra, EPrompt p true ∈ EIntro ("Setting up "
              +:+ basename PROJECT_DIR) :: (t1 ++ t2) ++ extra →
            EPrompt p true ∈ extra) as Hnone.
    { intros p extra. rewrite elem_of_cons, !elem_of_app.
      intros [? | [[Hin | Hin] | ?]]; [done | | | done].
      - by apply (answered_not_cancelled _ p) in Hok.
      - rewrite Forall_forall in Hquiet. by destruct (Hquiet _ Hin). }
    destruct r2 as [[]| | |]; try done.
    + unfold outcomeOf, traceOf. simpl. split.
      * apply applyChanges_stages in Happly
          as (? & ? & ? & ? & ? & ? & ? & ? & ? & ? & ? & ? & ? & ? & ? & H).
        destruct H as (_ & _ & _ & _ & _ & _ & _ & _ & _ & _ & _ & -> & _).
        rewrite app_comm_cons, !app_assoc. apply last_two.
      * intros p Hin. specialize (Hnone p []). rewrite app_nil_r in Hnone.
        by apply Hnone, elem_of_nil in Hin.
    + unfold outcomeOf, traceOf. simpl. right. split_and!; [done | |].
      * exists err. by rewrite app_comm_cons, last_snoc.
      * intros p Hin. rewrite app_comm_cons in Hin.
        apply Hnone, list_elem_of_singleton in Hin. done.
  - unfold outcomeOf, traceOf, fsOf. simpl. left. split_and!; try done.
    + exists p. apply list_elem_of_further, elem_of_app. right.
      apply list_elem_of_here.
    + by rewrite app_comm_cons, last_two.
  - done.
Qed.

(** ** The rules on the configuration files *)

Lemma dropJSONKey_missing rel key (fs : FS) :
  fs !! join PROJECT_DIR rel = None →
  dropJSONKey rel key fs = (Ret (), fs, [EExists (join PROJECT_DIR rel)]).
Proof.
  intros Hp. unfold dropJSONKey, mbind, M_bind, existsSync.
  rewrite bool_decide_false; [done |]. rewrite Hp. by intros [? ?].
Qed.

(** X19.  In a project that has none of the three configuration files,
    the four rules that edit them pass: they return, change nothing, and
    only look whether the files exist. *)
Theorem cleanup_skips_missing (sel : list string) (fs : FS) :
  fs !! join PROJECT_DIR ".lintstagedrc" = None →
  fs !! join PROJECT_DIR ".vscode/settings.json" = None →
  fs !! join PROJECT_DIR ".github/workflows/ci.yml" = None →
  outcomeOf (crossFeatureCleanup sel fs) = Ret ()
  ∧ fsOf (crossFeatureCleanup sel fs) = fs
  ∧ Forall (λ e, isLookup e = true) (traceOf (crossFeatureCleanup sel fs)).
Proof.
  intros Hlint Hvs Hci.
  assert (∀ c : M unit,
            (c fs = (Ret (), fs, []) ∨ ∃ full, c fs = (Ret (), fs, [EExists full])) →
            ∀ k : M unit,
              outcomeOf (k fs) = Ret () ∧ fsOf (k fs) = fs
              ∧ Forall (λ e, isLookup e = true) (traceOf (k fs)) →
              outcomeOf ((c;; k) fs) = Ret () ∧ fsOf ((c;; k) fs) = fs
              ∧ Forall (λ e, isLookup e = true) (traceOf ((c;; k) fs)))
    as Hstep.
  { intros c Hc k Hk. rewrite bind_run.
    destruct Hc as [-> | [full ->]]; destruct (k fs) as [[r fs2] t2];
      unfold outcomeOf, fsOf, traceOf in *; simpl in *;
      destruct Hk as (-> & -> & Ht); split_and!; try done.
    by apply Forall_cons. }
  assert (lintStagedRule sel fs = (Ret (), fs, [])
          ∨ ∃ full, lintStagedRule sel fs = (Ret (), fs, [EExists full])) as H1.
  { unfold lintStagedRule. destruct (_ && _); [| by left].
    right. eexists. by apply dropJSONKey_missing. }
  assert (vscodeMarkdownRule sel fs = (Ret (), fs, [])
          ∨ ∃ full, vscodeMarkdownRule sel fs = (Ret (), fs, [EExists full]))
    as H2.
  { unfold vscodeMarkdownRule. destruct (negb _); [| by left].
    right. eexists. by apply dropJSONKey_missing. }
  assert (ciCommitlintRule sel fs = (Ret (), fs, [])
          ∨ ∃ full, ciCommitlintRule sel fs = (Ret (), fs, [EExists full]))
    as H3.
  { unfold ciCommitlintRule. destruct (_ && _); [| by left].
    right. eexists. unfold mbind, M_bind, existsSync.
    rewrite bool_decide_false; [done |]. rewrite Hci. by intros [? ?]. }
  assert (vscodeWorkflowRule sel fs = (Ret (), fs, [])
          ∨ ∃ full, vscodeWorkflowRule sel fs = (Ret (), fs, [EExists full]))
    as H4.
  { unfold vscodeWorkflowRule. destruct (negb _); [| by left].
    right. eexists. by apply dropJSONKey_missing. }
  unfold crossFeatureCleanup.
  apply (Hstep _ H1), (Hstep _ H2), (Hstep _ H3).
  destruct H4 as [-> | [full ->]]; split_and!; try done.
  by apply Forall_singleton.
Qed.

Lemma crossFeatureCleanup_Ret sel (fs fsA : FS) tA :
  crossFeatureCleanup sel fs = (Ret (), fsA, tA) →
  ∃ fs1 fs2 fs3 tA1 tA2 tA3 tA4,
    lintStagedRule sel fs = (Ret (), fs1, tA1)
    ∧ vscodeMarkdownRule sel fs1 = (Ret (), fs2, tA2)
    ∧ ciCommitlintRule sel fs2 = (Ret (), fs3, tA3)
    ∧ vscodeWorkflowRule sel fs3 = (Ret (), fsA, tA4).
Proof.
  intros HA. unfold crossFeatureCleanup in HA.
  apply bind_Ret_inv in HA as ([] & fs1 & ? & ? & H1 & HA & _).
  apply bind_Ret_inv in HA as ([] & fs2 & ? & ? & H2 & HA & _).
  apply bind_Ret_inv in HA as ([] & fs3 & ? & ? & H3 & H4 & _).
  eexists fs1, fs2, fs3, _, _, _, _. by split_and!.
Qed.

(** X20.  When the process ends by itself and the editor settings
    exist, they are as before if both markdownlint and the CI workflow
    were selected; if not, they hold what was parsed from them without
    the section of each of the two that was not selected, written with
    tabs.  With both deselected the second rule reads what the first has
    written: this is where the text written must parse to what was
    written.  As long as [bun install] leaves the settings. *)
Theorem vscode_settings_after (u : Script) (sel : list string)
    (fs fs' : FS) (t : list event) (text : string) (doc : value) :
  let settings := join PROJECT_DIR ".vscode/settings.json" in
  (∀ fs0 : FS, (bunInstall fs0).1 !! settings = fs0 !! settings) →
  onFeatures u = Value sel →
  fs !! settings = Some (File text) →
  JSON_parse text = Some doc →
  (∀ d, deleteProp doc "[markdown]" = Some d →
        JSON_parse (JSON_stringify d TAB +:+ LF) = Some d) →
  program u fs = (Ret (), fs', t) →
  if decide (settingsKeys sel = []) then fs' !! settings = Some (File text)
  else ∃ doc',
         deleteProps doc (settingsKeys sel) = Some doc'
         ∧ fs' !! settings = Some (File (JSON_stringify doc' TAB +:+ LF)).
Proof.
  intros settings Hinstall Hsel Hfile Hparse Hround H.
  apply program_Ret, main_Ret in H as (a & t1 & t2 & Hprompt & H & ->).
  apply promptSequence_fields in Hprompt as (_ & _ & _ & Hs).
  rewrite Hsel in Hs. injection Hs as ->.
  apply applyChanges_stages in H
    as (text0 & pkg & pkg' & r & fsA & tA & fsB & tB & fsD & tD & fsE & tE
        & tG & kept & removed & _ & _ & _ & Hr & HA & HB & _ & HD & HE & _
        & HG & _).
  assert (settings = PROJECT_DIR ++ [".vscode"; "settings.json"]) as Hpath
    by apply join_vscode.
  assert (fs' !! settings = fsA !! settings) as ->.
  { rewrite Hpath.
    apply (after_rules_kept _ _ _ _ _ _ _ _ _ _ _ _ _ _ _ Hr HB HD HE HG).
    - intros kf p Hkf Hp Hpre.
      pose proof above_vscode as Ha. rewrite Forall_forall in Ha.
      specialize (Ha kf Hkf). rewrite Forall_forall in Ha.
      by destruct (Ha p Hp).
    - intros Hpre. exfalso. revert Hpre. by_evaluation.
    - by_evaluation.
    - by rewrite <- Hpath. }
  clear HB HD HE HG Hr.
  apply crossFeatureCleanup_Ret in HA
    as (fs1 & fs2 & fs3 & tA1 & tA2 & tA3 & tA4 & H1 & H2 & H3 & H4).
  apply (keeps_run _ settings) in H1.
  2:{ unfold lintStagedRule.
      destruct (_ && _); [| apply readsOnly_keeps, readsOnly_ret].
      apply keeps_dropJSONKey. rewrite Hpath, join_lintstaged.
      intros ?%app_inv_head. congruence. }
  apply (keeps_run _ settings) in H3.
  2:{ unfold ciCommitlintRule.
      destruct (_ && _); [| apply readsOnly_keeps, readsOnly_ret].
      apply keeps_bind; [apply readsOnly_keeps, readsOnly_existsSync |].
      intros [|]; [| apply readsOnly_keeps, readsOnly_ret].
      apply keeps_bind; [apply readsOnly_keeps, readsOnly_readText |].
      intros ?. apply keeps_writeText. rewrite Hpath, join_ci.
      intros ?%app_inv_head. congruence. }
  rewrite <- H1 in Hfile. clear H1.
  unfold vscodeMarkdownRule in H2. unfold vscodeWorkflowRule in H4.
  unfold settingsKeys.
  destruct (includes (selectedFeatures a) "markdownlint");
    destruct (includes (selectedFeatures a) "githubCI");
    simpl in H2, H4; simpl.
  - injection H2 as <- _. injection H4 as <- _. by rewrite H3.
  - injection H2 as <- _. rewrite <- H3 in Hfile.
    apply dropJSONKey_Ret in H4
      as (text' & doc0 & doc' & Htext & Hdoc & Hdoc' & ->);
      [| fold settings; rewrite Hfile; eauto].
    fold settings in Htext |- *. rewrite Hfile in Htext.
    injection Htext as <-. rewrite Hparse in Hdoc. injection Hdoc as <-.
    exists doc'. rewrite Hdoc'. split; [done |]. apply lookup_insert_eq.
  - apply dropJSONKey_Ret in H2
      as (text' & doc0 & doc' & Htext & Hdoc & Hdoc' & ->);
      [| fold settings; rewrite Hfile; eauto].
    fold settings in Htext, H3. rewrite Hfile in Htext.
    injection Htext as <-. rewrite Hparse in Hdoc. injection Hdoc as <-.
    injection H4 as <- _. exists doc'. rewrite Hdoc'. split; [done |].
    rewrite H3. apply lookup_insert_eq.
  - apply dropJSONKey_Ret in H2
      as (text' & doc0 & doc1 & Htext & Hdoc & Hdoc1 & ->);
      [| fold settings; rewrite Hfile; eauto].
    fold settings in Htext, H3. rewrite Hfile in Htext.
    injection Htext as <-. rewrite Hparse in Hdoc. injection Hdoc as <-.
    rewrite lookup_insert_eq in H3.
    apply dropJSONKey_Ret in H4
      as (text2 & doc0 & doc2 & Htext2 & Hdoc0 & Hdoc2 & ->);
      [| fold settings; rewrite H3; eauto].
    fold settings in Htext2 |- *. rewrite H3 in Htext2.
    injection Htext2 as <-. rewrite (Hround _ Hdoc1) in Hdoc0.
    injection Hdoc0 as <-. exists doc2. rewrite Hdoc1. simpl.
    rewrite Hdoc2. split; [done |]. apply lookup_insert_eq.
Qed.

(** ** A run that succeeds *)

Lemma bind_outcome_Ret {A B} (m : M A) (f : A → M B) (fs fs1 : FS) a t1 b :
  m fs = (Ret a, fs1, t1) → outcomeOf (f a fs1) = Ret b →
  outcomeOf ((m ≫= f) fs) = Ret b.
Proof.
  intros Hm Hf. rewrite bind_run, Hm.
  by destruct (f a fs1) as [[r fs2] t2].
Qed.

Lemma touched_nonroot rel : rel ∈ touchedPaths → join PROJECT_DIR rel ≠ [].
Proof.
  intros (rest & Hrest & ->)%(touched_below PROJECT_DIR).
  by destruct PROJECT_DIR, rest.
Qed.

(** A removal of paths other than the root returns. *)
Lemma removeFiles_returns (paths : list string) (fs : FS) :
  (∀ p, p ∈ paths → join PROJECT_DIR p ≠ []) →
  ∃ fs' t, removeFiles paths fs = (Ret (), fs', t).
Proof.
  revert fs. induction paths as [|p ps IH]; intros fs Hps; [by eexists _, _ |].
  rewrite removeFiles_cons.
  assert (∃ fs1 t1, removeFile p fs = (Ret (), fs1, t1)) as (fs1 & t1 & ->).
  { destruct (fs !! join PROJECT_DIR p) eqn:Hlook.
    - rewrite removeFile_found by (rewrite Hlook; eauto).
      pose proof (Hps p (list_elem_of_here _ _)) as Hp.
      destruct (join PROJECT_DIR p); [done |]. by eexists _, _.
    - rewrite removeFile_missing by done. by eexists _, _. }
  destruct (IH fs1) as (fs2 & t2 & ->);
    [intros q ?; by apply Hps, list_elem_of_further |].
  by eexists _, _.
Qed.

(** The lines of the summary, for keys of the registry. *)
Lemma summary_returns pre (ks : list string) (fs : FS) :
  ks ⊆ featureKeys →
  ∃ out, mapM (summaryLine pre) ks fs = (Ret out, fs, []).
Proof.
  induction ks as [|k ks IH]; intros Hks; [by eexists |].
  destruct IH as (out & Hout);
    [intros k' ?; by apply Hks, list_elem_of_further |].
  assert (k ∈ featureKeys) as Hk by apply Hks, list_elem_of_here.
  apply list_elem_of_fmap in Hk as (kf & -> & Hkf).
  apply getFeature_registry in Hkf.
  eexists. cbn [mapM]. rewrite bind_run. unfold summaryLine at 1.
  rewrite bind_run, Hkf. simpl. rewrite bind_run, Hout. done.
Qed.

Lemma writeText_returns (full : list string) text (fs : FS) :
  fs !! full ≠ Some Dir →
  writeText full text fs = (Ret (), <[full := File text]> fs, [EWrite full text]).
Proof. intros Hd. unfold writeText. by destruct (fs !! full) as [[]|]. Qed.

Lemma mutateManifest_Some a pkg pkg' :
  mutateManifest a pkg = Some pkg' →
  ∃ p1 p2 r p3 p4 p5,
    setMetadata a pkg = Some p1
    ∧ setStartScript a p1 = Some p2
    ∧ collectRemoval noRemoval (deselected (selectedFeatures a)) = Some r
    ∧ removeDevDependencies (depsToRemove r) p2 = Some p3
    ∧ removeScripts (scriptsToRemove r) p3 = Some p4
    ∧ removeSetupDependency p4 = Some p5
    ∧ deleteProp p5 "bun-create" = Some pkg'.
Proof.
  intros H. unfold mutateManifest in H.
  destruct (setMetadata a pkg) as [p1|] eqn:H1; [| done].
  cbn [mbind option_bind] in H.
  destruct (setStartScript a p1) as [p2|] eqn:H2; [| done].
  cbn [mbind option_bind] in H.
  destruct (collectRemoval _ _) as [r|] eqn:Hr; [| done].
  cbn [mbind option_bind] in H.
  destruct (removeDevDependencies _ p2) as [p3|] eqn:H3; [| done].
  cbn [mbind option_bind] in H.
  destruct (removeScripts _ p3) as [p4|] eqn:H4; [| done].
  cbn [mbind option_bind] in H.
  destruct (removeSetupDependency p4) as [p5|] eqn:H5; [| done].
  cbn [mbind option_bind] in H.
  by exists p1, p2, r, p3, p4, p5.
Qed.

(** X21.  The process ends by itself when the prompts are answered with
    features of the registry, the manifest is a file that parses to a
    value the edits apply to, the four rules on the configuration files
    return, the README is not a directory, and [bun install] succeeds and
    leaves the README. *)
Theorem run_succeeds (u : Script) (fs fs1 : FS) (a : Answers)
    (t1 : list event) (text : string) (pkg pkg' : value) :
  promptSequence u fs = (Ret a, fs1, t1) →
  selectedFeatures a ⊆ featureKeys →
  fs !! PKG_PATH = Some (File text) →
  JSON_parse text = Some pkg →
  mutateManifest a pkg = Some pkg' →
  outcomeOf (crossFeatureCleanup (selectedFeatures a) fs) = Ret () →
  fs !! join PROJECT_DIR "README.md" ≠ Some Dir →
  (∀ fs0 : FS, (bunInstall fs0).2 = true
               ∧ (bunInstall fs0).1 !! join PROJECT_DIR "README.md"
                 = fs0 !! join PROJECT_DIR "README.md") →
  outcomeOf (program u fs) = Ret ().
Proof.
  intros Hprompt Hsel Hfile Hparse Hmut Hrules Hreadme Hinstall.
  pose proof (readsOnly_promptSequence u fs) as Hfs. rewrite Hprompt in Hfs.
  unfold fsOf in Hfs. simpl in Hfs. subst fs1.
  rewrite program_outcome, main_run, Hprompt.
  assert (outcomeOf (applyChanges (basename PROJECT_DIR) a fs) = Ret ())
    as Happly;
    [| destruct (applyChanges _ a fs) as [[r2 fs2] t2];
       unfold outcomeOf in *; simpl in *; by rewrite Happly].
  apply mutateManifest_Some in Hmut
    as (p1 & p2 & r & p3 & p4 & p5 & Hp1 & Hp2 & Hr & Hp3 & Hp4 & Hp5 & Hp6).
  set (sel := selectedFeatures a) in *.
  unfold applyChanges. cbv zeta. fold sel.
  eapply bind_outcome_Ret; [reflexivity |].
  eapply bind_outcome_Ret.
  { unfold readPkg. rewrite bind_run. unfold readText. rewrite Hfile.
    unfold parseJSON. rewrite Hparse. reflexivity. }
  rewrite Hp1. eapply bind_outcome_Ret; [reflexivity |].
  rewrite Hp2. eapply bind_outcome_Ret; [reflexivity |].
  rewrite Hr. eapply bind_outcome_Ret; [reflexivity |].
  rewrite Hp3. eapply bind_outcome_Ret; [reflexivity |].
  rewrite Hp4. eapply bind_outcome_Ret; [reflexivity |].
  destruct (crossFeatureCleanup sel fs) as [[rA fsA] tA] eqn:HA.
  unfold outcomeOf in Hrules. simpl in Hrules. subst rA.
  eapply bind_outcome_Ret; [exact HA |].
  destruct (removeFiles_returns (githubDirRule sel (filesToRemove r)) fsA)
    as (fsB & tB & HB).
  { intros p Hp. by apply touched_nonroot, (removed_touched _ _ _ Hr). }
  eapply bind_outcome_Ret; [exact HB |].
  rewrite Hp5. eapply bind_outcome_Ret; [reflexivity |].
  rewrite Hp6. eapply bind_outcome_Ret; [reflexivity |].
  (* the manifest is still a file, and the README is not a directory *)
  assert (∀ b, b ∈ ["package.json"; "README.md"] →
            fsB !! (PROJECT_DIR ++ [b]) = fs !! (PROJECT_DIR ++ [b])) as Hkept.
  { intros b Hb.
    apply (keeps_run _ (PROJECT_DIR ++ [b])) in HB.
    2:{ apply (removal_keeps_name _ _ _ Hr).
        apply elem_of_cons in Hb as [-> | Hb%list_elem_of_singleton];
          [| subst b]; by_evaluation. }
    apply (keeps_run _ (PROJECT_DIR ++ [b])) in HA.
    2:{ apply crossFeatureCleanup_keeps_name.
        apply elem_of_cons in Hb as [-> | Hb%list_elem_of_singleton];
          [| subst b]; done. }
    by rewrite HB, HA. }
  eapply bind_outcome_Ret.
  { unfold writePkg. apply writeText_returns.
    rewrite join_pkg, (Hkept "package.json") by by_evaluation.
    rewrite <- join_pkg, Hfile. done. }
  match goal with |- outcomeOf (_ ?fsC) = _ =>
    destruct (removeFiles_returns ["setup"] fsC) as (fsD & tD & HD)
  end.
  { intros p ->%list_elem_of_singleton. apply touched_nonroot. by_evaluation. }
  eapply bind_outcome_Ret; [exact HD |].
  assert (fsD !! join PROJECT_DIR "README.md"
          = fs !! join PROJECT_DIR "README.md") as HreadmeD.
  { rewrite join_readme.
    apply (keeps_run _ (PROJECT_DIR ++ ["README.md"])) in HD;
      [| apply keeps_removeSetup; by_evaluation].
    rewrite HD, lookup_insert_ne
      by (rewrite join_pkg; intros ?%app_inv_head; congruence).
    apply Hkept. by_evaluation. }
  assert (∃ fsE tE,
            (if negb (bool_decide (depsToRemove r = []))
             then emit (ESpinner "Cleaning up dependencies...");; install
             else mret ()) fsD = (Ret (), fsE, tE)
            ∧ fsE !! join PROJECT_DIR "README.md"
              = fs !! join PROJECT_DIR "README.md") as (fsE & tE & HE & HreadmeE).
  { destruct (negb _).
    - rewrite bind_run. simpl. unfold install.
      destruct (Hinstall fsD) as [Hok Hkeep].
      destruct (bunInstall fsD) as [fsE ok]. simpl in Hok, Hkeep. subst ok.
      eexists _, _. split; [done |]. by rewrite Hkeep.
    - by eexists _, _. }
  eapply bind_outcome_Ret; [exact HE |].
  eapply bind_outcome_Ret; [reflexivity |].
  eapply bind_outcome_Ret.
  { unfold generateReadme. apply writeText_returns. by rewrite HreadmeE. }
  eapply bind_outcome_Ret; [reflexivity |].
  match goal with |- outcomeOf (_ ?fsF) = _ =>
    assert (∃ fsG tG, handleLicense (license a) fsF = (Ret (), fsG, tG))
      as (fsG & tG & HG)
  end.
  { unfold handleLicense. destruct (license a); try by eexists _, _.
    apply removeFiles_returns. intros p ->%list_elem_of_singleton.
    apply touched_nonroot. by_evaluation. }
  eapply bind_outcome_Ret; [exact HG |].
  destruct (summary_returns "  + " sel fsG Hsel) as (kept & Hk).
  eapply bind_outcome_Ret; [exact Hk |].
  destruct (summary_returns "  - " (deselected sel) fsG) as (removed & Hrm).
  { intros k Hk'. unfold deselected in Hk'.
    by apply list_elem_of_filter in Hk' as [_ ?]. }
  eapply bind_outcome_Ret; [exact Hrm |].
  eapply bind_outcome_Ret; [reflexivity |]. done.
Qed.

(** ** The summary *)

(** X22.  A run that ends by itself, for a selection among the features
    of the registry, has shown in the note before the closing message one
    line for each selected feature and then one for each feature of the
    registry that was not selected, with the label of the feature behind
    [+] or [-]. *)
Theorem summary_note (u : Script) (sel : list string) (fs fs' : FS)
    (t : list event) :
  onFeatures u = Value sel →
  sel ⊆ featureKeys →
  program u fs = (Ret (), fs', t) →
  ∃ kept removed,
    Forall2 (λ k line, ∃ f, (k, f) ∈ FEATURES ∧ line = "  + " +:+ label f)
      sel kept
    ∧ Forall2 (λ k line, ∃ f, (k, f) ∈ FEATURES ∧ line = "  - " +:+ label f)
        (deselected sel) removed
    ∧ ∃ before,
        t = before ++ [ENote (String.concat LF (kept ++ removed)) "Features";
                       EOutro "Done! Run `bun start` to begin."].
Proof.
  intros Hsel _ H.
  apply program_Ret, main_Ret in H as (a & t1 & t2 & Hprompt & H & ->).
  apply promptSequence_fields in Hprompt as (_ & _ & _ & Hs).
  rewrite Hsel in Hs. injection Hs as ->.
  apply applyChanges_stages in H
    as (text & pkg & pkg' & r & fsA & tA & fsB & tB & fsD & tD & fsE & tE
        & tG & kept & removed & _ & _ & _ & _ & _ & _ & _ & _ & _ & _ & _
        & -> & Hkept & Hremoved).
  assert (∀ k f, getFeature FEATURES k = Some f → (k, f) ∈ FEATURES) as Hreg.
  { intros k f. generalize FEATURES. intros reg.
    induction reg as [|[k' f'] reg IH]; [done |]. simpl.
    case_decide as Hk.
    - intros [= <-]. subst k'. apply list_elem_of_here.
    - intros ?%IH. by apply list_elem_of_further. }
  exists kept, removed. split_and!.
  - eapply Forall2_impl; [exact Hkept |]. intros k line (f & Hf & ->).
    exists f. split; [by apply Hreg | done].
  - eapply Forall2_impl; [exact Hremoved |]. intros k line (f & Hf & ->).
    exists f. split; [by apply Hreg | done].
  - eexists. rewrite app_comm_cons, !app_assoc. reflexivity.
Qed.
End Wizard.

(** * The properties on the sample project *)

(** With the CI workflow alone selected, the example of the specification. *)
Lemma filesToRemove_exact_witness :
  resolvedFiles ["githubCI"]
    = Some [ ".husky"; "commitlint.config.js"; ".lintstagedrc";
             ".github/ISSUE_TEMPLATE"; ".github/PULL_REQUEST_TEMPLATE.md";
             ".markdownlint.json"; ".markdownlintignore";
             "CODE_OF_CONDUCT.md"; "CLAUDE.md" ]
  ∧ ".github/workflows"
      ∉ [ ".husky"; "commitlint.config.js"; ".lintstagedrc";
          ".github/ISSUE_TEMPLATE"; ".github/PULL_REQUEST_TEMPLATE.md";
          ".markdownlint.json"; ".markdownlintignore";
          "CODE_OF_CONDUCT.md"; "CLAUDE.md" ].
Proof.
  destruct (filesToRemove_exact ["githubCI"]) as [Heq Hnot].
  split.
  - rewrite Heq. vm_compute. reflexivity.
  - set (ci := {| label := "GitHub Actions CI workflow";
                  hint := Some "automated testing on push/PR";
                  files := [".github/workflows"];
                  devDeps := [];
                  scripts := None |}).
    assert (("githubCI", ci) ∈ FEATURES) as H1 by by_evaluation.
    assert ("githubCI" ∈ ["githubCI"]) as H2 by by_evaluation.
    assert (".github/workflows" ∈ files ci) as H3 by by_evaluation.
    refine (Hnot _ "githubCI" ci ".github/workflows" _ H1 H2 H3).
    vm_compute. reflexivity.
Defined.

(** [.github] is queued with the git hooks alone selected, and is not with
    the CI workflow selected. *)
Lemma github_dir_queued_witness :
  (∃ fs, resolvedFiles ["gitHooks"] = Some fs ∧ ".github" ∈ fs)
  ∧ (∃ fs, resolvedFiles ["githubCI"] = Some fs ∧ ".github" ∉ fs).
Proof.
  split.
  - destruct (github_dir_queued ["gitHooks"]) as (_ & fs & Hfs & Hin & _).
    exists fs. split; [exact Hfs |]. apply Hin. split; by_evaluation.
  - destruct (github_dir_queued ["githubCI"]) as (_ & fs & Hfs & _ & Hout).
    exists fs. split; [exact Hfs |]. apply Hout. right. by_evaluation.
Defined.

(** The sample manifest loses [markdownlint-cli] and keeps [husky]. *)
Lemma manifest_dependencies_witness :
  collectRemoval noRemoval (deselected (selectedFeatures sampleAnswers))
    = Some sampleRemoval
  ∧ mutateManifest sampleAnswers sampleManifest = Some (JObj sampleWritten)
  ∧ (∀ deps', getProp (JObj sampleWritten) "devDependencies" = Some (JObj deps') →
       objGet "markdownlint-cli" deps' = None)
  ∧ (∃ deps', getProp (JObj sampleWritten) "devDependencies" = Some (JObj deps')
              ∧ objGet "husky" deps' = Some (JStr "9.0.0")).
Proof.
  assert (collectRemoval noRemoval (deselected (selectedFeatures sampleAnswers))
            = Some sampleRemoval) as Hr by (vm_compute; reflexivity).
  assert (mutateManifest sampleAnswers sampleManifest = Some (JObj sampleWritten))
    as Hm by (vm_compute; reflexivity).
  destruct (manifest_dependencies sampleAnswers sampleManifest
              (JObj sampleWritten) sampleRemoval Hr Hm) as [Hgone Hkept].
  split; [exact Hr |]. split; [exact Hm |]. split.
  - intros deps'. apply Hgone. by_evaluation.
  - set (hooks := {| label := "Git hooks (Husky + commitlint + lint-staged)";
                     hint := Some "pre-commit testing, commit message linting";
                     files := [".husky"; "commitlint.config.js"; ".lintstagedrc"];
                     devDeps := ["@commitlint/cli";
                                 "@commitlint/config-conventional";
                                 "husky"; "lint-staged"];
                     scripts := Some ["prepare"] |}).
    set (deps := [ ("@biomejs/biome", JStr "2.0.0");
                   ("@clack/prompts", JStr "0.11.0");
                   ("@commitlint/cli", JStr "19.0.0");
                   ("husky", JStr "9.0.0");
                   ("lint-staged", JStr "15.0.0");
                   ("markdownlint-cli", JStr "0.40.0") ]).
    assert (("gitHooks", hooks) ∈ FEATURES) as H1 by by_evaluation.
    assert ("gitHooks" ∈ selectedFeatures sampleAnswers) as H2 by by_evaluation.
    assert ("husky" ∈ devDeps hooks) as H3 by by_evaluation.
    assert (getProp sampleManifest "devDependencies" = Some (JObj deps)) as H4
      by (vm_compute; reflexivity).
    destruct (Hkept "gitHooks" hooks "husky" deps H1 H2 H3 H4)
      as (deps' & Hdeps' & Hhusky).
    exists deps'. split; [exact Hdeps' |]. rewrite Hhusky.
    vm_compute. reflexivity.
Defined.

(** The keys of the sample manifest, as written. *)
Lemma manifest_written_with_tabs_witness :
  mutateManifest sampleAnswers sampleManifest = Some (JObj sampleWritten)
  ∧ objKeys sampleWritten
      = [ "name"; "version"; "scripts"; "devDependencies"; "description";
          "author"; "license"; "private"; "main"; "keywords" ]
  ∧ traceOf (writePkg sampleDir (JObj sampleWritten) sampleFS)
      = [EWrite (PKG_PATH sampleDir)
           (JSON_stringify (JObj sampleWritten) TAB +:+ LF)].
Proof.
  assert (mutateManifest sampleAnswers sampleManifest = Some (JObj sampleWritten))
    as Hm by (vm_compute; reflexivity).
  assert (collectRemoval noRemoval (deselected (selectedFeatures sampleAnswers))
            = Some sampleRemoval) as Hr by (vm_compute; reflexivity).
  destruct (manifest_written_with_tabs sampleDir sampleAnswers _ _ _ sampleFS
              Hr Hm)
    as (ms' & Heq & Hkeys & _ & _ & Htrace & _).
  split; [exact Hm |]. injection Heq as <-. split; [| exact Htrace].
  rewrite Hkeys. vm_compute. reflexivity.
Defined.

(** The manifest is not written with two spaces for each level. *)
Lemma manifest_two_space_indentation_fails :
  mutateManifest sampleAnswers sampleManifest = Some (JObj sampleWritten)
  ∧ traceOf (writePkg sampleDir (JObj sampleWritten) sampleFS)
      ≠ [EWrite (PKG_PATH sampleDir)
           (JSON_stringify (JObj sampleWritten) "  " +:+ LF)].
Proof.
  split; [vm_compute; reflexivity | by_evaluation].
Qed.

(** The README of the sample project, with and without the git hooks. *)
Lemma readme_deterministic_witness :
  hasChar lineBreak "myproject" = false
  ∧ hasChar lineBreak "A sample" = false
  ∧ containsRun commitConvention
      (textLines (readmeText "myproject" "A sample" ["gitHooks"; "githubCI"]))
    = true
  ∧ containsRun commitConvention
      (textLines (readmeText "myproject" "A sample" ["githubCI"]))
    = false
  ∧ readmeText "myproject" "A sample" ["githubCI"; "gitHooks"; "gitHooks"]
    = readmeText "myproject" "A sample" ["gitHooks"; "githubCI"].
Proof.
  assert (hasChar lineBreak "myproject" = false) as Hn by reflexivity.
  assert (hasChar lineBreak "A sample" = false) as Hd by reflexivity.
  split; [exact Hn |]. split; [exact Hd |]. split; [| split].
  - destruct (readme_deterministic sampleDir "myproject" "A sample"
                ["gitHooks"; "githubCI"]) as (_ & _ & _ & _ & Htext).
    apply (Htext Hn Hd). by_evaluation.
  - destruct (readme_deterministic sampleDir "myproject" "A sample"
                ["githubCI"]) as (_ & _ & _ & _ & Htext).
    apply not_true_is_false. intros Hrun.
    apply (Htext Hn Hd) in Hrun. revert Hrun. by_evaluation.
  - destruct (readme_deterministic sampleDir "myproject" "A sample"
                ["gitHooks"; "githubCI"]) as (_ & _ & Hset & _).
    apply Hset. intros k. rewrite !elem_of_cons, !elem_of_nil. tauto.
Defined.

(** The lint-staged file of the sample project after the run. *)
Lemma lintstaged_markdown_entry_removed_witness :
  let run := main sampleDir readJSON sampleInstall sampleScript sampleFS in
  outcomeOf run = Ret ()
  ∧ fsOf run !! join sampleDir ".lintstagedrc"
      = Some (File (JSON_stringify sampleLintStagedWritten TAB +:+ LF))
  ∧ getProp sampleLintStagedWritten "*.md" = None.
Proof.
  intros run.
  assert (∀ fs0 : FS,
            (sampleInstall fs0).1 !! join sampleDir ".lintstagedrc"
              = fs0 !! join sampleDir ".lintstagedrc") as Hinstall.
  { intros fs0. unfold sampleInstall. cbn [fst]. apply lookup_insert_ne.
    by_evaluation. }
  assert (onFeatures sampleScript = Value ["gitHooks"; "githubCI"]) as Hsel
    by reflexivity.
  assert ("gitHooks" ∈ ["gitHooks"; "githubCI"]) as Hhooks by by_evaluation.
  assert ("markdownlint" ∉ ["gitHooks"; "githubCI"]) as Hmd by by_evaluation.
  assert (is_Some (sampleFS !! join sampleDir ".lintstagedrc")) as Hex
    by by_evaluation.
  assert (outcomeOf run = Ret ()) as Hout by (vm_compute; reflexivity).
  destruct (lintstaged_markdown_entry_removed sampleDir readJSON sampleInstall
              sampleScript _ sampleFS (fsOf run) (traceOf run)
              Hinstall Hsel Hhooks Hmd Hex (run_eta run (Ret ()) Hout))
    as (text & doc & doc' & Htext & Hdoc & Hdoc' & Hfile & Hgone & _).
  assert (text = JSON_stringify sampleLintStaged TAB +:+ LF) as ->.
  { vm_compute in Htext. by injection Htext as <-. }
  assert (doc = sampleLintStaged) as ->.
  { vm_compute in Hdoc. by injection Hdoc as <-. }
  assert (doc' = sampleLintStagedWritten) as ->.
  { vm_compute in Hdoc'. by injection Hdoc' as <-. }
  split; [exact Hout |]. split; [exact Hfile | exact Hgone].
Defined.

(** Removing [.github] and a file that is not there, once and twice. *)
Lemma removeFiles_idempotent_witness :
  sampleFS !! join sampleDir "notes.txt" = None
  ∧ removeFiles sampleDir ["notes.txt"] sampleFS
      = (Ret (), sampleFS, [EExists (join sampleDir "notes.txt")])
  ∧ fsOf (removeFiles sampleDir [".github"; "notes.txt"]
            (fsOf (removeFiles sampleDir [".github"; "notes.txt"] sampleFS)))
      = fsOf (removeFiles sampleDir [".github"; "notes.txt"] sampleFS).
Proof.
  assert (sampleFS !! join sampleDir "notes.txt" = None) as Hnone
    by (vm_compute; reflexivity).
  split; [exact Hnone |]. split.
  - destruct (removeFiles_idempotent sampleDir ["notes.txt"] sampleFS)
      as [_ Hmissing].
    apply (Hmissing "notes.txt" Hnone).
  - destruct (removeFiles_idempotent sampleDir [".github"; "notes.txt"] sampleFS)
      as [[Hsame _] _].
    exact Hsame.
Defined.

(** The user who cancels at the license prompt. *)
Lemma cancel_exits_at_once_witness :
  let run := program sampleDir readJSON sampleInstall cancellingScript sampleFS in
  EPrompt PLicense true ∈ traceOf run
  ∧ outcomeOf run = Exit 0
  ∧ fsOf run = sampleFS.
Proof.
  intros run.
  assert (EPrompt PLicense true ∈ traceOf run) as Hin by by_evaluation.
  destruct (cancel_exits_at_once sampleDir readJSON sampleInstall
              cancellingScript sampleFS PLicense Hin) as (Hout & Hfs & _).
  split; [exact Hin |]. split; [exact Hout | exact Hfs].
Defined.

(** Nothing touches a file when the license prompt is cancelled. *)
Lemma prompts_precede_files_witness :
  let run := program sampleDir readJSON sampleInstall cancellingScript sampleFS in
  (∃ p, EPrompt p true ∈ traceOf run)
  ∧ Forall (λ e, isFileEvent e = false) (traceOf run)
  ∧ fsOf run = sampleFS.
Proof.
  intros run.
  assert (∃ p, EPrompt p true ∈ traceOf run) as Hin
    by (exists PLicense; by_evaluation).
  destruct (prompts_precede_files sampleDir readJSON sampleInstall
              cancellingScript sampleFS) as (t1 & t2 & Ht & Hfirst & _ & Hcancel).
  destruct (Hcancel Hin) as [-> Hfs].
  split; [exact Hin |]. split; [| exact Hfs].
  fold run in Ht. rewrite Ht, app_nil_r. exact Hfirst.
Defined.

(** The lint-staged file is written and is not among the removed paths. *)
Lemma edited_files_not_removed_witness :
  let text := JSON_stringify sampleLintStagedWritten TAB +:+ LF in
  EWrite (join sampleDir ".lintstagedrc") text
    ∈ traceOf (crossFeatureCleanup sampleDir readJSON
                 ["gitHooks"; "githubCI"] sampleFS)
  ∧ resolvedFiles ["gitHooks"; "githubCI"] = Some (filesToRemove sampleRemoval)
  ∧ ".lintstagedrc" ∉ filesToRemove sampleRemoval.
Proof.
  intros text.
  assert (EWrite (join sampleDir ".lintstagedrc") text
            ∈ traceOf (crossFeatureCleanup sampleDir readJSON
                         ["gitHooks"; "githubCI"] sampleFS)) as Hin
    by by_evaluation.
  assert (resolvedFiles ["gitHooks"; "githubCI"]
            = Some (filesToRemove sampleRemoval)) as Hfsr
    by (vm_compute; reflexivity).
  destruct (edited_files_not_removed sampleDir readJSON
              ["gitHooks"; "githubCI"] sampleFS _ _ text Hfsr Hin)
    as (_ & Hrel & _).
  split; [exact Hin |]. split; [exact Hfsr |].
  apply (Hrel ".lintstagedrc"). reflexivity.
Defined.

(** * The further properties on the sample projects *)

(** A release candidate passes the check of the version prompt. *)
Lemma semver_pattern_witness : semverPrefix "1.0.0-rc.1" = true.
Proof.
  apply semver_pattern. exists "1", "0", "0", "-rc.1".
  split_and!; done.
Defined.


(** A workflow without the steps stays as it is. *)
Lemma stripCommitlintSteps_unchanged_witness :
  stripCommitlintSteps sampleWorkflowStripped = sampleWorkflowStripped.
Proof.
  apply stripCommitlintSteps_unchanged;
    apply afterFirst_None; vm_compute; reflexivity.
Defined.

(** The metadata of the sample manifest, as written. *)
Lemma manifest_metadata_witness :
  mutateManifest sampleAnswers sampleManifest = Some (JObj sampleWritten)
  ∧ getProp (JObj sampleWritten) "version" = Some (JStr "0.2.0")
  ∧ getProp (JObj sampleWritten) "main" = Some (JStr "src/main.ts")
  ∧ getProp (JObj sampleWritten) "bun-create" = None.
Proof.
  assert (mutateManifest sampleAnswers sampleManifest = Some (JObj sampleWritten))
    as Hm by (vm_compute; reflexivity).
  destruct (manifest_metadata sampleAnswers _ _ Hm)
    as (_ & Hversion & _ & _ & _ & Hmain & _ & Hbun).
  split; [exact Hm |]. split; [exact Hversion |].
  split; [exact Hmain | exact Hbun].
Defined.

(** The name of the sample manifest is written as read. *)
Lemma manifest_other_properties_witness :
  mutateManifest sampleAnswers sampleManifest = Some (JObj sampleWritten)
  ∧ getProp (JObj sampleWritten) "name" = getProp sampleManifest "name".
Proof.
  assert (mutateManifest sampleAnswers sampleManifest = Some (JObj sampleWritten))
    as Hm by (vm_compute; reflexivity).
  split; [exact Hm |].
  apply (manifest_other_properties sampleAnswers _ _ "name" Hm); by_evaluation.
Defined.

(** Without the git hooks and with the default entrypoint, the scripts of
    the sample manifest lose [prepare] and keep [start]. *)
Lemma manifest_scripts_witness :
  ∃ pkg' inner',
    mutateManifest ciOnlyAnswers sampleManifest = Some pkg'
    ∧ getProp pkg' "scripts" = Some (JObj inner')
    ∧ objGet "start" inner' = Some (JStr "bun src/index.ts")
    ∧ objGet "prepare" inner' = None.
Proof.
  assert (is_Some (mutateManifest ciOnlyAnswers sampleManifest)) as [pkg' Hm]
    by by_evaluation.
  assert (getProp sampleManifest "scripts"
            = Some (JObj [ ("start", JStr "bun src/index.ts");
                           ("prepare", JStr "husky") ])) as Hs
    by reflexivity.
  destruct (manifest_scripts ciOnlyAnswers _ _ _ Hm Hs)
    as (inner' & Hinner & Hstart & Hprepare & _).
  exists pkg', inner'. split; [exact Hm |]. split; [exact Hinner |].
  split; [exact Hstart | exact Hprepare].
Defined.


(** The README the sample run writes is below the project directory. *)
Lemma run_inside_project_witness :
  let run := program sampleDir readJSON sampleInstall sampleScript sampleFS in
  EWrite (sampleDir ++ ["README.md"])
    (readmeText "myproject" "A sample" ["gitHooks"; "githubCI"])
    ∈ traceOf run
  ∧ below sampleDir (sampleDir ++ ["README.md"]).
Proof.
  intros run.
  assert (EWrite (sampleDir ++ ["README.md"])
            (readmeText "myproject" "A sample" ["gitHooks"; "githubCI"])
            ∈ traceOf run) as Hin by by_evaluation.
  split; [exact Hin |].
  pose proof (run_inside_project sampleDir readJSON sampleInstall sampleScript
                sampleFS) as Hall.
  rewrite Forall_forall in Hall. exact (proj1 (Hall _ Hin)).
Defined.

(** The source file of the second sample project is as before. *)
Lemma untouched_paths_kept_witness :
  let run := program sampleDir readJSON sampleInstall ciOnlyScript sampleProject in
  fsOf run !! (sampleDir ++ ["src"; "index.ts"]) = Some (File "export {}").
Proof.
  intros run.
  assert (Forall (λ rel, ¬ join sampleDir rel
                           `prefix_of` sampleDir ++ ["src"; "index.ts"])
            touchedPaths) as Hq by by_evaluation.
  assert (∀ fs0 : FS,
            (sampleInstall fs0).1 !! (sampleDir ++ ["src"; "index.ts"])
              = fs0 !! (sampleDir ++ ["src"; "index.ts"])) as Hinstall.
  { intros fs0. unfold sampleInstall. cbn [fst]. apply lookup_insert_ne.
    by_evaluation. }
  unfold run.
  rewrite (untouched_paths_kept sampleDir readJSON sampleInstall ciOnlyScript
             sampleProject _ (or_intror Hq) Hinstall).
  vm_compute. reflexivity.
Defined.

(** The third submission is the version. *)
Lemma prompt_answers_witness :
  semverPrefix "1.0.0-rc.1" = true
  ∧ ∃ pre post,
      onVersion ciOnlyScript = pre ++ Value "1.0.0-rc.1" :: post
      ∧ Forall (λ s, ∃ v, s = Value v ∧ semverPrefix v = false) pre.
Proof.
  assert (outcomeOf (promptSequence ciOnlyScript ∅) = Ret ciOnlyAnswers) as Hout
    by (vm_compute; reflexivity).
  destruct (prompt_answers ciOnlyScript ∅ _ ciOnlyAnswers _
              (run_eta _ _ Hout))
    as (_ & _ & _ & _ & _ & _ & _ & Hsem & pre & post & Hsubs & Hpre & _).
  split; [exact Hsem |]. exists pre, post. split; [exact Hsubs | exact Hpre].
Defined.

(** The manifest of the sample project after the run. *)
Lemma manifest_file_after_witness :
  let run := program sampleDir readJSON sampleInstall sampleScript sampleFS in
  outcomeOf run = Ret ()
  ∧ fsOf run !! PKG_PATH sampleDir
      = Some (File (JSON_stringify (JObj sampleWritten) TAB +:+ LF)).
Proof.
  intros run.
  assert (∀ fs0 : FS,
            (sampleInstall fs0).1 !! PKG_PATH sampleDir
              = fs0 !! PKG_PATH sampleDir) as Hinstall.
  { intros fs0. unfold sampleInstall. cbn [fst]. apply lookup_insert_ne.
    by_evaluation. }
  assert (outcomeOf run = Ret ()) as Hout by (vm_compute; reflexivity).
  destruct (manifest_file_after sampleDir readJSON sampleInstall sampleScript
              sampleFS (fsOf run) (traceOf run) Hinstall
              (run_eta run (Ret ()) Hout))
    as (a & t1 & text & pkg & pkg' & Hprompt & Htext & Hparse & Hmut & Hfile).
  assert (a = sampleAnswers) as ->.
  { apply (f_equal outcomeOf) in Hprompt. vm_compute in Hprompt.
    by injection Hprompt as <-. }
  assert (text = JSON_stringify sampleManifest TAB +:+ LF) as ->.
  { vm_compute in Htext. by injection Htext as <-. }
  assert (pkg = sampleManifest) as ->.
  { vm_compute in Hparse. by injection Hparse as <-. }
  assert (pkg' = JObj sampleWritten) as ->.
  { vm_compute in Hmut. by injection Hmut as <-. }
  split; [exact Hout | exact Hfile].
Defined.

(** The README of the sample project after the run. *)
Lemma readme_file_after_witness :
  let run := program sampleDir readJSON sampleInstall sampleScript sampleFS in
  outcomeOf run = Ret ()
  ∧ fsOf run !! join sampleDir "README.md"
      = Some (File (readmeText "myproject" "A sample" ["gitHooks"; "githubCI"])).
Proof.
  intros run.
  assert (outcomeOf run = Ret ()) as Hout by (vm_compute; reflexivity).
  split; [exact Hout |].
  exact (readme_file_after sampleDir readJSON sampleInstall sampleScript
           sampleFS (fsOf run) (traceOf run) "A sample"
           ["gitHooks"; "githubCI"] eq_refl eq_refl
           (run_eta run (Ret ()) Hout)).
Defined.

(** The license of the second sample project is removed for the user who
    takes none. *)
Lemma license_file_after_witness :
  let run := program sampleDir readJSON sampleInstall ciOnlyScript sampleProject in
  outcomeOf run = Ret ()
  ∧ sampleProject !! join sampleDir "LICENSE" = Some (File "MIT License")
  ∧ fsOf run !! join sampleDir "LICENSE" = None.
Proof.
  intros run.
  assert (∀ fs0 : FS,
            (sampleInstall fs0).1 !! join sampleDir "LICENSE"
              = fs0 !! join sampleDir "LICENSE") as Hinstall.
  { intros fs0. unfold sampleInstall. cbn [fst]. apply lookup_insert_ne.
    by_evaluation. }
  assert (outcomeOf run = Ret ()) as Hout by (vm_compute; reflexivity).
  split; [exact Hout |]. split; [vm_compute; reflexivity |].
  exact (license_file_after sampleDir readJSON sampleInstall ciOnlyScript
           sampleProject (fsOf run) (traceOf run) UNLICENSED Hinstall eq_refl
           (run_eta run (Ret ()) Hout)).
Defined.

(** The lint-staged file and the [setup] directory are gone after the run
    of the user who keeps the CI workflow only. *)
Lemma removed_paths_gone_witness :
  let run := program sampleDir readJSON sampleInstall ciOnlyScript sampleProject in
  outcomeOf run = Ret ()
  ∧ is_Some (sampleProject !! join sampleDir ".lintstagedrc")
  ∧ fsOf run !! join sampleDir ".lintstagedrc" = None
  ∧ fsOf run !! join sampleDir "setup" = None.
Proof.
  intros run.
  assert (∀ (rel : string) (fs0 : FS),
            fs0 !! join sampleDir rel = None →
            join sampleDir rel ≠ sampleDir ++ ["bun.lock"] →
            (sampleInstall fs0).1 !! join sampleDir rel = None) as Hinstall.
  { intros rel fs0 Hnone Hne. unfold sampleInstall. cbn [fst].
    rewrite lookup_insert_ne; [exact Hnone | congruence]. }
  assert (outcomeOf run = Ret ()) as Hout by (vm_compute; reflexivity).
  assert (resolvedFiles ["githubCI"]
            = Some [ ".husky"; "commitlint.config.js"; ".lintstagedrc";
                     ".github/ISSUE_TEMPLATE";
                     ".github/PULL_REQUEST_TEMPLATE.md";
                     ".markdownlint.json"; ".markdownlintignore";
                     "CODE_OF_CONDUCT.md"; "CLAUDE.md" ]) as Hfsr
    by (vm_compute; reflexivity).
  split; [exact Hout |]. split; [by_evaluation |]. split.
  - apply (removed_paths_gone sampleDir readJSON sampleInstall ciOnlyScript
             sampleProject (fsOf run) (traceOf run) ["githubCI"] _
             ".lintstagedrc" eq_refl Hfsr).
    + left. by_evaluation.
    + intros fs0 Hnone. apply Hinstall; [exact Hnone | by_evaluation].
    + exact (run_eta run (Ret ()) Hout).
  - apply (removed_paths_gone sampleDir readJSON sampleInstall ciOnlyScript
             sampleProject (fsOf run) (traceOf run) ["githubCI"] _
             "setup" eq_refl Hfsr).
    + by right.
    + intros fs0 Hnone. apply Hinstall; [exact Hnone | by_evaluation].
    + exact (run_eta run (Ret ()) Hout).
Defined.


(** The run of the user who drops the git hooks installs again. *)
Lemma install_iff_dependencies_witness :
  let run := program sampleDir readJSON sampleInstall ciOnlyScript sampleProject in
  outcomeOf run = Ret () ∧ EInstall ∈ traceOf run.
Proof.
  intros run.
  assert (outcomeOf run = Ret ()) as Hout by (vm_compute; reflexivity).
  split; [exact Hout |].
  apply (install_iff_dependencies sampleDir readJSON sampleInstall ciOnlyScript
           ["githubCI"] sampleProject (fsOf run) (traceOf run) eq_refl
           (run_eta run (Ret ()) Hout)).
  exists ("markdownlint",
          {| label := "Markdownlint";
             hint := Some "markdown file linting";
             files := [".markdownlint.json"; ".markdownlintignore"];
             devDeps := ["markdownlint-cli"];
             scripts := None |}).
  split; [by_evaluation |]. split; by_evaluation.
Defined.

(** In an empty directory the run fails at the manifest. *)
Lemma bad_manifest_fails_witness :
  let run := program sampleDir readJSON sampleInstall sampleScript ∅ in
  outcomeOf run = Exit 1 ∧ fsOf run = ∅
  ∧ last (traceOf run) = Some (EError "Setup failed: ENOENT").
Proof.
  intros run.
  assert (outcomeOf (promptSequence sampleScript ∅) = Ret sampleAnswers) as Hout
    by (vm_compute; reflexivity).
  assert (manifestError readJSON ((∅ : FS) !! PKG_PATH sampleDir)
            = Some "ENOENT") as Herr by (vm_compute; reflexivity).
  pose proof (bad_manifest_fails sampleDir readJSON sampleInstall sampleScript
                ∅ _ sampleAnswers _ "ENOENT" (run_eta _ _ Hout) Herr) as Hrun.
  unfold run. rewrite Hrun. split; [done |]. split; [done |].
  unfold traceOf. cbn [snd]. rewrite app_comm_cons.
  change [ESpinner "Configuring project..."; ERead (PKG_PATH sampleDir);
          EError ("Setup failed: " +:+ "ENOENT")]
    with ([ESpinner "Configuring project..."; ERead (PKG_PATH sampleDir)]
          ++ [EError "Setup failed: ENOENT"]).
  by rewrite app_assoc, last_snoc.
Defined.

(** The sample run ends by itself, after the closing message. *)
Lemma how_the_process_ends_witness :
  let run := program sampleDir readJSON sampleInstall sampleScript sampleFS in
  outcomeOf run = Ret ()
  ∧ last (traceOf run) = Some (EOutro "Done! Run `bun start` to begin.").
Proof.
  intros run.
  assert (outcomeOf run = Ret ()) as Hout by (vm_compute; reflexivity).
  pose proof (how_the_process_ends sampleDir readJSON sampleInstall
                sampleScript sampleFS) as Hend.
  fold run in Hend. rewrite Hout in Hend.
  split; [exact Hout | exact (proj1 Hend)].
Defined.

(** In an empty directory the four rules pass. *)
Lemma cleanup_skips_missing_witness :
  outcomeOf (crossFeatureCleanup sampleDir readJSON [] ∅) = Ret ()
  ∧ fsOf (crossFeatureCleanup sampleDir readJSON [] ∅) = ∅.
Proof.
  destruct (cleanup_skips_missing sampleDir readJSON [] ∅
              (lookup_empty _) (lookup_empty _) (lookup_empty _))
    as (Hout & Hfs & _).
  split; [exact Hout | exact Hfs].
Defined.

(** The editor settings of the second sample project, for the user who
    selects nothing: both sections are gone. *)
Lemma vscode_settings_after_witness :
  let run := program sampleDir readJSON sampleInstall bareScript sampleProject in
  outcomeOf run = Ret ()
  ∧ fsOf run !! join sampleDir ".vscode/settings.json"
      = Some (File (JSON_stringify (JObj [("editor.formatOnSave", JBool true)])
                      TAB +:+ LF)).
Proof.
  intros run.
  assert (∀ fs0 : FS,
            (sampleInstall fs0).1 !! join sampleDir ".vscode/settings.json"
              = fs0 !! join sampleDir ".vscode/settings.json") as Hinstall.
  { intros fs0. unfold sampleInstall. cbn [fst]. apply lookup_insert_ne.
    by_evaluation. }
  assert (outcomeOf run = Ret ()) as Hout by (vm_compute; reflexivity).
  assert (sampleProject !! join sampleDir ".vscode/settings.json"
            = Some (File (JSON_stringify sampleSettings TAB +:+ LF))) as Hlook
    by (vm_compute; reflexivity).
  assert (readJSON (JSON_stringify sampleSettings TAB +:+ LF)
            = Some sampleSettings) as Hparse by (vm_compute; reflexivity).
  assert (∀ d, deleteProp sampleSettings "[markdown]" = Some d →
               readJSON (JSON_stringify d TAB +:+ LF) = Some d) as Hround.
  { intros d Hd. vm_compute in Hd. injection Hd as <-.
    vm_compute. reflexivity. }
  pose proof (vscode_settings_after sampleDir readJSON sampleInstall bareScript
                [] sampleProject (fsOf run) (traceOf run) _ _
                Hinstall eq_refl Hlook Hparse Hround
                (run_eta run (Ret ()) Hout)) as Hafter.
  cbv zeta in Hafter. rewrite decide_False in Hafter by by_evaluation.
  destruct Hafter as (doc' & Hdoc' & Hfile).
  split; [exact Hout |]. rewrite Hfile.
  vm_compute in Hdoc'. by injection Hdoc' as <-.
Defined.

(** The sample run is one that the conditions foretell. *)
Lemma run_succeeds_witness :
  outcomeOf (program sampleDir readJSON sampleInstall sampleScript sampleFS)
    = Ret ().
Proof.
  assert (outcomeOf (promptSequence sampleScript sampleFS) = Ret sampleAnswers)
    as Hout by (vm_compute; reflexivity).
  apply (run_succeeds sampleDir readJSON sampleInstall sampleScript sampleFS
           _ sampleAnswers _ (JSON_stringify sampleManifest TAB +:+ LF)
           sampleManifest (JObj sampleWritten) (run_eta _ _ Hout)).
  - by_evaluation.
  - vm_compute. reflexivity.
  - vm_compute. reflexivity.
  - vm_compute. reflexivity.
  - vm_compute. reflexivity.
  - by_evaluation.
  - intros fs0. split; [reflexivity |].
    unfold sampleInstall. cbn [fst]. apply lookup_insert_ne. by_evaluation.
Defined.

(** The note of the sample run has two lines for the kept features and
    four for the others. *)
Lemma summary_note_witness :
  let run := program sampleDir readJSON sampleInstall sampleScript sampleFS in
  outcomeOf run = Ret ()
  ∧ ∃ (kept removed : list string) before,
      List.length kept = 2 ∧ List.length removed = 4
      ∧ traceOf run
          = before ++ [ENote (String.concat LF (kept ++ removed)) "Features";
                       EOutro "Done! Run `bun start` to begin."].
Proof.
  intros run.
  assert (outcomeOf run = Ret ()) as Hout by (vm_compute; reflexivity).
  assert (["gitHooks"; "githubCI"] ⊆ featureKeys) as Hsub by by_evaluation.
  destruct (summary_note sampleDir readJSON sampleInstall sampleScript
              ["gitHooks"; "githubCI"] sampleFS (fsOf run) (traceOf run)
              eq_refl Hsub (run_eta run (Ret ()) Hout))
    as (kept & removed & Hkept & Hremoved & before & Htrace).
  split; [exact Hout |]. exists kept, removed, before.
  apply Forall2_length in Hkept, Hremoved.
  split; [by rewrite <- Hkept |]. split; [by rewrite <- Hremoved |].
  exact Htrace.
Defined.
